(** * PM2.5 prediction back end: time validation, bounded cache and
      result cache, feature engine, provider lookups, district predictor,
      batch orchestrator and request handlers.

    A shallow embedding of the Python sources under [pm-2-5-be/] and the
    properties of their specification.

    Conventions.
    - An aware [datetime] in the zone [TZ_VN] is the number of microseconds
      since 1970-01-01T00:00:00Z (Python's [datetime] has exactly this
      resolution).  Asia/Ho_Chi_Minh is taken at its fixed offset UTC+7,
      which it has had without daylight saving since 1975.
    - A Python [float] is a rational number of [Q]; [NaN] (and a missing
      value of pandas) is [None] in a [cell].  Arithmetic is exact: the
      rounding of binary floating point is not modelled, and the
      transcendental functions of NumPy are parameters of the development.
    - An exception is a pair of its class name and its message; code that
      may raise returns in [exc + A].
    - Logging calls are dropped, except where evaluating their arguments can
      raise. *)

From Stdlib Require Import ZArith QArith Qround Sorted Ascii.
From stdpp Require Import list gmap strings pretty.

Local Open Scope Z_scope.

(* ===================================================================== *)
(** * Exceptions *)
(* ===================================================================== *)

Record exc := Exc { exc_type : string; exc_msg : string }.

Definition result (A : Type) : Type := exc + A.

Definition raise {A} (ty msg : string) : result A := inl (Exc ty msg).

Definition rbind {A B} (m : result A) (k : A -> result B) : result B :=
  match m with
  | inl e => inl e
  | inr a => k a
  end.

Notation "'let!' x ':=' m 'in' k" := (rbind m (fun x => k))
  (at level 10, x name, m at level 100, k at level 200).

(* ===================================================================== *)
(** * Time: [datetime], [timedelta] and the calendar *)
(* ===================================================================== *)

Definition datetime := Z.      (* microseconds since the epoch, UTC *)
Definition timedelta := Z.     (* microseconds *)

Definition us_per_second : Z := 1000000.
Definition td_minutes (n : Z) : timedelta := n * 60 * us_per_second.
Definition td_hours (n : Z) : timedelta := n * 3600 * us_per_second.
Definition td_days (n : Z) : timedelta := n * 86400 * us_per_second.

(** [TZ_VN = pytz.timezone('Asia/Ho_Chi_Minh')], settings.py line 8. *)
Definition TZ_VN_offset : timedelta := td_hours 7.

(** Wall-clock reading of an aware datetime: [t.replace(tzinfo=None)],
    counted in microseconds since 1970-01-01T00:00 local time. *)
Definition naive (t : datetime) : Z := t + TZ_VN_offset.

(** [d.date()], as the number of days since 1970-01-01; [d.hour]. *)
Definition date_of (t : datetime) : Z := naive t / td_days 1.
Definition hour_of (t : datetime) : Z := (naive t / td_hours 1) mod 24.
Definition minute_of (t : datetime) : Z := (naive t / td_minutes 1) mod 60.

(** [d.dayofweek] of pandas: Monday is 0; 1970-01-01 was a Thursday. *)
Definition dayofweek_of (t : datetime) : Z := (date_of t + 3) mod 7.

(** Proleptic Gregorian calendar, days since 1970-01-01 <-> (y, m, d). *)
Definition days_from_civil (y m d : Z) : Z :=
  let y' := if m <=? 2 then y - 1 else y in
  let era := y' / 400 in
  let yoe := y' - era * 400 in
  let mp := if m <=? 2 then m + 9 else m - 3 in
  let doy := (153 * mp + 2) / 5 + d - 1 in
  let doe := yoe * 365 + yoe / 4 - yoe / 100 + doy in
  era * 146097 + doe - 719468.

Definition civil_from_days (z : Z) : Z * Z * Z :=
  let z := z + 719468 in
  let era := z / 146097 in
  let doe := z - era * 146097 in
  let yoe := (doe - doe / 1460 + doe / 36524 - doe / 146096) / 365 in
  let doy := doe - (365 * yoe + yoe / 4 - yoe / 100) in
  let mp := (5 * doy + 2) / 153 in
  let d := doy - (153 * mp + 2) / 5 + 1 in
  let m := if mp <? 10 then mp + 3 else mp - 9 in
  (if m <=? 2 then yoe + era * 400 + 1 else yoe + era * 400, m, d).

Definition month_of (t : datetime) : Z := snd (fst (civil_from_days (date_of t))).

Definition is_leap (y : Z) : bool :=
  ((y mod 4 =? 0) && negb (y mod 100 =? 0)) || (y mod 400 =? 0).

Definition days_in_month (y m : Z) : Z :=
  if m =? 2 then (if is_leap y then 29 else 28)
  else if (m =? 4) || (m =? 6) || (m =? 9) || (m =? 11) then 30 else 31.

(** The range of [datetime], in wall-clock readings: from 0001-01-01
    00:00:00 to 9999-12-31 23:59:59.999999. *)
Definition datetime_min_naive : Z := td_days (days_from_civil 1 1 1).
Definition datetime_max_naive : Z := td_days (days_from_civil 9999 12 31 + 1) - 1.

(** [TZ_VN.localize(datetime(year, month, day, hour, minute))].  The
    constructor raises [ValueError] on a field out of range.  [localize]
    of pytz looks up the zone at the time one day earlier and one day
    later, and that addition raises [OverflowError] when its result is not
    in the range of [datetime]: on 0001-01-01 and on 9999-12-31. *)
Definition localize_datetime (year month day hour minute : Z) : result datetime :=
  if negb ((1 <=? year) && (year <=? 9999)) then
    raise "ValueError" ("year " +:+ pretty year +:+ " is out of range")
  else if negb ((1 <=? month) && (month <=? 12)) then
    raise "ValueError" "month must be in 1..12"
  else if negb ((1 <=? day) && (day <=? days_in_month year month)) then
    raise "ValueError" "day is out of range for month"
  else if negb ((0 <=? hour) && (hour <=? 23)) then
    raise "ValueError" "hour must be in 0..23"
  else if negb ((0 <=? minute) && (minute <=? 59)) then
    raise "ValueError" "minute must be in 0..59"
  else
    let dt := td_days (days_from_civil year month day)
              + td_hours hour + td_minutes minute in
    if (dt - td_days 1 <? datetime_min_naive)
       || (datetime_max_naive <? dt + td_days 1)
    then raise "OverflowError" "date value out of range"
    else inr (dt - TZ_VN_offset).

(* ===================================================================== *)
(** * Time validator (api/routes.py, [validate_prediction_request]) *)
(* ===================================================================== *)

Inductive error_code := FUTURE_TIME | TIME_TOO_RECENT | TIME_TOO_OLD.

(** The [info] dictionary of an accepted request: [target_time],
    [prediction_for], and [data_from] with its three instants. *)
Record window_info := WindowInfo {
  wi_target_time : datetime;
  wi_prediction_for : datetime;
  wi_t_minus_2 : datetime;
  wi_t_minus_1 : datetime;
  wi_t_0 : datetime
}.

(** The tuple [(is_valid, error_code, error_message, info_dict)] with the
    two shapes it takes: [(False, code, message, details)] and
    [(True, None, None, info)].  The message and the details of a rejection
    are formatted text of [now] and [target_time] and are not kept. *)
Inductive validation :=
  | Rejected (code : error_code)
  | Valid (info : window_info).

(** Body of [validate_prediction_request] once [now = datetime.now(TZ_VN)]
    has been read and [target_time] built (lines 75-142).  A target that
    [localize] has returned is not on the last day of [datetime], so the
    hour added on line 76 stays in range. *)
Definition validate_at (now target_time : datetime) : validation :=
  let prediction_time := target_time + td_hours 1 in
  (* RULE 1 *)
  if now <? target_time then Rejected FUTURE_TIME
  else
    (* RULE 2 *)
    let safe_time := now - td_minutes 30 in
    if safe_time <? target_time then Rejected TIME_TOO_RECENT
    else
      (* RULE 3 *)
      let oldest_allowed := now - td_days 90 in
      if target_time <? oldest_allowed then Rejected TIME_TOO_OLD
      else
        let t_minus_2 := target_time - td_hours 2 in
        let t_minus_1 := target_time - td_hours 1 in
        Valid (WindowInfo target_time prediction_time t_minus_2 t_minus_1 target_time).

Definition validate_prediction_request (now : datetime)
    (year month day hour minute : Z) : result validation :=
  let! target_time := localize_datetime year month day hour minute in
  inr (validate_at now target_time).

(** The outcome alone: one of the three codes, or valid. *)
Inductive outcome := OFuture | ORecent | OOld | OValid.

Definition outcome_of (v : validation) : outcome :=
  match v with
  | Rejected FUTURE_TIME => OFuture
  | Rejected TIME_TOO_RECENT => ORecent
  | Rejected TIME_TOO_OLD => OOld
  | Valid _ => OValid
  end.

(* ===================================================================== *)
(** * Python containers *)
(* ===================================================================== *)

(** A Python value that a method without [return] statement yields, or an
    integer. *)
Inductive pyval := PyNone | PyInt (n : Z).

(** A [dict] whose iteration order is observed: keys are kept in insertion
    order, assigning to a present key keeps its place, [pop] removes it. *)
Definition odict (V : Type) : Type := list (string * V).

Fixpoint od_lookup {V} (k : string) (d : odict V) : option V :=
  match d with
  | [] => None
  | (k', v) :: d' => if String.eqb k' k then Some v else od_lookup k d'
  end.

Fixpoint od_insert {V} (k : string) (v : V) (d : odict V) : odict V :=
  match d with
  | [] => [(k, v)]
  | (k', v') :: d' =>
      if String.eqb k' k then (k, v) :: d' else (k', v') :: od_insert k v d'
  end.

Fixpoint od_pop {V} (k : string) (d : odict V) : odict V :=
  match d with
  | [] => []
  | (k', v') :: d' =>
      if String.eqb k' k then od_pop k d' else (k', v') :: od_pop k d'
  end.

Definition od_keys {V} (d : odict V) : list string := d.*1.

(** [min(iterable, key=...)]: the first item whose key is least; [lt x y]
    decides [key(x) < key(y)].  An empty iterable raises [ValueError]. *)
Fixpoint py_min_from {A} (lt : A -> A -> bool) (best : A) (l : list A) : A :=
  match l with
  | [] => best
  | x :: l' => py_min_from lt (if lt x best then x else best) l'
  end.

Definition py_min {A} (lt : A -> A -> bool) (l : list A) : result A :=
  match l with
  | [] => raise "ValueError" "min() arg is an empty sequence"
  | x :: l' => inr (py_min_from lt x l')
  end.

Definition Qltb (a b : Q) : bool :=
  match (a ?= b)%Q with Lt => true | _ => false end.

(* ===================================================================== *)
(** * Bounded cache (utils/cache_manager.py, class [CacheManager]) *)
(* ===================================================================== *)

Module CacheManager.
Section CacheManager.
Context {V : Type}.

(** The attributes of an instance.  [cache] and [access_count] are only
    looked up by key; [timestamps] is also iterated by [_evict_lru], so
    it keeps its insertion order.  Clock readings of [time.time()] are
    rationals, in seconds. *)
Record t := Make {
  cache : gmap string V;
  timestamps : odict Q;
  access_count : gmap string nat;
  max_size : Z
}.

(** [__init__] *)
Definition init (max_size : Z) : t := Make ∅ [] ∅ max_size.

(** [len(self.cache)] *)
Definition len (s : t) : Z := Z.of_nat (size (cache s)).

(** [_remove] *)
Definition _remove (key : string) (s : t) : t :=
  Make (delete key (cache s))
       (od_pop key (timestamps s))
       (delete key (access_count s))
       (max_size s).

(** [get]; [now] is the reading of [time.time()] on line 27.  The method
    returns the stored value on a hit and [None] otherwise. *)
Definition get (key : string) (ttl : Z) (now : Q) (s : t) : option V * t :=
  match cache s !! key with
  | Some v =>
      let timestamp := default 0%Q (od_lookup key (timestamps s)) in
      if Qltb (now - timestamp)%Q (inject_Z ttl) then
        (Some v,
         Make (cache s) (timestamps s)
              (<[key := (default 0%nat (access_count s !! key) + 1)%nat]>
                 (access_count s))
              (max_size s))
      else (None, _remove key s)
  | None => (None, s)
  end.

(** The key function of line 62, [(access_count.get(k, 0), timestamp)],
    compared as Python compares tuples. *)
Definition lru_lt (ac : gmap string nat) (x y : string * Q) : bool :=
  let cx := default 0%nat (ac !! x.1) in
  let cy := default 0%nat (ac !! y.1) in
  (cx <? cy)%nat || ((cx =? cy)%nat && Qltb x.2 y.2).

(** [_evict_lru] *)
Definition _evict_lru (s : t) : result t :=
  if decide (cache s = ∅) then inr s
  else
    let! lru := py_min (lru_lt (access_count s)) (timestamps s) in
    inr (_remove lru.1 s).

(** [set]; [now] is the reading of [time.time()] on line 46. *)
Definition set (key : string) (value : V) (now : Q) (s : t) : result t :=
  let! s := (if max_size s <=? len s then _evict_lru s else inr s) in
  inr (Make (<[key := value]> (cache s))
            (od_insert key now (timestamps s))
            (<[key := 0%nat]> (access_count s))
            (max_size s)).

(** [clear]: no [return] statement, so the call yields [None]; the count
    taken on line 68 goes to the log message of line 72, which is the
    second component here. *)
Definition clear (s : t) : pyval * Z * t :=
  let count := len s in
  (PyNone, count, Make ∅ [] ∅ (max_size s)).

(** [stats], fields [size] and [max_size] *)
Definition stats (s : t) : Z * Z := (len s, max_size s).

(** The operations of the public interface, each with the clock reading
    it takes, and their sequential execution. *)
Inductive op :=
  | OpGet (key : string) (ttl : Z) (now : Q)
  | OpSet (key : string) (value : V) (now : Q)
  | OpClear.

Definition step (s : t) (o : op) : result t :=
  match o with
  | OpGet key ttl now => inr (get key ttl now s).2
  | OpSet key value now => set key value now s
  | OpClear => inr (clear s).2
  end.

Fixpoint run (s : t) (ops : list op) : result t :=
  match ops with
  | [] => inr s
  | o :: ops' => let! s' := step s o in run s' ops'
  end.

(** Representation invariant: the three dictionaries have the same keys,
    and a key occurs once in [timestamps]. *)
Definition wf (s : t) : Prop :=
  NoDup (od_keys (timestamps s))
  ∧ dom (cache s) = list_to_set (od_keys (timestamps s))
  ∧ dom (access_count s) = dom (cache s).

(** Lexicographic order of the eviction keys. *)
Definition lru_key (s : t) (k : string) : nat * Q :=
  (default 0%nat (access_count s !! k),
   default 0%Q (od_lookup k (timestamps s))).

Definition lru_le (a b : nat * Q) : Prop :=
  (a.1 < b.1)%nat ∨ (a.1 = b.1 ∧ (a.2 <= b.2)%Q).

End CacheManager.
Arguments t : clear implicits.
Arguments op : clear implicits.
End CacheManager.

(* ===================================================================== *)
(** * Numbers of NumPy and pandas *)
(* ===================================================================== *)

Definition cell := option Q.           (* [None] is NaN *)
Definition Series := list cell.

Definition cell_map (f : Q -> Q) (a : cell) : cell := f <$> a.

Definition cell_binop (f : Q -> Q -> Q) (a b : cell) : cell :=
  match a, b with
  | Some x, Some y => Some (f x y)
  | _, _ => None
  end.

Definition Qsum (l : list Q) : Q := foldr Qplus 0%Q l.

Definition Qmean (l : list Q) : Q := (Qsum l / inject_Z (Z.of_nat (length l)))%Q.

Definition Qmin (a b : Q) : Q := if Qltb b a then b else a.
Definition Qmax (a b : Q) : Q := if Qltb a b then b else a.

(** Sum of the squared deviations from the mean. *)
Definition Qssd (l : list Q) : Q :=
  let m := Qmean l in Qsum (map (fun x => (x - m) * (x - m))%Q l).

(** [round(x, 2)]: to the nearest hundredth, a tie going to the even one. *)
Definition round_half_even (x : Q) : Z :=
  let f := Qfloor x in
  let r := (x - inject_Z f)%Q in
  if Qltb r (1 # 2) then f
  else if Qltb (1 # 2) r then f + 1
  else if Z.even f then f else f + 1.

Definition round2 (x : Q) : Q := (inject_Z (round_half_even (x * 100)) / 100)%Q.

(* ===================================================================== *)
(** * A pandas [DataFrame] with a [DatetimeIndex] *)
(* ===================================================================== *)

Record DataFrame := Frame {
  df_index : list datetime;
  df_columns : odict Series
}.

Definition nrows (df : DataFrame) : nat := length (df_index df).

(** [df[col]] *)
Definition getitem (df : DataFrame) (col : string) : result Series :=
  match od_lookup col (df_columns df) with
  | Some s => inr s
  | None => raise "KeyError" col
  end.

(** The frame after [df[col] = s]. *)
Definition set_column (col : string) (s : Series) (df : DataFrame) : DataFrame :=
  Frame (df_index df) (od_insert col s (df_columns df)).

(** A stable sort by insertion, and the positions it yields. *)
Fixpoint insert_by {A} (le : A -> A -> bool) (x : A) (l : list A) : list A :=
  match l with
  | [] => [x]
  | y :: l' => if le x y then x :: y :: l' else y :: insert_by le x l'
  end.

Definition sort_by {A} (le : A -> A -> bool) (l : list A) : list A :=
  foldr (insert_by le) [] l.

Definition argsort (keys : list Z) : list nat :=
  (sort_by (fun a b => a.2 <=? b.2) (zip (seq 0 (length keys)) keys)).*1.

Definition take_at {A} (pos : list nat) (l : list A) : list A :=
  omap (fun i => l !! i) pos.

(** [df.sort_index()]: a new frame, rows in ascending order of the index
    (rows of equal index keep their order). *)
Definition sort_index (df : DataFrame) : DataFrame :=
  let pos := argsort (df_index df) in
  Frame (take_at pos (df_index df))
        (map (fun c => (c.1, take_at pos c.2)) (df_columns df)).

(** [s.shift(n)] for [n >= 0] *)
Definition shift (n : nat) (s : Series) : Series :=
  replicate (Nat.min n (length s)) None ++ take (length s - n) s.

(** [s.diff(n)] *)
Definition diff (n : nat) (s : Series) : Series :=
  zip_with (cell_binop Qminus) s (shift n s).

(** The observations of the window of width [w] that ends at row [i]:
    its values that are not NaN. *)
Definition window_obs (w i : nat) (s : Series) : list Q :=
  omap id (take (Nat.min w (i + 1)) (drop (i + 1 - w) s)).

(** [s.rolling(window=w, min_periods=p)] followed by an aggregation. *)
Definition rolling (w p : nat) (agg : list Q -> cell) (s : Series) : Series :=
  map (fun i => let obs := window_obs w i s in
                if (length obs <? p)%nat then None else agg obs)
      (seq 0 (length s)).

Definition agg_mean (obs : list Q) : cell :=
  match obs with [] => None | _ => Some (Qmean obs) end.

Definition agg_sum (obs : list Q) : cell := Some (Qsum obs).

Definition agg_min (obs : list Q) : cell :=
  match obs with [] => None | x :: l => Some (foldl Qmin x l) end.

(** [df.dropna()]: the rows without a NaN in any column. *)
Definition row_complete (df : DataFrame) (i : nat) : bool :=
  forallb (fun c => match c.2 !! i with Some (Some _) => true | _ => false end)
          (df_columns df).

Definition keep_rows {A} (keep : nat -> bool) (l : list A) : list A :=
  (filter (fun p => keep p.1 = true) (zip (seq 0 (length l)) l)).*2.

Definition dropna (df : DataFrame) : DataFrame :=
  Frame (keep_rows (row_complete df) (df_index df))
        (map (fun c => (c.1, keep_rows (row_complete df) c.2)) (df_columns df)).

(** [df.empty]: an axis of length 0. *)
Definition df_empty (df : DataFrame) : bool :=
  (nrows df =? 0)%nat || (length (df_columns df) =? 0)%nat.

(** [df.tail(n)] *)
Definition tail (n : nat) (df : DataFrame) : DataFrame :=
  Frame (drop (nrows df - n) (df_index df))
        (map (fun c => (c.1, drop (length c.2 - n) c.2)) (df_columns df)).

(** [df[cols]] with a list of names: the named columns, in the order asked. *)
Fixpoint select_columns (cols : list string) (df : DataFrame) : result (odict Series) :=
  match cols with
  | [] => inr []
  | c :: cols' =>
      let! s := getitem df c in
      let! rest := select_columns cols' df in
      inr ((c, s) :: rest)
  end.

(* ===================================================================== *)
(** * Objects: a store of frames *)
(* ===================================================================== *)

(** Frames are Python objects; a variable holds a reference.  The store
    lists the frames allocated so far and a reference is a position in it.
    A computation may raise, and keeps the store it has reached. *)
Definition ref := nat.
Abbreviation store := (list DataFrame).
Definition M (A : Type) : Type := store -> result A * store.

Definition mret {A} (a : A) : M A := fun h => (inr a, h).

Definition mbind_M {A B} (m : M A) (k : A -> M B) : M B :=
  fun h => match m h with
           | (inl e, h') => (inl e, h')
           | (inr a, h') => k a h'
           end.

Notation "'let*' x ':=' m 'in' k" := (mbind_M m (fun x => k))
  (at level 10, x name, m at level 100, k at level 200).

Definition mraise {A} (ty msg : string) : M A := fun h => (raise ty msg, h).

Definition lift {A} (x : result A) : M A := fun h => (x, h).

(** A new object. *)
Definition alloc (f : DataFrame) : M ref := fun h => (inr (length h), h ++ [f]).

(** The object a reference points to. *)
Definition deref (r : ref) : M DataFrame :=
  fun h => match h !! r with
           | Some f => (inr f, h)
           | None => (raise "ReferenceError" "no such object", h)
           end.

(** [df[col] = s]: the object is changed in place. *)
Definition setitem (r : ref) (col : string) (s : Series) : M unit :=
  fun h => match h !! r with
           | Some f => (inr tt, <[r := set_column col s f]> h)
           | None => (raise "ReferenceError" "no such object", h)
           end.

(* ===================================================================== *)
(** * Feature engine (core/feature_engineering.py) *)
(* ===================================================================== *)

Section FeatureEngine.

(** [np.pi], [np.sin], [np.cos] and the square root taken by [std]. *)
Variable np_pi : Q.
Variables np_sin np_cos np_sqrt : Q -> Q.

(** [rolling(...).std()]: the sample deviation (one degree of freedom
    removed), NaN below two observations. *)
Definition agg_std (obs : list Q) : cell :=
  if (length obs <? 2)%nat then None
  else Some (np_sqrt (Qssd obs / inject_Z (Z.of_nat (length obs - 1)))).

(** [np.deg2rad] *)
Definition deg2rad (x : Q) : Q := (x * (np_pi / 180))%Q.

(** One assignment [df_features[name] = e], with [e] an expression over
    the frame [df]. *)
Definition assignment : Type := string * (DataFrame -> result Series).

Definition derive (col : string) (f : Series -> Series) : DataFrame -> result Series :=
  fun df => let! s := getitem df col in inr (f s).

Definition original_cols : list string :=
  ["temperature_2m"; "relative_humidity_2m"; "precipitation";
   "pressure_msl"; "windspeed_10m"; "shortwave_radiation";
   "co"; "no"; "no2"; "o3"; "so2"; "pm10"; "nh3"].

(** Lines 22-52, in order: lags, rolling statistics, differences and the
    loop over [original_cols]. *)
Definition window_assignments : list assignment :=
  [ ("pm2_5_lag_1", derive "pm2_5" (shift 1));
    ("pm2_5_lag_2", derive "pm2_5" (shift 2));
    ("so2_lag_1", derive "so2" (shift 1));
    ("co_lag_1", derive "co" (shift 1));
    ("radiation_lag_1", derive "shortwave_radiation" (shift 1));
    ("pm2_5_roll_avg_3hr", derive "pm2_5" (rolling 3 1 agg_mean));
    ("pm2_5_roll_std_3hr", derive "pm2_5" (rolling 3 1 agg_std));
    ("temp_roll_avg_3hr", derive "temperature_2m" (rolling 3 1 agg_mean));
    ("humid_roll_avg_3hr", derive "relative_humidity_2m" (rolling 3 1 agg_mean));
    ("so2_roll_avg_3hr", derive "so2" (rolling 3 1 agg_mean));
    ("wind_roll_avg_3hr", derive "windspeed_10m" (rolling 3 1 agg_mean));
    ("wind_roll_min_3hr", derive "windspeed_10m" (rolling 3 1 agg_min));
    ("co_roll_avg_3hr", derive "co" (rolling 3 1 agg_mean));
    ("precip_roll_sum_3hr", derive "precipitation" (rolling 3 1 agg_sum));
    ("pm2_5_diff_1hr", derive "pm2_5" (diff 1));
    ("temp_diff_1hr", derive "temperature_2m" (diff 1));
    ("humid_diff_1hr", derive "relative_humidity_2m" (diff 1)) ]
  ++ map (fun col => (col, derive col id)) original_cols.

(** [months.map(lambda x: 1 if x in rainy_season_months else 0)] *)
Definition is_rainy_season (month : Z) : Q :=
  if (5 <=? month) && (month <=? 10) then 1%Q else 0%Q.

(** [np.sin(2 * np.pi * x / period)], and the same with [np.cos] *)
Definition cyc (f : Q -> Q) (period : Q) (x : Z) : cell :=
  Some (f (2 * np_pi * inject_Z x / period)%Q).

(** Lines 54-75: the time encodings of [index_time = df_features.index]
    and the interaction terms. *)
Definition time_assignments (index_time : list datetime) : list assignment :=
  let hours := map hour_of index_time in
  let days := map dayofweek_of index_time in
  let months := map month_of index_time in
  [ ("is_rainy_season", fun _ => inr (map (fun m => Some (is_rainy_season m)) months));
    ("hour_sin", fun _ => inr (map (cyc np_sin 24) hours));
    ("hour_cos", fun _ => inr (map (cyc np_cos 24) hours));
    ("month_sin", fun _ => inr (map (cyc np_sin 12) months));
    ("month_cos", fun _ => inr (map (cyc np_cos 12) months));
    ("day_of_week_sin", fun _ => inr (map (cyc np_sin 7) days));
    ("day_of_week_cos", fun _ => inr (map (cyc np_cos 7) days));
    ("temp_humidity", fun df =>
       let! t := getitem df "temperature_2m" in
       let! h := getitem df "relative_humidity_2m" in
       inr (zip_with (cell_binop Qmult) t h));
    ("wind_U", fun df =>
       let! wind_dir := getitem df "winddirection_10m" in
       let! wind_speed := getitem df "windspeed_10m" in
       inr (zip_with (cell_binop Qmult) wind_speed
              (map (cell_map (fun d => np_cos (deg2rad d))) wind_dir)));
    ("wind_V", fun df =>
       let! wind_dir := getitem df "winddirection_10m" in
       let! wind_speed := getitem df "windspeed_10m" in
       inr (zip_with (cell_binop Qmult) wind_speed
              (map (cell_map (fun d => np_sin (deg2rad d))) wind_dir))) ].

(** Run the assignments in order: each reads the frame at [src] and
    writes a column of the frame at [target]. *)
Fixpoint assign_all (target src : ref) (tbl : list assignment) : M unit :=
  match tbl with
  | [] => mret tt
  | (name, e) :: tbl' =>
      let* df := deref src in
      let* s := lift (e df) in
      let* _ := setitem target name s in
      assign_all target src tbl'
  end.

(** [create_features_from_3hours(df_3hours)]; the argument and the value
    returned are references to frames. *)
Definition create_features_from_3hours (df_3hours : ref) : M ref :=
  let* d0 := deref df_3hours in
  if (nrows d0 <? 3)%nat
  then mraise "ValueError" ("Need 3 hours of data, got " +:+ pretty (nrows d0))
  else
    (* line 27 evaluates df_3hours['pm2_5'] for its log message *)
    let* _ := lift (getitem d0 "pm2_5") in
    (* df = df_3hours.sort_index().copy() *)
    let* sorted := alloc (sort_index d0) in
    let* ds := deref sorted in
    let* df := alloc ds in
    (* df_features = pd.DataFrame(index=df.index) *)
    let* d := deref df in
    let* df_features := alloc (Frame (df_index d) []) in
    let* _ := assign_all df_features df window_assignments in
    let* ft := deref df_features in
    let* _ := assign_all df_features df (time_assignments (df_index ft)) in
    (* df_features = df_features.dropna() *)
    let* ft := deref df_features in
    let* dropped := alloc (dropna ft) in
    let* fd := deref dropped in
    if df_empty fd then mraise "ValueError" "Insufficient data to create features"
    else
      (* return df_features.tail(1) *)
      alloc (tail 1 fd).

(** The frame that a run of assignments builds from [ft], and the
    exception that stopped it, if any. *)
Fixpoint eval_assignments (tbl : list assignment) (df ft : DataFrame)
    : option exc * DataFrame :=
  match tbl with
  | [] => (None, ft)
  | (name, e) :: tbl' =>
      match e df with
      | inl err => (Some err, ft)
      | inr s => eval_assignments tbl' df (set_column name s ft)
      end
  end.

(** A run of [create_features_from_3hours] on the frame [d0], in closed
    form: the frames it allocates, in order, and either the exception it
    raises or the position among them of the frame it returns. *)
Definition features_trace (d0 : DataFrame) : result nat * list DataFrame :=
  if (nrows d0 <? 3)%nat
  then (raise "ValueError" ("Need 3 hours of data, got " +:+ pretty (nrows d0)), [])
  else
    match getitem d0 "pm2_5" with
    | inl e => (inl e, [])
    | inr _ =>
        let d := sort_index d0 in
        let r1 := eval_assignments window_assignments d (Frame (df_index d) []) in
        match r1.1 with
        | Some e => (inl e, [d; d; r1.2])
        | None =>
            let r2 := eval_assignments (time_assignments (df_index r1.2)) d r1.2 in
            match r2.1 with
            | Some e => (inl e, [d; d; r2.2])
            | None =>
                let fd := dropna r2.2 in
                if df_empty fd
                then (raise "ValueError" "Insufficient data to create features",
                      [d; d; r2.2; fd])
                else (inr 4%nat, [d; d; r2.2; fd; tail 1 fd])
            end
        end
    end.

(** The same run on a store [h]: new objects follow those of [h]. *)
Definition features_outcome (d0 : DataFrame) (h : store) : result ref * store :=
  (match (features_trace d0).1 with
   | inl e => inl e
   | inr k => inr (length h + k)%nat
   end,
   h ++ (features_trace d0).2).

End FeatureEngine.

(** ** Snapshots: the 15 raw measurements of one instant *)

(** Each measurement is a float, possibly NaN: the values the weather
    lookups build with [float(...)], and the numeric components of the
    air-quality records.  On floats the formatting done by the log lines of
    the predictor does not raise. *)

Record air_data := AirData {
  a_co : cell; a_no : cell; a_no2 : cell; a_o3 : cell;
  a_so2 : cell; a_pm2_5 : cell; a_pm10 : cell; a_nh3 : cell
}.

Record weather_data := WeatherData {
  w_temperature_2m : cell; w_relative_humidity_2m : cell;
  w_precipitation : cell; w_pressure_msl : cell;
  w_windspeed_10m : cell; w_winddirection_10m : cell;
  w_shortwave_radiation : cell
}.

(** [{"datetime": target_time_vn, **air_data, **weather_data}] *)
Record snapshot := Snapshot {
  sn_datetime : datetime;
  sn_air : air_data;
  sn_weather : weather_data
}.

(** The measurements of a snapshot under their keys, in the order of the
    dictionary. *)
Definition snapshot_items (s : snapshot) : list (string * cell) :=
  [ ("co", a_co (sn_air s)); ("no", a_no (sn_air s));
    ("no2", a_no2 (sn_air s)); ("o3", a_o3 (sn_air s));
    ("so2", a_so2 (sn_air s)); ("pm2_5", a_pm2_5 (sn_air s));
    ("pm10", a_pm10 (sn_air s)); ("nh3", a_nh3 (sn_air s));
    ("temperature_2m", w_temperature_2m (sn_weather s));
    ("relative_humidity_2m", w_relative_humidity_2m (sn_weather s));
    ("precipitation", w_precipitation (sn_weather s));
    ("pressure_msl", w_pressure_msl (sn_weather s));
    ("windspeed_10m", w_windspeed_10m (sn_weather s));
    ("winddirection_10m", w_winddirection_10m (sn_weather s));
    ("shortwave_radiation", w_shortwave_radiation (sn_weather s)) ].

Definition snapshot_keys : list string :=
  ["co"; "no"; "no2"; "o3"; "so2"; "pm2_5"; "pm10"; "nh3";
   "temperature_2m"; "relative_humidity_2m"; "precipitation";
   "pressure_msl"; "windspeed_10m"; "winddirection_10m";
   "shortwave_radiation"].

(** [pd.DataFrame(rows).set_index("datetime")]: one column per key, one
    row per snapshot, indexed by the instants. *)
Definition frame_of_snapshots (rows : list snapshot) : DataFrame :=
  Frame (map sn_datetime rows)
        (map (fun k => (k, map (fun s => default None (od_lookup k (snapshot_items s))) rows))
             snapshot_keys).

(** All 15 measurements of the snapshot are numbers. *)
Definition snapshot_non_null (s : snapshot) : Prop :=
  Forall (fun kv => is_Some kv.2) (snapshot_items s).

(** The one-row frame [row] has the value [q] in column [col]. *)
Definition column_is (row : DataFrame) (col : string) (q : Q) : Prop :=
  ∃ v, getitem row col = inr [Some v] ∧ (v == q)%Q.

(* ===================================================================== *)
(** * Snapshot fetcher (core/data_fetcher.py) *)
(* ===================================================================== *)

Section SnapshotFetcher.

(** The three provider lookups ([fetch_air_quality_at_time],
    [fetch_weather_forecast], [fetch_weather_archive]) go through the
    cache and the HTTP session; what they return or raise depends on the
    network, so they are parameters here. *)
Variable fetch_air_quality_at_time : Z -> string -> Q -> Q -> result air_data.
Variable fetch_weather_forecast : datetime -> Q -> Q -> result weather_data.
Variable fetch_weather_archive : datetime -> Q -> Q -> result weather_data.

(** [fetch_weather_at_time]; [now_vn] is the reading of
    [datetime.now(TZ_VN)] on line 69. *)
Definition fetch_weather_at_time (now_vn target_time_vn : datetime)
    (lat lon : Q) : result weather_data :=
  if date_of now_vn <=? date_of target_time_vn
  then fetch_weather_forecast target_time_vn lat lon
  else fetch_weather_archive target_time_vn lat lon.

(** [get_15_features_at_time] *)
Definition get_15_features_at_time (now_vn target_time_vn : datetime)
    (api_key : string) (lat lon : Q) : result snapshot :=
  let timestamp_utc := Z.quot target_time_vn us_per_second in
  let! air := fetch_air_quality_at_time timestamp_utc api_key lat lon in
  let! weather := fetch_weather_at_time now_vn target_time_vn lat lon in
  inr (Snapshot target_time_vn air weather).

End SnapshotFetcher.

(* ===================================================================== *)
(** * District predictor (core/predictor.py) *)
(* ===================================================================== *)

(** A district of the reference list (config/districts.json). *)
Record district := District {
  d_id : Z;
  d_name : string;
  d_name_en : string;
  d_lat : Q;
  d_lon : Q;
  d_population : Z;
  d_area_km2 : Q;
  d_type : string
}.

(** The [raw_data] entry of a successful result: the 15 measurements of
    t-0, each rounded to two decimals. *)
Record raw_data := RawData {
  rd_timestamp : datetime;
  rd_air_quality : air_data;
  rd_weather : weather_data
}.

Inductive status := StatusSuccess | StatusError.

(** The dictionary that [predict_pm25_for_district] returns, in its two
    shapes. *)
Inductive prediction :=
  | Success (id : Z) (name name_en : string) (lat lon : Q)
            (pm25_prediction : Q) (population : Z) (area_km2 : Q)
            (type : string) (raw : option raw_data)
  | Failure (id : Z) (name name_en : string) (lat lon : Q)
            (error error_type : string).

Definition p_id (p : prediction) : Z :=
  match p with
  | Success id _ _ _ _ _ _ _ _ _ => id
  | Failure id _ _ _ _ _ _ => id
  end.

Definition p_name (p : prediction) : string :=
  match p with
  | Success _ name _ _ _ _ _ _ _ _ => name
  | Failure _ name _ _ _ _ _ => name
  end.

Definition p_status (p : prediction) : status :=
  match p with
  | Success _ _ _ _ _ _ _ _ _ _ => StatusSuccess
  | Failure _ _ _ _ _ _ _ => StatusError
  end.

Definition is_success (p : prediction) : bool :=
  match p_status p with StatusSuccess => true | StatusError => false end.

Definition round_air (a : air_data) : air_data :=
  AirData (cell_map round2 (a_co a)) (cell_map round2 (a_no a))
          (cell_map round2 (a_no2 a)) (cell_map round2 (a_o3 a))
          (cell_map round2 (a_so2 a)) (cell_map round2 (a_pm2_5 a))
          (cell_map round2 (a_pm10 a)) (cell_map round2 (a_nh3 a)).

Definition round_weather (w : weather_data) : weather_data :=
  WeatherData (cell_map round2 (w_temperature_2m w))
              (cell_map round2 (w_relative_humidity_2m w))
              (cell_map round2 (w_precipitation w))
              (cell_map round2 (w_pressure_msl w))
              (cell_map round2 (w_windspeed_10m w))
              (cell_map round2 (w_winddirection_10m w))
              (cell_map round2 (w_shortwave_radiation w)).

(** The dictionary of the [except] branch (lines 144-153). *)
Definition failure_of (d : district) (e : exc) : prediction :=
  Failure (d_id d) (d_name d) (d_name_en d) (d_lat d) (d_lon d)
          (exc_msg e) (exc_type e).

Section DistrictPredictor.

Variable np_pi : Q.
Variables np_sin np_cos np_sqrt : Q -> Q.
Variable fetch_air_quality_at_time : Z -> string -> Q -> Q -> result air_data.
Variable fetch_weather_forecast : datetime -> Q -> Q -> result weather_data.
Variable fetch_weather_archive : datetime -> Q -> Q -> result weather_data.

(** The inference artifact: [scaler.transform] and
    [float(model.predict(X)[0])], either of which may raise. *)
Variable X : Type.
Variable scaler_transform : DataFrame -> result X.
Variable model_predict : X -> result Q.

Local Abbreviation get_15 :=
  (get_15_features_at_time fetch_air_quality_at_time
     fetch_weather_forecast fetch_weather_archive).

(** The three snapshots of lines 40-53, fetched in the order t-2, t-1,
    t-0; [now2], [now1], [now0] are the clock readings of the three
    weather lookups. *)
Definition fetch_window (d : district) (api_key : string)
    (now2 now1 now0 target_time : datetime) : result (list snapshot) :=
  let time_t1 := target_time - td_hours 1 in
  let time_t2 := target_time - td_hours 2 in
  let! features_t2 := get_15 now2 time_t2 api_key (d_lat d) (d_lon d) in
  let! features_t1 := get_15 now1 time_t1 api_key (d_lat d) (d_lon d) in
  let! features_t0 := get_15 now0 target_time api_key (d_lat d) (d_lon d) in
  inr [features_t2; features_t1; features_t0].

(** Lines 65-84: the frame of the three snapshots, the feature row and
    its restriction to [feature_columns]. *)
Definition build_features (rows : list snapshot) (feature_columns : list string)
    : M DataFrame :=
  (* pd.DataFrame([...]).set_index("datetime") *)
  let* raw := alloc (frame_of_snapshots rows) in
  let* d := deref raw in
  (* .sort_index() *)
  let* df_3hours := alloc (sort_index d) in
  let* d3 := deref df_3hours in
  if negb (nrows d3 =? 3)%nat
  then mraise "ValueError" ("Expected 3 hours of data, got " +:+ pretty (nrows d3))
  else
    let* df_features :=
      create_features_from_3hours np_pi np_sin np_cos np_sqrt df_3hours in
    let* ft := deref df_features in
    match feature_columns with
    | [] => mret ft
    | _ =>
        let* cols := lift (select_columns feature_columns ft) in
        let* selected := alloc (Frame (df_index ft) cols) in
        deref selected
    end.

(** The body of the [try] statement (lines 37-133); frames are objects
    of the call, so the store starts empty. *)
Definition predict_body (d : district) (year month day hour minute : Z)
    (api_key : string) (feature_columns : list string)
    (include_raw_data : bool) (now2 now1 now0 : datetime) : result prediction :=
  let! target_time := localize_datetime year month day hour minute in
  let! rows := fetch_window d api_key now2 now1 now0 target_time in
  let! df_features := (build_features rows feature_columns []).1 in
  let! X_scaled := scaler_transform df_features in
  let! prediction := model_predict X_scaled in
  let raw :=
    match include_raw_data, last rows with
    | true, Some features_t0 =>
        Some (RawData (sn_datetime features_t0)
                      (round_air (sn_air features_t0))
                      (round_weather (sn_weather features_t0)))
    | _, _ => None
    end in
  inr (Success (d_id d) (d_name d) (d_name_en d) (d_lat d) (d_lon d)
               (round2 prediction) (d_population d) (d_area_km2 d)
               (d_type d) raw).

(** [predict_pm25_for_district]: the [try] body, and the [except
    Exception] branch that turns what it raised into a result. *)
Definition predict_pm25_for_district (d : district)
    (year month day hour minute : Z) (api_key : string)
    (feature_columns : list string) (include_raw_data : bool)
    (now2 now1 now0 : datetime) : prediction :=
  match predict_body d year month day hour minute api_key feature_columns
                     include_raw_data now2 now1 now0 with
  | inr res => res
  | inl e => failure_of d e
  end.

(** The stage of the [try] body at which an exception [e] is raised:
    fetching one of the three snapshots, building the feature row,
    scaling, or invoking the model. *)
Inductive raised_at (d : district) (api_key : string)
    (feature_columns : list string) (now2 now1 now0 target_time : datetime)
    (e : exc) : Prop :=
  | RaisedFetch :
      fetch_window d api_key now2 now1 now0 target_time = inl e ->
      raised_at d api_key feature_columns now2 now1 now0 target_time e
  | RaisedFeatures rows :
      fetch_window d api_key now2 now1 now0 target_time = inr rows ->
      (build_features rows feature_columns []).1 = inl e ->
      raised_at d api_key feature_columns now2 now1 now0 target_time e
  | RaisedScaler rows df_features :
      fetch_window d api_key now2 now1 now0 target_time = inr rows ->
      (build_features rows feature_columns []).1 = inr df_features ->
      scaler_transform df_features = inl e ->
      raised_at d api_key feature_columns now2 now1 now0 target_time e
  | RaisedModel rows df_features X_scaled :
      fetch_window d api_key now2 now1 now0 target_time = inr rows ->
      (build_features rows feature_columns []).1 = inr df_features ->
      scaler_transform df_features = inr X_scaled ->
      model_predict X_scaled = inl e ->
      raised_at d api_key feature_columns now2 now1 now0 target_time e.

End DistrictPredictor.

(* ===================================================================== *)
(** * Batch orchestrator (api/routes.py, [predict_all_districts]) *)
(* ===================================================================== *)

(** [a / b] on integers *)
Definition py_truediv (a b : Z) : result Q :=
  if b =? 0 then raise "ZeroDivisionError" "division by zero"
  else inr (inject_Z a / inject_Z b)%Q.

(** [pm25_prediction] of a successful result *)
Definition pm25_of (p : prediction) : option Q :=
  match p with
  | Success _ _ _ _ _ v _ _ _ _ => Some v
  | Failure _ _ _ _ _ _ _ => None
  end.

(** [l.sort(key=lambda x: x['id'])]; the sort of Python is stable. *)
Definition sort_by_id (l : list prediction) : list prediction :=
  sort_by (fun a b => p_id a <=? p_id b) l.

(** [sum(1 for v in values if test(v))] *)
Definition count_if (test : Q -> bool) (values : list Q) : Z :=
  Z.of_nat (length (filter (fun v => test v = true) values)).

(** [np.median] *)
Definition np_median (values : list Q) : Q :=
  let sorted := sort_by (fun a b => negb (Qltb b a)) values in
  let n := length sorted in
  if Nat.even n
  then ((default 0 (sorted !! (n / 2 - 1)%nat) + default 0 (sorted !! (n / 2)%nat)) / 2)%Q
  else default 0%Q (sorted !! (n / 2)%nat).

Definition np_max (values : list Q) : Q :=
  match values with [] => 0%Q | x :: l => foldl Qmax x l end.

Definition np_min (values : list Q) : Q :=
  match values with [] => 0%Q | x :: l => foldl Qmin x l end.

(** The [statistics] dictionary: the aggregate of lines 436-451, or the one
    of lines 459-463 when nothing succeeded. *)
Record city_statistics := CityStatistics {
  city_average : Q;
  city_max : Q;
  city_min : Q;
  city_median : Q;
  city_std : Q;
  total_districts_successful : Z;
  total_districts_expected : Z;
  total_districts_failed : Z;
  success_rate_percent : Q;
  who_standard_15_above : Z;
  who_standard_15_below : Z;
  unhealthy_threshold_55 : Z
}.

Inductive statistics :=
  | Statistics (s : city_statistics)
  | NoSuccessfulPredictions (expected failed : Z).

(** [response_data], without the request echo and the timing: the key
    [districts], the key [statistics], and the key [errors], which is
    present when the list is not empty. *)
Record batch_response := BatchResponse {
  br_districts : list prediction;
  br_statistics : statistics;
  br_errors : list prediction
}.

Section BatchOrchestrator.

Variable np_sqrt : Q -> Q.

(** [np.std]: the population deviation. *)
Definition np_std (values : list Q) : Q :=
  np_sqrt (Qssd values / inject_Z (Z.of_nat (length values)))%Q.

(** The statistics over [pm25_values], for [results] not empty.  The
    counters are those of the code; mean, median, deviation and rate are
    the figures of exact arithmetic, from which the floating-point results
    of the code can differ in the last digit kept. *)
Definition city_statistics_of (pm25_values : list Q) (success expected failed : Z)
    : result city_statistics :=
  let! rate := py_truediv success expected in
  inr (CityStatistics
         (round2 (Qmean pm25_values))
         (round2 (np_max pm25_values))
         (round2 (np_min pm25_values))
         (round2 (np_median pm25_values))
         (round2 (np_std pm25_values))
         success expected failed
         (round2 (rate * 100))
         (count_if (fun v => Qltb 15 v) pm25_values)
         (count_if (fun v => negb (Qltb 15 v)) pm25_values)
         (count_if (fun v => Qltb (554 # 10) v) pm25_values)).

(** Lines 405-472, from the results of the futures in the order in which
    [as_completed] yields them. *)
Definition collect (districts : list district) (completed : list prediction)
    : result batch_response :=
  let results := filter (fun r => is_success r = true) completed in
  let errors := filter (fun r => is_success r <> true) completed in
  let results := sort_by_id results in
  let errors := sort_by_id errors in
  let expected := Z.of_nat (length districts) in
  let success := Z.of_nat (length results) in
  let failed := Z.of_nat (length errors) in
  (* line 422: the summary message formats success/expected*100 *)
  let! _ := py_truediv success expected in
  let! statistics :=
    match results with
    | [] => inr (NoSuccessfulPredictions expected failed)
    | _ =>
        let pm25_values := omap pm25_of results in
        let! s := city_statistics_of pm25_values success expected failed in
        inr (Statistics s)
    end in
  inr (BatchResponse results statistics errors).

(** One task per district is submitted; [outcomes] lists what the tasks
    returned, in the order of [districts].  The pool completes them in any
    order. *)
Inductive predict_all_districts (districts : list district)
    (outcomes : list prediction) : result batch_response -> Prop :=
  | Completed completed :
      completed ≡ₚ outcomes ->
      predict_all_districts districts outcomes (collect districts completed).

End BatchOrchestrator.

(* ===================================================================== *)
(** * Result cache (utils/cache_manager.py, class [PredictionCache]) *)
(* ===================================================================== *)

Module PredictionCache.
Section PredictionCache.
Context {V : Type}.

(** The attributes of an instance: two dictionaries, looked up by key
    only, and the time to live given to the constructor. *)
Record t := Make {
  cache : gmap string V;
  timestamps : gmap string Q;
  ttl : Z
}.

(** [__init__] *)
Definition init (ttl : Z) : t := Make ∅ ∅ ttl.

(** [_generate_key]: the five integers in decimal, joined by underscores
    after the prefix [pred]. *)
Definition _generate_key (year month day hour minute : Z) : string :=
  "pred_" +:+ pretty year +:+ "_" +:+ pretty month +:+ "_" +:+ pretty day
  +:+ "_" +:+ pretty hour +:+ "_" +:+ pretty minute.

(** [get]; [now] is the reading of [time.time()] on line 103.  On an
    expired entry the two [del] statements run in order, and the second
    raises [KeyError] when the key has no timestamp. *)
Definition get (year month day hour minute : Z) (now : Q) (s : t)
    : result (option V) * t :=
  let key := _generate_key year month day hour minute in
  match cache s !! key with
  | Some v =>
      let timestamp := default 0%Q (timestamps s !! key) in
      if Qltb (now - timestamp)%Q (inject_Z (ttl s)) then (inr (Some v), s)
      else
        match timestamps s !! key with
        | Some _ =>
            (inr None, Make (delete key (cache s)) (delete key (timestamps s)) (ttl s))
        | None =>
            (raise "KeyError" key, Make (delete key (cache s)) (timestamps s) (ttl s))
        end
  | None => (inr None, s)
  end.

(** [set]; [now] is the reading of [time.time()] on line 119. *)
Definition set (year month day hour minute : Z) (value : V) (now : Q) (s : t) : t :=
  let key := _generate_key year month day hour minute in
  Make (<[key := value]> (cache s)) (<[key := now]> (timestamps s)) (ttl s).

(** [clear]: no [return] statement; the count goes to the log message. *)
Definition clear (s : t) : pyval * Z * t :=
  (PyNone, Z.of_nat (size (cache s)), Make ∅ ∅ (ttl s)).

(** [stats], fields [size] and [ttl] *)
Definition stats (s : t) : Z * Z := (Z.of_nat (size (cache s)), ttl s).

(** The operations of the public interface, each with the clock reading
    it takes, and their sequential execution; an exception stops the run. *)
Inductive op :=
  | OpGet (year month day hour minute : Z) (now : Q)
  | OpSet (year month day hour minute : Z) (value : V) (now : Q)
  | OpClear.

Definition step (s : t) (o : op) : result t :=
  match o with
  | OpGet year month day hour minute now =>
      let r := get year month day hour minute now s in
      let! _ := r.1 in inr r.2
  | OpSet year month day hour minute value now =>
      inr (set year month day hour minute value now s)
  | OpClear => inr (clear s).2
  end.

Fixpoint run (s : t) (ops : list op) : result t :=
  match ops with
  | [] => inr s
  | o :: ops' => let! s' := step s o in run s' ops'
  end.

(** Both dictionaries have the same keys. *)
Definition wf (s : t) : Prop := dom (timestamps s) = dom (cache s).

End PredictionCache.
Arguments t : clear implicits.
Arguments op : clear implicits.
End PredictionCache.

(* ===================================================================== *)
(** * Diagnostics of the time validator (api/routes.py, lines 96-99) *)
(* ===================================================================== *)

(** [int(td.total_seconds() / 60)] for a [timedelta] of [us] microseconds:
    the whole minutes, rounded towards zero. *)
Definition whole_minutes (us : timedelta) : Z := Z.quot us (td_minutes 1).

(** The [wait_minutes] entry of the details of a TIME_TOO_RECENT
    rejection: [30 - int((now - target_time).total_seconds() / 60)]. *)
Definition wait_minutes (now target_time : datetime) : Z :=
  let minutes_diff := whole_minutes (now - target_time) in
  30 - minutes_diff.

(** The string has no underscore. *)
Fixpoint no_underscore (s : string) : bool :=
  match s with
  | EmptyString => true
  | String c s' => negb (Ascii.eqb c "_"%char) && no_underscore s'
  end.

(* ===================================================================== *)
(** * Provider lookups (core/data_fetcher.py) *)
(* ===================================================================== *)

(** A dictionary of readings, as the lookups build it, return it and
    store it in the cache of the module. *)
Definition readings : Type := odict cell.

(** [d[key]] *)
Definition dict_getitem {V} (key : string) (d : odict V) : result V :=
  match od_lookup key d with
  | Some v => inr v
  | None => raise "KeyError" key
  end.

(** An item of the history of air pollution: its time [dt], in seconds,
    and its [components]. *)
Record air_record := AirRecord {
  ar_dt : Z;
  ar_components : readings
}.

(** A row of the frame of hourly weather, after the conversion of its
    [time] to the zone of the service: the instant and the numbers of the
    other columns. *)
Record hourly_row := HourlyRow {
  hr_time : datetime;
  hr_values : odict Q
}.

(** settings.py, lines 23-24 *)
Definition CACHE_TTL_WEATHER : Z := 3600.
Definition CACHE_TTL_AIR : Z := 1800.

(** [target_time_vn.replace(minute=0, second=0, microsecond=0)] *)
Definition replace_hour (t : datetime) : datetime := t - naive t mod td_hours 1.

(** The key of line 42, [abs(x["dt"] - timestamp_utc)], compared. *)
Definition closest_lt (timestamp_utc : Z) (x y : air_record) : bool :=
  Z.abs (ar_dt x - timestamp_utc) <? Z.abs (ar_dt y - timestamp_utc).

(** The dictionary of lines 43-52. *)
Definition air_result (closest : air_record) : result readings :=
  let components := ar_components closest in
  let! co := dict_getitem "co" components in
  let! no := dict_getitem "no" components in
  let! no2 := dict_getitem "no2" components in
  let! o3 := dict_getitem "o3" components in
  let! so2 := dict_getitem "so2" components in
  let! pm2_5 := dict_getitem "pm2_5" components in
  let! pm10 := dict_getitem "pm10" components in
  let! nh3 := dict_getitem "nh3" components in
  inr [("co", co); ("no", no); ("no2", no2); ("o3", o3); ("so2", so2);
       ("pm2_5", pm2_5); ("pm10", pm10); ("nh3", nh3)].

(** The key of [time_diff], [abs((df["time"] - target_hour)
    .dt.total_seconds())], compared. *)
Definition time_diff_lt (target_hour : datetime) (x y : hourly_row) : bool :=
  Z.abs (hr_time x - target_hour) <? Z.abs (hr_time y - target_hour).

(** Lines 125-141 and 206-222: the first row at [target_hour]; when there
    is none, the row at [idxmin] of the distances, which is the first of
    the closest rows and raises on a frame without rows. *)
Definition select_hour (df : list hourly_row) (target_hour : datetime)
    : result hourly_row :=
  let matched := filter (fun r => hr_time r = target_hour) df in
  match matched with
  | [] =>
      match df with
      | [] => raise "ValueError" "attempt to get argmin of an empty sequence"
      | x :: l => inr (py_min_from (time_diff_lt target_hour) x l)
      end
  | row :: _ => inr row
  end.

(** The dictionary of lines 143-151. *)
Definition archive_result (row : odict Q) : result readings :=
  let! temperature_2m := dict_getitem "temperature_2m" row in
  let! relative_humidity_2m := dict_getitem "relative_humidity_2m" row in
  let! precipitation := dict_getitem "precipitation" row in
  let! pressure_msl := dict_getitem "pressure_msl" row in
  let! windspeed_10m := dict_getitem "windspeed_10m" row in
  let! winddirection_10m := dict_getitem "winddirection_10m" row in
  let! shortwave_radiation := dict_getitem "shortwave_radiation" row in
  inr [("temperature_2m", Some temperature_2m);
       ("relative_humidity_2m", Some relative_humidity_2m);
       ("precipitation", Some precipitation);
       ("pressure_msl", Some pressure_msl);
       ("windspeed_10m", Some windspeed_10m);
       ("winddirection_10m", Some winddirection_10m);
       ("shortwave_radiation", Some shortwave_radiation)].

(** [row.get(key, default)] *)
Definition row_get (key : string) (default_value : Q) (row : odict Q) : Q :=
  default default_value (od_lookup key row).

(** The dictionary of lines 225-233; the arguments of a call are evaluated
    before it, the inner [row.get] first. *)
Definition forecast_result (row : odict Q) : result readings :=
  let! temperature_2m := dict_getitem "temperature_2m" row in
  let! relative_humidity_2m := dict_getitem "relative_humidity_2m" row in
  let! precipitation := dict_getitem "precipitation" row in
  let! pressure_msl := dict_getitem "pressure_msl" row in
  let windspeed_10m := row_get "wind_speed_10m" (row_get "windspeed_10m" 0 row) row in
  let winddirection_10m :=
    row_get "wind_direction_10m" (row_get "winddirection_10m" 0 row) row in
  let! shortwave_radiation := dict_getitem "shortwave_radiation" row in
  inr [("temperature_2m", Some temperature_2m);
       ("relative_humidity_2m", Some relative_humidity_2m);
       ("precipitation", Some precipitation);
       ("pressure_msl", Some pressure_msl);
       ("windspeed_10m", Some windspeed_10m);
       ("winddirection_10m", Some winddirection_10m);
       ("shortwave_radiation", Some shortwave_radiation)].

Module DataFetcher.
Section DataFetcher.

(** [cache_manager._generate_key(...)] is the md5 digest of the text of
    its arguments.  What each lookup passes is kept: the air lookup the
    timestamp and the coordinates, the archive lookup the day, the
    coordinates and the hour, the forecast lookup the day with the hour
    and the coordinates. *)
Variable air_key : Z -> Q -> Q -> string.
Variable archive_key : Z -> Q -> Q -> Z -> string.
Variable forecast_key : Z -> Z -> Q -> Q -> string.

(** The requests.  [http_air lat lon start end appid] is lines 29-37: the
    list under ["list"] of the answer, empty when there is none, or the
    exception of the session, of [raise_for_status] or of the decoder.
    [http_archive lat lon day] is lines 93-117 and [http_forecast lat lon]
    lines 175-198: the rows of the frame of the hourly columns, or the
    exception raised on the way, the [ValueError] of an answer without
    hourly data included. *)
Variable http_air : Q -> Q -> Z -> Z -> string -> result (list air_record).
Variable http_archive : Q -> Q -> Z -> result (list hourly_row).
Variable http_forecast : Q -> Q -> result (list hourly_row).

Local Abbreviation cache_state := (CacheManager.t readings).

(** A statement of a lookup returns or raises, and leaves the cache of the
    module in some state either way; statements run in sequence until one
    raises.  The [except Exception] clause of a lookup logs and raises
    again, so a lookup raises what its body raised and leaves the cache as
    the body left it. *)
Definition action (A : Type) : Type := cache_state -> result A * cache_state.

Definition areturn {A} (a : A) : action A := fun s => (inr a, s).

(** A statement that does not touch the cache. *)
Definition alift {A} (r : result A) : action A := fun s => (r, s).

Definition abind {A B} (m : action A) (k : A -> action B) : action B :=
  fun s =>
    match m s with
    | (inl e, s') => (inl e, s')
    | (inr a, s') => k a s'
    end.

Local Notation "'let+' x ':=' m 'in' k" := (abind m (fun x => k))
  (at level 10, x name, m at level 100, k at level 200).

(** [cache_manager.get(key, ttl)] *)
Definition cache_get (key : string) (ttl : Z) (now : Q)
    : action (option readings) :=
  fun s => let looked := CacheManager.get key ttl now s in (inr looked.1, looked.2).

(** [cache_manager.set(key, value)]; when it raises, it does so in
    [_evict_lru], before it has stored anything. *)
Definition cache_set (key : string) (value : readings) (now : Q) : action unit :=
  fun s =>
    match CacheManager.set key value now s with
    | inr s' => (inr tt, s')
    | inl e => (inl e, s)
    end.

(** [fetch_air_quality_at_time]; [now_get] and [now_set] are the readings
    of [time.time()] in [get] and [set]. *)
Definition fetch_air_quality_at_time (timestamp_utc : Z) (api_key : string)
    (lat lon : Q) (now_get now_set : Q) : action readings :=
  let cache_key := air_key timestamp_utc lat lon in
  let+ cached := cache_get cache_key CACHE_TTL_AIR now_get in
  match cached with
  | Some cached => areturn cached
  | None =>
      let+ data_list :=
        alift (http_air lat lon (timestamp_utc - 600) (timestamp_utc + 600)
                 api_key) in
      match data_list with
      | [] =>
          alift (raise "ValueError"
                   ("No air quality data at timestamp " +:+ pretty timestamp_utc))
      | _ =>
          let+ closest := alift (py_min (closest_lt timestamp_utc) data_list) in
          let+ result := alift (air_result closest) in
          let+ _ := cache_set cache_key result now_set in
          areturn result
      end
  end.

(** [fetch_weather_archive] *)
Definition fetch_weather_archive (target_time_vn : datetime) (lat lon : Q)
    (now_get now_set : Q) : action readings :=
  let day_str := date_of target_time_vn in
  let cache_key := archive_key day_str lat lon (hour_of target_time_vn) in
  let+ cached := cache_get cache_key CACHE_TTL_WEATHER now_get in
  match cached with
  | Some cached => areturn cached
  | None =>
      let+ df := alift (http_archive lat lon day_str) in
      let target_hour := replace_hour target_time_vn in
      let+ row := alift (select_hour df target_hour) in
      let+ result := alift (archive_result (hr_values row)) in
      let+ _ := cache_set cache_key result now_set in
      areturn result
  end.

(** [fetch_weather_forecast] *)
Definition fetch_weather_forecast (target_time_vn : datetime) (lat lon : Q)
    (now_get now_set : Q) : action readings :=
  let cache_key :=
    forecast_key (date_of target_time_vn) (hour_of target_time_vn) lat lon in
  let+ cached := cache_get cache_key 1800 now_get in
  match cached with
  | Some cached => areturn cached
  | None =>
      let+ df := alift (http_forecast lat lon) in
      let target_hour := replace_hour target_time_vn in
      let+ row := alift (select_hour df target_hour) in
      let+ result := alift (forecast_result (hr_values row)) in
      let+ _ := cache_set cache_key result now_set in
      areturn result
  end.

(** [fetch_weather_at_time], on the cache of the module. *)
Definition fetch_weather_at_time (now_vn target_time_vn : datetime)
    (lat lon : Q) (now_get now_set : Q) : action readings :=
  if date_of now_vn <=? date_of target_time_vn
  then fetch_weather_forecast target_time_vn lat lon now_get now_set
  else fetch_weather_archive target_time_vn lat lon now_get now_set.

End DataFetcher.
End DataFetcher.

(** Sample keys and rows for the examples. *)
Definition sample_air_key (timestamp_utc : Z) (lat lon : Q) : string :=
  "air_" +:+ pretty timestamp_utc.

Definition sample_archive_key (day : Z) (lat lon : Q) (hour : Z) : string :=
  "archive_" +:+ pretty day +:+ "_" +:+ pretty hour.

Definition sample_forecast_key (day hour : Z) (lat lon : Q) : string :=
  "forecast_" +:+ pretty day +:+ "_" +:+ pretty hour.

Definition sample_components (pm : Q) : readings :=
  [("co", Some 300%Q); ("no", Some 0%Q); ("no2", Some 12%Q); ("o3", Some 40%Q);
   ("so2", Some 5%Q); ("pm2_5", Some pm); ("pm10", Some 35%Q); ("nh3", Some 2%Q)].

Definition sample_hourly (t : datetime) (temperature : Q) : hourly_row :=
  HourlyRow t
    [("temperature_2m", temperature); ("relative_humidity_2m", 75%Q);
     ("precipitation", 0%Q); ("pressure_msl", 1010%Q); ("windspeed_10m", 3%Q);
     ("winddirection_10m", 90%Q); ("shortwave_radiation", 150%Q)].

(* ===================================================================== *)
(** * Request handlers (api/routes.py, [register_routes]) *)
(* ===================================================================== *)

(** The handlers are taken from the point where the fields of the request
    body have been read and converted: the integers of the time, the id of
    the district, the API key, the sorting options. *)

(** An error response: its code with the details it carries.  A
    rejection of the time validator goes out under the code of the
    validator; the messages are fixed texts. *)
Inductive api_error :=
  | VALIDATION (code : error_code)
  | DISTRICT_NOT_FOUND (available_ids : list Z)
  | PREDICTION_FAILED (result : prediction)
  | INVALID_INPUT (error : string)
  | INTERNAL_ERROR (details : odict string)
  | NO_PREDICTION_DATA
  | INVALID_SORT (sort_by : string).

(** [error_response(json_response, code, message, details, status_code)]
    and [success_response(json_response, data)]. *)
Inductive response (A : Type) :=
  | ErrorResponse (error : api_error) (status_code : Z)
  | SuccessResponse (data : A).
Arguments ErrorResponse {A} error status_code.
Arguments SuccessResponse {A} data.

(** [next((d for d in districts if d['id'] == district_id), None)] *)
Definition find_district (districts : list district) (district_id : Z)
    : option district :=
  List.find (fun d => d_id d =? district_id) districts.

(** [get_district_by_id] *)
Definition get_district_by_id (districts : list district) (district_id : Z)
    : response district :=
  match find_district districts district_id with
  | None => ErrorResponse (DISTRICT_NOT_FOUND (d_id <$> districts)) 404
  | Some district => SuccessResponse district
  end.

(** The two [except] clauses of [predict_single] and of
    [predict_all_districts]: [ValueError] first, then [Exception].  The
    statements of the two [try] bodies raise no subclass of
    [ValueError]. *)
Definition except_value_error {A} (e : exc) : response A :=
  if String.eqb (exc_type e) "ValueError"
  then ErrorResponse (INVALID_INPUT (exc_msg e)) 400
  else ErrorResponse
         (INTERNAL_ERROR [("error_type", exc_type e); ("error_message", exc_msg e)])
         500.

(** The single [except Exception] clause of [get_ranking] and of
    [get_geojson]; [str(e)] is the message of [e]. *)
Definition except_exception {A} (e : exc) : response A :=
  ErrorResponse (INTERNAL_ERROR [("error", exc_msg e)]) 500.

Section SingleHandler.

Variable districts : list district.
Variable feature_columns : list string.
Variable np_pi : Q.
Variables np_sin np_cos np_sqrt : Q -> Q.
Variable fetch_air_quality_at_time : Z -> string -> Q -> Q -> result air_data.
Variable fetch_weather_forecast : datetime -> Q -> Q -> result weather_data.
Variable fetch_weather_archive : datetime -> Q -> Q -> result weather_data.
Variable X : Type.
Variable scaler_transform : DataFrame -> result X.
Variable model_predict : X -> result Q.

(** [predict_single], lines 267-322; [now] is the clock reading of the
    validator, [now2], [now1], [now0] are those of the predictor.  A
    successful result goes out with the [info] of the validator. *)
Definition predict_single (now : datetime)
    (year month day hour minute district_id : Z) (api_key : string)
    (now2 now1 now0 : datetime) : response (prediction * window_info) :=
  match validate_prediction_request now year month day hour minute with
  | inl e => except_value_error e
  | inr (Rejected error_code) => ErrorResponse (VALIDATION error_code) 400
  | inr (Valid info) =>
      match find_district districts district_id with
      | None => ErrorResponse (DISTRICT_NOT_FOUND (d_id <$> districts)) 404
      | Some district =>
          let result :=
            predict_pm25_for_district np_pi np_sin np_cos np_sqrt
              fetch_air_quality_at_time fetch_weather_forecast
              fetch_weather_archive X scaler_transform model_predict
              district year month day hour minute api_key feature_columns true
              now2 now1 now0 in
          match p_status result with
          | StatusError => ErrorResponse (PREDICTION_FAILED result) 400
          | StatusSuccess => SuccessResponse (result, info)
          end
      end
  end.

End SingleHandler.

(** [success_wrapped], the value that [predict_all_districts] puts in the
    result cache: the response data and the time of its making. *)
Record cached_response := CachedResponse {
  cr_data : batch_response;
  cr_timestamp : datetime
}.

(** What [predict_all_districts] answers: an error, the response data it
    has computed, or the dictionary it found in the result cache, as it
    was stored. *)
Inductive batch_reply :=
  | BatchError (error : api_error) (status_code : Z)
  | BatchComputed (response_data : batch_response)
  | BatchCached (cached_result : cached_response).

Definition batch_error (r : response batch_response) : batch_reply :=
  match r with
  | ErrorResponse error status_code => BatchError error status_code
  | SuccessResponse data => BatchComputed data
  end.

Section BatchHandler.

Variable districts : list district.
Variable np_sqrt : Q -> Q.

(** [predict_all_districts], lines 367-517.  [completed] lists the
    results of the tasks in the order in which [as_completed] yields them;
    [t_get] and [t_set] are the readings of [time.time()] in the result
    cache and [stamp] the time put in the stored dictionary.  The cache is
    returned as the handler leaves it. *)
Definition predict_all_handler (now : datetime)
    (year month day hour minute : Z) (completed : list prediction)
    (t_get t_set : Q) (stamp : datetime)
    (prediction_cache : PredictionCache.t cached_response)
    : batch_reply * PredictionCache.t cached_response :=
  match validate_prediction_request now year month day hour minute with
  | inl e => (batch_error (except_value_error e), prediction_cache)
  | inr (Rejected error_code) =>
      (BatchError (VALIDATION error_code) 400, prediction_cache)
  | inr (Valid info) =>
      let looked :=
        PredictionCache.get year month day hour minute t_get prediction_cache in
      match looked.1 with
      | inl e => (batch_error (except_value_error e), looked.2)
      | inr (Some cached_result) => (BatchCached cached_result, looked.2)
      | inr None =>
          match collect np_sqrt districts completed with
          | inl e => (batch_error (except_value_error e), looked.2)
          | inr response_data =>
              let success_wrapped := CachedResponse response_data stamp in
              (BatchComputed response_data,
               PredictionCache.set year month day hour minute success_wrapped
                 t_set looked.2)
          end
      end
  end.

End BatchHandler.

(** ** Ranking *)

(** [l[:limit]]: a negative [limit] counts from the end. *)
Definition py_slice_to {A} (limit : Z) (l : list A) : list A :=
  if 0 <=? limit then take (Z.to_nat limit) l
  else take (Z.to_nat (Z.of_nat (length l) + limit)) l.

(** The key functions are called on the items in order; the first
    exception ends the call. *)
Fixpoint result_map {A B} (f : A -> result B) (l : list A) : result (list B) :=
  match l with
  | [] => inr []
  | x :: l' => let! y := f x in let! ys := result_map f l' in inr (y :: ys)
  end.

(** [sorted(l, key=..., reverse=...)]: stable in both directions, items
    with equal keys stay in the order of [l]. *)
Definition sorted {A K} (le : K -> K -> bool) (key : A -> result K)
    (reverse : bool) (l : list A) : result (list A) :=
  let! keys := result_map key l in
  inr (sort_by (fun a b => if reverse then le b.1 a.1 else le a.1 b.1)
         (zip keys l)).*2.

Definition Qleb (a b : Q) : bool := negb (Qltb b a).

(** [x['pm25_prediction']] and [x['population']], keys of a successful
    result only. *)
Definition key_pm25_prediction (x : prediction) : result Q :=
  match x with
  | Success _ _ _ _ _ pm25_prediction _ _ _ _ => inr pm25_prediction
  | Failure _ _ _ _ _ _ _ => raise "KeyError" "pm25_prediction"
  end.

Definition key_population (x : prediction) : result Z :=
  match x with
  | Success _ _ _ _ _ _ population _ _ _ => inr population
  | Failure _ _ _ _ _ _ _ => raise "KeyError" "population"
  end.

(** [result_data] of [get_ranking] *)
Record ranking_data := RankingData {
  rk_prediction_info : window_info;
  rk_sort_by : string;
  rk_order : string;
  rk_limit : Z;
  rk_ranking : list prediction;
  rk_best_air_quality : list prediction;
  rk_worst_air_quality : list prediction;
  rk_statistics : statistics
}.

(** Lines 565-595, on the districts and the statistics found in the
    cache. *)
Definition ranking_of (info : window_info) (cached : cached_response)
    (sort_by order : string) (limit : Z) : result (response ranking_data) :=
  let districts_data := br_districts (cr_data cached) in
  let stats := br_statistics (cr_data cached) in
  let reverse := String.eqb order "desc" in
  let! sorted_districts :=
    if String.eqb sort_by "pm25"
    then (let! l := sorted Qleb key_pm25_prediction reverse districts_data in
          inr (Some l))
    else if String.eqb sort_by "population"
    then (let! l := sorted Z.leb key_population reverse districts_data in
          inr (Some l))
    else inr None in
  match sorted_districts with
  | None => inr (ErrorResponse (INVALID_SORT sort_by) 400)
  | Some sorted_districts =>
      let! best := sorted Qleb key_pm25_prediction false districts_data in
      let! worst := sorted Qleb key_pm25_prediction true districts_data in
      inr (SuccessResponse
             (RankingData info sort_by order limit
                (py_slice_to limit sorted_districts)
                (py_slice_to 5 best) (py_slice_to 5 worst) stats))
  end.

(** [get_ranking], lines 540-605. *)
Definition get_ranking (now : datetime) (year month day hour minute : Z)
    (sort_by order : string) (limit : Z) (t_get : Q)
    (prediction_cache : PredictionCache.t cached_response)
    : response ranking_data * PredictionCache.t cached_response :=
  match validate_prediction_request now year month day hour minute with
  | inl e => (except_exception e, prediction_cache)
  | inr (Rejected error_code) =>
      (ErrorResponse (VALIDATION error_code) 400, prediction_cache)
  | inr (Valid info) =>
      let looked :=
        PredictionCache.get year month day hour minute t_get prediction_cache in
      (match looked.1 with
       | inl e => except_exception e
       | inr None => ErrorResponse NO_PREDICTION_DATA 404
       | inr (Some cached) =>
           match ranking_of info cached sort_by order limit with
           | inl e => except_exception e
           | inr r => r
           end
       end, looked.2)
  end.

(** ** Map data *)





(** ** The caches of the service *)

(** The service holds three caches: the one of the module of the
    lookups (data_fetcher.py, line 15), the one that [create_app] makes and
    hands to [register_routes] (app.py, line 93), and the result cache of
    the handlers (routes.py, line 18). *)
Record caches := Caches {
  fetcher_cache : CacheManager.t readings;
  app_cache : CacheManager.t readings;
  prediction_cache : PredictionCache.t cached_response
}.

(** [clear_all_cache]: the two [stats()] of the answer, and the caches
    after the call. *)
Definition clear_all_cache (c : caches) : (Z * Z) * (Z * Z) * caches :=
  let cache_manager := (CacheManager.clear (app_cache c)).2 in
  let cleared := (PredictionCache.clear (prediction_cache c)).2 in
  (CacheManager.stats cache_manager, PredictionCache.stats cleared,
   Caches (fetcher_cache c) cache_manager cleared).

(** The integers that the constructor of [datetime] takes for a field
    are those of a C [int]; on a larger one it raises [OverflowError]
    before it looks at the range of the field. *)
Definition c_int (z : Z) : Prop := -2147483648 <= z <= 2147483647.

(** The years in which the zone of the service is at UTC+7 throughout
    and a day or an hour added to a time of the year stays a time: there
    [localize_datetime] is what [TZ_VN.localize(datetime(...))] returns. *)
Definition fixed_offset_year (year : Z) : Prop := 1976 <= year <= 9998.

(** An instant whose wall-clock reading lies in those years. *)
Definition in_service_years (t : datetime) : Prop :=
  td_days (days_from_civil 1976 1 1) <= naive t
  < td_days (days_from_civil 9999 1 1).

(** The sort keys of a result, for the statements about rankings. *)
Definition pm25_value (x : prediction) : Q := default 0%Q (pm25_of x).

Definition population_value (x : prediction) : Z :=
  match x with
  | Success _ _ _ _ _ _ population _ _ _ => population
  | Failure _ _ _ _ _ _ _ => 0
  end.

(** [a] may stand before [b] in a ranking sorted by [sort_by] in the
    direction [order]. *)
Definition ranks_le (sort_by : string) (a b : prediction) : Prop :=
  if String.eqb sort_by "pm25" then (pm25_value a <= pm25_value b)%Q
  else population_value a <= population_value b.

Definition ranked (sort_by order : string) (a b : prediction) : Prop :=
  if String.eqb order "desc" then ranks_le sort_by b a else ranks_le sort_by a b.

(** [top] is the slice [[:limit]] of a list that holds the items of [all]
    in an order in which each item may stand before all later ones. *)
Definition top_of (R : prediction -> prediction -> Prop) (limit : Z)
    (all top : list prediction) : Prop :=
  ∃ sorted_all,
    sorted_all ≡ₚ all ∧ StronglySorted R sorted_all
    ∧ top = py_slice_to limit sorted_all.

(* ===================================================================== *)
(** * Auxiliary definitions for the statements *)
(* ===================================================================== *)

(** The instant at [tod] microseconds after local midnight of day [day]. *)
Definition local_instant (day tod : Z) : datetime :=
  td_days day + tod - TZ_VN_offset.

(** A run of [set] calls, one per entry (key, value, clock reading). *)
Definition sets {V : Type} (entries : list (string * V * Q))
    : list (CacheManager.op V) :=
  map (fun e => CacheManager.OpSet e.1.1 e.1.2 e.2) entries.

(** A snapshot at instant [t] with pm2_5 = [pm] and fixed other
    measurements, for the examples. *)
Definition sample_snapshot (t : datetime) (pm : Q) : snapshot :=
  Snapshot t
    (AirData (Some 300%Q) (Some 0%Q) (Some 12%Q) (Some 40%Q) (Some 5%Q)
             (Some pm) (Some 35%Q) (Some 2%Q))
    (WeatherData (Some 28%Q) (Some 75%Q) (Some 0%Q) (Some 1010%Q)
                 (Some 3%Q) (Some 90%Q) (Some 150%Q)).

Definition sample_window : list snapshot :=
  [sample_snapshot 1764025200000000 10;
   sample_snapshot 1764028800000000 20;
   sample_snapshot 1764032400000000 30].

(** A district of the examples. *)
Definition sample_district : district :=
  District 7 "Quan 7" "District 7" (1073 # 100) (10672 # 100) 360000 (357 # 10) "urban".

(* ===================================================================== *)
(** * Properties of the time validator *)
(* ===================================================================== *)

Lemma td_unfold :
  td_minutes 30 = 1800000000 ∧ td_days 90 = 7776000000000
  ∧ td_minutes 45 = 2700000000 ∧ td_minutes 5 = 300000000
  ∧ td_minutes 10 = 600000000 ∧ td_days 100 = 8640000000000.
Proof. repeat split; reflexivity. Qed.

Lemma validate_at_cases (now target : datetime) :
  match outcome_of (validate_at now target) with
  | OFuture => now < target
  | ORecent => now - td_minutes 30 < target ∧ target <= now
  | OOld => target < now - td_days 90
  | OValid => now - td_days 90 <= target ∧ target <= now - td_minutes 30
  end.
Proof.
  unfold validate_at.
  destruct (Z.ltb_spec now target) as [H1|H1]; [exact H1|].
  destruct (Z.ltb_spec (now - td_minutes 30) target) as [H2|H2]; [split; assumption|].
  destruct (Z.ltb_spec target (now - td_days 90)) as [H3|H3]; [exact H3|].
  simpl. split; assumption.
Qed.

(** C1, as the code has it.  For a current time [now] and a target in
    the years 1976 to 9998, where the target and the hour after it are
    times of [datetime], the validator maps the target to exactly one
    outcome, and each outcome to its window: FUTURE_TIME when target > now,
    TIME_TOO_RECENT when now - 30 min < target <= now, TIME_TOO_OLD when
    target < now - 90 days, valid otherwise (from now - 90 days to
    now - 30 min, both included).  The four windows are pairwise disjoint
    and cover every target.  In particular now - 45 min is valid,
    now + 5 min is FUTURE_TIME, now - 10 min is TIME_TOO_RECENT and
    now - 100 days is TIME_TOO_OLD. *)
Theorem validator_windows (now target : datetime) :
  in_service_years now → in_service_years target →
  let o := outcome_of (validate_at now target) in
  let future := now < target in
  let recent := now - td_minutes 30 < target ∧ target <= now in
  let old := target < now - td_days 90 in
  let valid := now - td_days 90 <= target ∧ target <= now - td_minutes 30 in
  (o = OFuture ↔ future) ∧ (o = ORecent ↔ recent)
  ∧ (o = OOld ↔ old) ∧ (o = OValid ↔ valid)
  ∧ (future ∨ recent ∨ old ∨ valid)
  ∧ ¬ (future ∧ recent) ∧ ¬ (future ∧ old) ∧ ¬ (future ∧ valid)
  ∧ ¬ (recent ∧ old) ∧ ¬ (recent ∧ valid) ∧ ¬ (old ∧ valid)
  ∧ outcome_of (validate_at now (now - td_minutes 45)) = OValid
  ∧ outcome_of (validate_at now (now + td_minutes 5)) = OFuture
  ∧ outcome_of (validate_at now (now - td_minutes 10)) = ORecent
  ∧ outcome_of (validate_at now (now - td_days 100)) = OOld.
Proof.
  intros _ _.
  pose proof (validate_at_cases now target) as Hc.
  pose proof (validate_at_cases now (now - td_minutes 45)) as H45.
  pose proof (validate_at_cases now (now + td_minutes 5)) as H5.
  pose proof (validate_at_cases now (now - td_minutes 10)) as H10.
  pose proof (validate_at_cases now (now - td_days 100)) as H100.
  destruct td_unfold as (E30 & E90 & E45 & E5 & E10 & E100).
  rewrite ?E30, ?E90, ?E45, ?E5, ?E10, ?E100 in *.
  cbv zeta.
  repeat split; try lia.
  all: intros.
  all: try (match goal with
            | Ho : outcome_of _ = _ |- _ =>
                rewrite Ho in Hc; lia
            end).
  all: try (destruct (outcome_of (validate_at now target)); try reflexivity; lia).
  - destruct (outcome_of (validate_at now (now - 2700000000))); try reflexivity; lia.
  - destruct (outcome_of (validate_at now (now + 300000000))); try reflexivity; lia.
  - destruct (outcome_of (validate_at now (now - 600000000))); try reflexivity; lia.
  - destruct (outcome_of (validate_at now (now - 8640000000000))); try reflexivity; lia.
Qed.

Lemma validator_windows_witness :
  let now := 1764036000000000 in
  let target := 1764032400000000 in
  in_service_years now ∧ in_service_years target
  ∧ validate_prediction_request now 2025 11 25 8 0 = inr (validate_at now target)
  ∧ outcome_of (validate_at now target) = OValid.
Proof.
  intros now target.
  assert (in_service_years now) as Hnow
    by (vm_compute; split; [discriminate|reflexivity]).
  assert (in_service_years target) as Htarget
    by (vm_compute; split; [discriminate|reflexivity]).
  split_and!; [exact Hnow|exact Htarget|reflexivity|].
  destruct (validator_windows now target Hnow Htarget)
    as (_ & _ & _ & Hvalid & _).
  apply Hvalid. vm_compute. split; discriminate.
Defined.

(** C1, the claim as stated fails at the end of the range of [datetime].
    A request for 9999-12-31 23:30 asks for a target after [now]; the
    validator does not answer FUTURE_TIME, nor any other outcome: building
    the target raises [OverflowError]. *)
Lemma validator_overflows_on_last_day :
  let now := 1764036000000000 in
  let target := td_days (days_from_civil 9999 12 31) + td_hours 23
                + td_minutes 30 - TZ_VN_offset in
  now < target
  ∧ validate_prediction_request now 9999 12 31 23 30
    = raise "OverflowError" "date value out of range"
  ∧ ¬ ∃ v, validate_prediction_request now 9999 12 31 23 30 = inr v.
Proof.
  intros now target. split_and!.
  - reflexivity.
  - reflexivity.
  - intros [v Hv]. discriminate Hv.
Defined.

(** On calendar fields that name a date and a time, the request is
    validated at the instant they denote in the local zone; other fields
    raise [ValueError]. *)
Lemma validate_prediction_request_at (now : datetime)
    (year month day hour minute : Z) (target_time : datetime) :
  localize_datetime year month day hour minute = inr target_time →
  validate_prediction_request now year month day hour minute
  = inr (validate_at now target_time).
Proof.
  intros H. unfold validate_prediction_request. by rewrite H.
Qed.

(** The descriptor of an accepted request: the prediction is for one hour
    after the target and uses the instants t-2h, t-1h and t. *)
Lemma validate_at_window (now target : datetime) info :
  validate_at now target = Valid info →
  wi_target_time info = target
  ∧ wi_prediction_for info = target + td_hours 1
  ∧ wi_t_minus_2 info = target - td_hours 2
  ∧ wi_t_minus_1 info = target - td_hours 1
  ∧ wi_t_0 info = target.
Proof.
  unfold validate_at.
  repeat (match goal with |- context [if ?b then _ else _] => destruct b end;
          try discriminate).
  intros [= <-]. repeat split.
Qed.

(* ===================================================================== *)
(** * Properties of the weather lookup *)
(* ===================================================================== *)

Lemma date_of_local_instant (day tod : Z) :
  0 <= tod < td_days 1 → date_of (local_instant day tod) = day.
Proof.
  intros H. unfold date_of, naive, local_instant.
  symmetry. apply Z.div_unique with (r := tod).
  - left. exact H.
  - unfold td_days, us_per_second in *. lia.
Qed.

Lemma local_instant_surj (t : datetime) :
  ∃ tod, 0 <= tod < td_days 1 ∧ t = local_instant (date_of t) tod.
Proof.
  exists (naive t mod td_days 1). split.
  - apply Z.mod_pos_bound. reflexivity.
  - unfold local_instant, date_of.
    pose proof (Z.div_mod (naive t) (td_days 1) ltac:(discriminate)) as Hdm.
    assert (td_days (naive t / td_days 1) = td_days 1 * (naive t / td_days 1)) as ->
      by (unfold td_days; lia).
    unfold naive in *. lia.
Qed.

(** C7.  The weather lookup chooses its provider by comparing calendar
    dates in the local zone: for a target on local day [day], at any time
    [tod] of that day, the forecast provider is called when [day] is the
    current local date or a later one, and the archive provider otherwise.
    The time of day plays no part, nor does the order of the two instants:
    a target earlier today, already in the past, still goes to the forecast
    provider. *)
Theorem weather_source_by_date
    (forecast archive : datetime → Q → Q → result weather_data)
    (now_vn : datetime) (day tod : Z) (lat lon : Q) :
  0 <= tod < td_days 1 →
  let target := local_instant day tod in
  fetch_weather_at_time forecast archive now_vn target lat lon
  = (if date_of now_vn <=? day then forecast target lat lon
     else archive target lat lon)
  ∧ (tod < td_hours 23 →
     fetch_weather_at_time forecast archive
       (local_instant day (tod + td_hours 1)) target lat lon
     = forecast target lat lon).
Proof.
  intros Htod target. unfold fetch_weather_at_time. subst target.
  rewrite (date_of_local_instant day tod Htod). split; [reflexivity|].
  intros H23. rewrite date_of_local_instant.
  - rewrite Z.leb_refl. reflexivity.
  - unfold td_hours, td_days, us_per_second in *. lia.
Qed.

Lemma weather_source_by_date_witness :
  let forecast := fun (_ : datetime) (_ _ : Q) =>
    (raise "Forecast" "forecast provider called" : result weather_data) in
  let archive := fun (_ : datetime) (_ _ : Q) =>
    (raise "Archive" "archive provider called" : result weather_data) in
  let now := local_instant 20417 (td_hours 9) in
  let target := local_instant 20417 (td_hours 8) in
  target < now
  ∧ fetch_weather_at_time forecast archive now target 0 0
    = raise "Forecast" "forecast provider called".
Proof.
  split; [reflexivity|].
  refine (proj2 (weather_source_by_date _ _ (local_instant 20417 (td_hours 9))
                   20417 (td_hours 8) 0%Q 0%Q _) _);
    unfold td_hours, td_days, us_per_second; lia.
Defined.

(* ===================================================================== *)
(** * Ordered dictionaries *)
(* ===================================================================== *)

Section odict_facts.
Context {V : Type}.
Implicit Types (d : odict V) (k : string) (v : V).

Lemma eqb_decide k k' : String.eqb k k' = bool_decide (k = k').
Proof.
  destruct (String.eqb_spec k k') as [->|Hne].
  - by rewrite bool_decide_eq_true_2.
  - by rewrite bool_decide_eq_false_2.
Qed.

Lemma od_lookup_insert_eq k v d : od_lookup k (od_insert k v d) = Some v.
Proof.
  induction d as [|[k' v'] d IH]; simpl.
  - by rewrite String.eqb_refl.
  - destruct (String.eqb_spec k' k) as [->|Hne]; simpl.
    + by rewrite String.eqb_refl.
    + destruct (String.eqb_spec k' k); [done|]. exact IH.
Qed.

Lemma od_lookup_insert_ne k k' v d :
  k ≠ k' → od_lookup k' (od_insert k v d) = od_lookup k' d.
Proof.
  intros Hne. induction d as [|[k0 v0] d IH]; simpl.
  - destruct (String.eqb_spec k k'); [done|reflexivity].
  - destruct (String.eqb_spec k0 k) as [->|Hk]; simpl.
    + destruct (String.eqb_spec k k'); [done|reflexivity].
    + destruct (String.eqb_spec k0 k'); [reflexivity|exact IH].
Qed.

Lemma od_lookup_pop_eq k d : od_lookup k (od_pop k d) = None.
Proof.
  induction d as [|[k' v'] d IH]; simpl; [reflexivity|].
  destruct (String.eqb_spec k' k) as [->|Hne]; simpl; [exact IH|].
  destruct (String.eqb_spec k' k); [done|exact IH].
Qed.

Lemma od_lookup_pop_ne k k' d :
  k ≠ k' → od_lookup k' (od_pop k d) = od_lookup k' d.
Proof.
  intros Hne. induction d as [|[k0 v0] d IH]; simpl; [reflexivity|].
  destruct (String.eqb_spec k0 k) as [->|Hk]; simpl.
  - destruct (String.eqb_spec k k'); [done|exact IH].
  - destruct (String.eqb_spec k0 k'); [reflexivity|exact IH].
Qed.

Lemma od_lookup_Some_keys k v d : od_lookup k d = Some v → k ∈ od_keys d.
Proof.
  induction d as [|[k' v'] d IH]; simpl; [done|].
  destruct (String.eqb_spec k' k) as [->|Hne].
  - intros _. apply list_elem_of_here.
  - intros H. apply list_elem_of_further, IH, H.
Qed.

Lemma od_lookup_keys k d : k ∈ od_keys d → is_Some (od_lookup k d).
Proof.
  induction d as [|[k' v'] d IH]; simpl.
  - intros H. by apply elem_of_nil in H.
  - intros H. destruct (String.eqb_spec k' k) as [->|Hne]; [by eexists|].
    apply IH. apply elem_of_cons in H as [H|H]; [by subst|exact H].
Qed.

Lemma od_elem_lookup k v d :
  NoDup (od_keys d) → (k, v) ∈ d → od_lookup k d = Some v.
Proof.
  induction d as [|[k' v'] d IH]; simpl.
  - intros _ H. by apply elem_of_nil in H.
  - intros Hnd H. apply NoDup_cons in Hnd as [Hk' Hnd].
    apply elem_of_cons in H as [[= -> ->]|H].
    + by rewrite String.eqb_refl.
    + destruct (String.eqb_spec k' k) as [->|Hne]; [|by apply IH].
      exfalso. apply Hk'. apply (list_elem_of_fmap_2 fst) in H. exact H.
Qed.

Lemma od_keys_insert k k' v d :
  k' ∈ od_keys (od_insert k v d) ↔ k' = k ∨ k' ∈ od_keys d.
Proof.
  unfold od_keys. induction d as [|[k0 v0] d IH]; simpl.
  - rewrite elem_of_cons. reflexivity.
  - destruct (String.eqb_spec k0 k) as [->|Hne]; simpl.
    + rewrite !elem_of_cons. tauto.
    + rewrite !elem_of_cons. rewrite IH. tauto.
Qed.

Lemma od_keys_pop k k' d :
  k' ∈ od_keys (od_pop k d) ↔ k' ≠ k ∧ k' ∈ od_keys d.
Proof.
  unfold od_keys. induction d as [|[k0 v0] d IH]; simpl.
  - split; [intros H; by apply elem_of_nil in H|intros [_ H]; exact H].
  - destruct (String.eqb_spec k0 k) as [->|Hne]; simpl.
    + rewrite IH, elem_of_cons. split; [tauto|].
      intros [H1 [H2|H2]]; [done|tauto].
    + rewrite !elem_of_cons, IH. split; [|tauto].
      intros [->|[H1 H2]]; tauto.
Qed.

Lemma od_insert_NoDup k v d : NoDup (od_keys d) → NoDup (od_keys (od_insert k v d)).
Proof.
  unfold od_keys. induction d as [|[k0 v0] d IH]; simpl; intros Hnd.
  - apply NoDup_singleton.
  - apply NoDup_cons in Hnd as [Hk0 Hnd].
    destruct (String.eqb_spec k0 k) as [->|Hne]; simpl.
    + by apply NoDup_cons.
    + apply NoDup_cons. split; [|by apply IH].
      intros H. apply (od_keys_insert k k0 v d) in H as [H|H]; [done|].
      by apply Hk0.
Qed.

Lemma od_pop_NoDup k d : NoDup (od_keys d) → NoDup (od_keys (od_pop k d)).
Proof.
  unfold od_keys. induction d as [|[k0 v0] d IH]; simpl; intros Hnd; [done|].
  apply NoDup_cons in Hnd as [Hk0 Hnd].
  destruct (String.eqb_spec k0 k) as [->|Hne]; simpl; [by apply IH|].
  apply NoDup_cons. split; [|by apply IH].
  intros H. apply (od_keys_pop k k0 d) in H as [_ H]. by apply Hk0.
Qed.

End odict_facts.

(** ** The least item of [min] *)

Section py_min_facts.
Context {A : Type} (lt : A → A → bool).
Hypothesis lt_irrefl : ∀ x, lt x x = false.
Hypothesis lt_trans : ∀ x y z, lt x y = true → lt y z = true → lt x z = true.

Lemma py_min_from_elem best l : py_min_from lt best l ∈ best :: l.
Proof.
  revert best. induction l as [|x l IH]; intros best; simpl.
  - apply list_elem_of_here.
  - specialize (IH (if lt x best then x else best)).
    apply elem_of_cons in IH as [->|IH].
    + destruct (lt x best); [apply list_elem_of_further|]; apply list_elem_of_here.
    + by do 2 apply list_elem_of_further.
Qed.

Lemma py_min_from_le_best best l :
  py_min_from lt best l = best ∨ lt (py_min_from lt best l) best = true.
Proof.
  revert best. induction l as [|x l IH]; intros best; simpl; [by left|].
  destruct (lt x best) eqn:Hx.
  - destruct (IH x) as [->|H]; [by right|]. right. by eapply lt_trans.
  - apply IH.
Qed.

Lemma py_min_from_least best l y :
  y ∈ best :: l → lt y (py_min_from lt best l) = false.
Proof.
  revert best. induction l as [|x l IH]; intros best; simpl.
  - intros H. apply list_elem_of_singleton in H as ->. apply lt_irrefl.
  - intros Hy.
    assert (y ∈ (if lt x best then x else best) :: l
            ∨ y = (if lt x best then best else x)) as [Hin | ->].
    { apply elem_of_cons in Hy as [->|Hy].
      - destruct (lt x best); [by right|left; apply list_elem_of_here].
      - apply elem_of_cons in Hy as [->|Hy].
        + destruct (lt x best); [left; apply list_elem_of_here|by right].
        + left. by apply list_elem_of_further. }
    { by apply IH. }
    destruct (lt x best) eqn:Hx.
    + destruct (py_min_from_le_best x l) as [->|Hm].
      * destruct (lt best x) eqn:Hbx; [|reflexivity].
        pose proof (lt_trans _ _ _ Hbx Hx) as Hbb.
        by rewrite lt_irrefl in Hbb.
      * destruct (lt best (py_min_from lt x l)) eqn:Hbm; [|reflexivity].
        pose proof (lt_trans _ _ _ (lt_trans _ _ _ Hbm Hm) Hx) as Hbb.
        by rewrite lt_irrefl in Hbb.
    + destruct (py_min_from_le_best best l) as [->|Hm]; [exact Hx|].
      destruct (lt x (py_min_from lt best l)) eqn:Hxm; [|reflexivity].
      by rewrite (lt_trans _ _ _ Hxm Hm) in Hx.
Qed.

End py_min_facts.

Lemma Qltb_lt (a b : Q) : Qltb a b = true ↔ (a < b)%Q.
Proof.
  unfold Qltb. rewrite Qlt_alt.
  destruct (a ?= b)%Q; split; intros H; congruence.
Qed.

Lemma Qltb_ge (a b : Q) : Qltb a b = false ↔ (b <= a)%Q.
Proof.
  rewrite <- not_true_iff_false, Qltb_lt. split.
  - apply Qnot_lt_le.
  - intros H1 H2. exact (Qlt_not_le _ _ H2 H1).
Qed.

(* ===================================================================== *)
(** * Properties of the bounded cache *)
(* ===================================================================== *)

Section cache_facts.
Context {V : Type}.
Implicit Types (s : CacheManager.t V) (k key lru : string) (value : V).

Lemma lru_lt_irrefl (ac : gmap string nat) x : CacheManager.lru_lt ac x x = false.
Proof.
  unfold CacheManager.lru_lt. rewrite Nat.ltb_irrefl, Nat.eqb_refl. simpl.
  apply Qltb_ge. apply Qle_refl.
Qed.

Lemma lru_lt_trans (ac : gmap string nat) x y z :
  CacheManager.lru_lt ac x y = true → CacheManager.lru_lt ac y z = true →
  CacheManager.lru_lt ac x z = true.
Proof.
  unfold CacheManager.lru_lt.
  set (cx := default 0%nat (ac !! x.1)).
  set (cy := default 0%nat (ac !! y.1)).
  set (cz := default 0%nat (ac !! z.1)).
  rewrite !orb_true_iff, !andb_true_iff, !Nat.ltb_lt, !Nat.eqb_eq, !Qltb_lt.
  intros [H1|[H1 Q1]] [H2|[H2 Q2]]; try (left; lia).
  right. split; [lia|]. by eapply Qlt_trans.
Qed.

Lemma lru_lt_false_le s x y :
  NoDup (od_keys (CacheManager.timestamps s)) →
  x ∈ CacheManager.timestamps s → y ∈ CacheManager.timestamps s →
  CacheManager.lru_lt (CacheManager.access_count s) y x = false →
  CacheManager.lru_le (CacheManager.lru_key s x.1) (CacheManager.lru_key s y.1).
Proof.
  intros Hnd Hx Hy. destruct x as [kx tx], y as [ky ty].
  unfold CacheManager.lru_lt, CacheManager.lru_le, CacheManager.lru_key. simpl.
  rewrite (od_elem_lookup kx tx _ Hnd Hx), (od_elem_lookup ky ty _ Hnd Hy). simpl.
  rewrite orb_false_iff, andb_false_iff, Nat.ltb_ge, Nat.eqb_neq, Qltb_ge.
  intros [H1 [H2|H2]]; [left; lia|].
  destruct (decide (default 0%nat (CacheManager.access_count s !! kx)
                    = default 0%nat (CacheManager.access_count s !! ky)))
    as [E|E]; [right; by split|left; lia].
Qed.

Lemma wf_keys s k :
  CacheManager.wf s →
  k ∈ od_keys (CacheManager.timestamps s) ↔ is_Some (CacheManager.cache s !! k).
Proof.
  intros (_ & Hdom & _). rewrite <- elem_of_dom, Hdom, elem_of_list_to_set.
  reflexivity.
Qed.

Lemma wf_init (n : Z) : CacheManager.wf (CacheManager.init (V:=V) n).
Proof.
  unfold CacheManager.wf, CacheManager.init. simpl.
  split; [apply NoDup_nil_2|]. split; [|done].
  by rewrite dom_empty_L.
Qed.

Lemma wf_remove s k : CacheManager.wf s → CacheManager.wf (CacheManager._remove k s).
Proof.
  intros (Hnd & Hdom & Hac). unfold CacheManager.wf, CacheManager._remove. simpl.
  split; [by apply od_pop_NoDup|]. split.
  - rewrite dom_delete_L, Hdom. apply set_eq. intros x.
    rewrite elem_of_difference, !elem_of_list_to_set, od_keys_pop,
      elem_of_singleton. tauto.
  - by rewrite !dom_delete_L, Hac.
Qed.

Lemma wf_insert s key value (now : Q) (c : nat) :
  CacheManager.wf s →
  CacheManager.wf
    (CacheManager.Make (<[key := value]> (CacheManager.cache s))
       (od_insert key now (CacheManager.timestamps s))
       (<[key := c]> (CacheManager.access_count s))
       (CacheManager.max_size s)).
Proof.
  intros (Hnd & Hdom & Hac). unfold CacheManager.wf. simpl.
  split; [by apply od_insert_NoDup|]. split.
  - rewrite dom_insert_L, Hdom. apply set_eq. intros x.
    rewrite elem_of_union, !elem_of_list_to_set, od_keys_insert,
      elem_of_singleton. tauto.
  - by rewrite !dom_insert_L, Hac.
Qed.

Lemma remove_len s k :
  is_Some (CacheManager.cache s !! k) →
  CacheManager.len (CacheManager._remove k s) = CacheManager.len s - 1.
Proof.
  intros Hk. unfold CacheManager.len, CacheManager._remove. simpl.
  rewrite (map_size_delete_Some _ _ Hk).
  destruct Hk as [v Hk].
  assert (size (CacheManager.cache s) ≠ 0%nat).
  { apply map_size_non_empty_iff. intros E. by rewrite E, lookup_empty in Hk. }
  lia.
Qed.

(** On a well-formed state with entries, [_evict_lru] removes one entry,
    whose pair (access count, timestamp) is least. *)
Lemma evict_lru_spec s :
  CacheManager.wf s → CacheManager.cache s ≠ ∅ →
  ∃ lru,
    is_Some (CacheManager.cache s !! lru)
    ∧ (∀ k, is_Some (CacheManager.cache s !! k) →
            CacheManager.lru_le (CacheManager.lru_key s lru)
                                (CacheManager.lru_key s k))
    ∧ CacheManager._evict_lru s = inr (CacheManager._remove lru s).
Proof.
  intros Hwf Hne. pose proof Hwf as (Hnd & Hdom & Hac).
  unfold CacheManager._evict_lru. destruct (decide _) as [E|_]; [done|].
  destruct (CacheManager.timestamps s) as [|x l] eqn:Hts.
  { exfalso. apply Hne. apply dom_empty_inv_L. by rewrite Hdom. }
  simpl. set (m := py_min_from _ x l).
  assert (m ∈ CacheManager.timestamps s) as Hm.
  { rewrite Hts. apply py_min_from_elem. }
  exists m.1. split; [|split; [|reflexivity]].
  - apply (wf_keys s _ Hwf). by apply (list_elem_of_fmap_2 fst).
  - intros k Hk. apply (wf_keys s _ Hwf) in Hk.
    apply od_lookup_keys in Hk as [tk Hk].
    assert ((k, tk) ∈ CacheManager.timestamps s) as Hin.
    { clear -Hk. induction (CacheManager.timestamps s) as [|[k' v'] d IH];
        simpl in *; [done|].
      destruct (String.eqb_spec k' k) as [->|Hne].
      - injection Hk as ->. apply list_elem_of_here.
      - apply list_elem_of_further. by apply IH. }
    apply (lru_lt_false_le s m (k, tk)); [by rewrite Hts in * |done|done|].
    rewrite Hts in Hin. subst m.
    apply py_min_from_least; [apply lru_lt_irrefl|apply lru_lt_trans|done].
Qed.

(** On a well-formed state [set] does not raise; it stores the entry with
    the clock reading and a zero counter. *)
Lemma set_spec s key value (now : Q) :
  CacheManager.wf s →
  ∃ s0,
    (if CacheManager.max_size s <=? CacheManager.len s
     then CacheManager._evict_lru s else inr s) = inr s0
    ∧ CacheManager.wf s0
    ∧ CacheManager.max_size s0 = CacheManager.max_size s
    ∧ (CacheManager.len s0 <= CacheManager.len s)
    ∧ (CacheManager.max_size s <= CacheManager.len s →
       CacheManager.cache s ≠ ∅ →
       CacheManager.len s0 = CacheManager.len s - 1)
    ∧ CacheManager.set key value now s
      = inr (CacheManager.Make (<[key := value]> (CacheManager.cache s0))
               (od_insert key now (CacheManager.timestamps s0))
               (<[key := 0%nat]> (CacheManager.access_count s0))
               (CacheManager.max_size s0)).
Proof.
  intros Hwf. unfold CacheManager.set.
  destruct (CacheManager.max_size s <=? CacheManager.len s) eqn:Hfull.
  - destruct (decide (CacheManager.cache s = ∅)) as [E|Hne].
    + exists s. unfold CacheManager._evict_lru.
      destruct (decide _) as [_|?]; [|done].
      split_and!; try done; try lia.
    + destruct (evict_lru_spec s Hwf Hne) as (lru & Hin & _ & ->).
      exists (CacheManager._remove lru s).
      pose proof (remove_len s lru Hin).
      split_and!; try done; try lia. by apply wf_remove.
  - exists s. split_and!; try done; lia.
Qed.

Lemma insert_len s key value (now : Q) (c : nat) :
  CacheManager.len
    (CacheManager.Make (<[key := value]> (CacheManager.cache s))
       (od_insert key now (CacheManager.timestamps s))
       (<[key := c]> (CacheManager.access_count s))
       (CacheManager.max_size s))
  <= CacheManager.len s + 1.
Proof.
  unfold CacheManager.len. simpl. rewrite map_size_insert.
  destruct (CacheManager.cache s !! key); simpl; lia.
Qed.

Lemma get_wf s key ttl (now : Q) :
  CacheManager.wf s → CacheManager.wf (CacheManager.get key ttl now s).2.
Proof.
  intros Hwf. unfold CacheManager.get.
  destruct (CacheManager.cache s !! key) as [v|] eqn:Hk; [|done].
  destruct (Qltb _ _); simpl; [|by apply wf_remove].
  destruct Hwf as (Hnd & Hdom & Hac). unfold CacheManager.wf. simpl.
  split; [done|]. split; [done|].
  rewrite dom_insert_L, Hac. apply set_eq. intros x.
  rewrite elem_of_union, elem_of_singleton, elem_of_dom.
  split; [intros [->|H]; [by eexists|done]|tauto].
Qed.

Lemma get_len s key ttl (now : Q) :
  CacheManager.len (CacheManager.get key ttl now s).2 <= CacheManager.len s.
Proof.
  unfold CacheManager.get.
  destruct (CacheManager.cache s !! key) as [v|] eqn:Hk; [|simpl; lia].
  destruct (Qltb _ _); simpl; [unfold CacheManager.len; simpl; lia|].
  rewrite remove_len; [lia|by eexists].
Qed.

End cache_facts.

(** C3.  After [set(key, value)] at time [T] on a cache in a consistent
    state, [get(key, ttl)] at time [now] is a hit returning the stored
    value when [now - T < ttl]; when [now - T >= ttl] it is a miss, and the
    state it leaves is the one without the key: no value, no timestamp and
    no access counter for it. *)
Theorem cache_ttl {V : Type} (s : CacheManager.t V) (key : string)
    (value : V) (T : Q) :
  CacheManager.wf s →
  ∃ s1,
    CacheManager.set key value T s = inr s1
    ∧ ∀ (ttl : Z) (now : Q),
        ((now - T < inject_Z ttl)%Q →
         (CacheManager.get key ttl now s1).1 = Some value)
        ∧ ((inject_Z ttl <= now - T)%Q →
           (CacheManager.get key ttl now s1).1 = None
           ∧ (CacheManager.get key ttl now s1).2 = CacheManager._remove key s1
           ∧ CacheManager.cache (CacheManager.get key ttl now s1).2 !! key = None
           ∧ od_lookup key
               (CacheManager.timestamps (CacheManager.get key ttl now s1).2) = None
           ∧ CacheManager.access_count (CacheManager.get key ttl now s1).2 !! key
             = None).
Proof.
  intros Hwf.
  destruct (set_spec s key value T Hwf) as (s0 & _ & _ & _ & _ & _ & Hset).
  eexists. split; [exact Hset|].
  intros ttl now. unfold CacheManager.get. simpl.
  rewrite lookup_insert_eq, od_lookup_insert_eq. simpl. split.
  - intros Hlt. apply Qltb_lt in Hlt. by rewrite Hlt.
  - intros Hge. apply Qltb_ge in Hge. rewrite Hge. simpl.
    split_and!; try done.
    + apply lookup_delete_eq.
    + apply od_lookup_pop_eq.
    + apply lookup_delete_eq.
Qed.

Lemma cache_ttl_witness :
  ∃ s1 : CacheManager.t nat,
    CacheManager.set "k" 7%nat 10%Q (CacheManager.init 2) = inr s1
    ∧ (CacheManager.get "k" 60 69%Q s1).1 = Some 7%nat
    ∧ (CacheManager.get "k" 60 70%Q s1).1 = None.
Proof.
  destruct (cache_ttl (CacheManager.init 2) "k" 7%nat 10%Q (wf_init 2))
    as (s1 & Hset & Hget).
  exists s1. split; [exact Hset|]. split.
  - apply (proj1 (Hget 60 69%Q)). reflexivity.
  - apply (proj2 (Hget 60 70%Q)). discriminate.
Defined.

(** C8, as the code has it.  [clear()] empties the value map, the
    timestamp map and the access counters; the number of entries removed
    goes to the log message, and the call itself returns [None]. *)
Theorem clear_empties {V : Type} (s : CacheManager.t V) :
  (CacheManager.clear s).1.1 = PyNone
  ∧ (CacheManager.clear s).1.2 = CacheManager.len s
  ∧ CacheManager.cache (CacheManager.clear s).2 = ∅
  ∧ CacheManager.timestamps (CacheManager.clear s).2 = []
  ∧ CacheManager.access_count (CacheManager.clear s).2 = ∅
  ∧ CacheManager.len (CacheManager.clear s).2 = 0
  ∧ CacheManager.max_size (CacheManager.clear s).2 = CacheManager.max_size s.
Proof.
  unfold CacheManager.clear, CacheManager.len. simpl.
  split_and!; reflexivity.
Qed.

(** A cache with one entry: [clear()] removes one entry and returns
    [None], not the count 1. *)
Lemma clear_returns_none :
  let s : CacheManager.t nat :=
    CacheManager.Make {["a" := 1%nat]} [("a", 0%Q)] {["a" := 0%nat]} 2 in
  CacheManager.len s = 1
  ∧ CacheManager.len (CacheManager.clear s).2 = 0
  ∧ (CacheManager.clear s).1.1 ≠ PyInt (CacheManager.len s).
Proof.
  split; [reflexivity|]. split; [reflexivity|]. discriminate.
Qed.

Lemma get_max_size {V : Type} (s : CacheManager.t V) key ttl (now : Q) :
  CacheManager.max_size (CacheManager.get key ttl now s).2
  = CacheManager.max_size s.
Proof.
  unfold CacheManager.get. destruct (CacheManager.cache s !! key); [|done].
  by destruct (Qltb _ _).
Qed.

(** The invariant kept by every operation: consistent dictionaries and a
    size within the capacity. *)
Lemma step_bounded {V : Type} (cap : Z) (s : CacheManager.t V)
    (o : CacheManager.op V) :
  1 <= cap →
  CacheManager.wf s → CacheManager.max_size s = cap → CacheManager.len s <= cap →
  ∃ s', CacheManager.step s o = inr s'
        ∧ CacheManager.wf s' ∧ CacheManager.max_size s' = cap
        ∧ CacheManager.len s' <= cap.
Proof.
  intros Hcap Hwf Hmax Hlen. destruct o as [key ttl now|key value now|]; simpl.
  - eexists. split; [reflexivity|]. split_and!.
    + by apply get_wf.
    + by rewrite get_max_size.
    + pose proof (get_len s key ttl now). lia.
  - destruct (set_spec s key value now Hwf)
      as (s0 & Hs0 & Hwf0 & Hmax0 & Hle & Hev & ->).
    eexists. split; [reflexivity|]. split_and!.
    + by apply wf_insert.
    + simpl. lia.
    + pose proof (insert_len s0 key value now 0) as Hins.
      destruct (Z.leb_spec (CacheManager.max_size s) (CacheManager.len s)) as [Hfull|Hfree].
      * assert (CacheManager.cache s ≠ ∅) as Hne.
        { intros E. unfold CacheManager.len in Hfull.
          rewrite E, map_size_empty in Hfull. lia. }
        specialize (Hev Hfull Hne). lia.
      * lia.
  - eexists. split; [reflexivity|]. unfold CacheManager.clear. simpl. split_and!.
    + apply wf_init.
    + done.
    + unfold CacheManager.len. simpl. rewrite map_size_empty. lia.
Qed.

Lemma run_bounded {V : Type} (cap : Z) (ops : list (CacheManager.op V))
    (s : CacheManager.t V) :
  1 <= cap →
  CacheManager.wf s → CacheManager.max_size s = cap → CacheManager.len s <= cap →
  ∃ s', CacheManager.run s ops = inr s'
        ∧ CacheManager.wf s' ∧ CacheManager.max_size s' = cap
        ∧ CacheManager.len s' <= cap.
Proof.
  intros Hcap. revert s. induction ops as [|o ops IH]; intros s Hwf Hmax Hlen.
  - exists s. by split_and!.
  - destruct (step_bounded cap s o Hcap Hwf Hmax Hlen) as (s1 & Hs1 & Hwf1 & Hmax1 & Hlen1).
    simpl. rewrite Hs1. simpl. by apply IH.
Qed.

(** C9.  From an empty cache of capacity [max_size >= 1], every sequence
    of [get], [set] and [clear] runs without raising and ends in a state
    with [len(cache) <= max_size]. *)
Theorem cache_size_bounded {V : Type} (max_size : Z)
    (ops : list (CacheManager.op V)) :
  1 <= max_size →
  ∃ s, CacheManager.run (CacheManager.init max_size) ops = inr s
       ∧ CacheManager.len s <= max_size.
Proof.
  intros Hcap.
  destruct (run_bounded max_size ops (CacheManager.init max_size) Hcap)
    as (s & Hrun & _ & _ & Hlen).
  - apply wf_init.
  - reflexivity.
  - unfold CacheManager.len. simpl. rewrite map_size_empty. lia.
  - by exists s.
Qed.

Lemma cache_size_bounded_witness :
  ∃ s : CacheManager.t nat,
    CacheManager.run (CacheManager.init 1)
      [CacheManager.OpSet "a" 1%nat 0%Q; CacheManager.OpSet "b" 2%nat 1%Q;
       CacheManager.OpGet "b" 60 2%Q; CacheManager.OpSet "c" 3%nat 3%Q] = inr s
    ∧ CacheManager.len s <= 1.
Proof.
  apply (cache_size_bounded 1). lia.
Defined.

(** Every state reached from an empty cache, whatever its capacity, is
    consistent, and no operation raises on the way. *)
Lemma reachable_wf {V : Type} (max_size : Z) (ops : list (CacheManager.op V)) :
  ∃ s, CacheManager.run (CacheManager.init max_size) ops = inr s
       ∧ CacheManager.wf s.
Proof.
  assert (∀ (s : CacheManager.t V), CacheManager.wf s →
            ∃ s', CacheManager.run s ops = inr s' ∧ CacheManager.wf s') as H.
  { induction ops as [|o ops IH]; intros s Hwf; [by exists s|].
    simpl. destruct o as [key ttl now|key value now|]; simpl.
    - apply IH. by apply get_wf.
    - destruct (set_spec s key value now Hwf) as (s0 & _ & Hwf0 & _ & _ & _ & ->).
      simpl. apply IH. by apply wf_insert.
    - apply IH. apply wf_init. }
  apply H, wf_init.
Qed.

(** ** Eviction *)

Lemma run_app {V : Type} (s : CacheManager.t V) (a b : list (CacheManager.op V)) :
  CacheManager.run s (a ++ b)
  = (let! s' := CacheManager.run s a in CacheManager.run s' b).
Proof.
  revert s. induction a as [|o a IH]; intros s; simpl; [reflexivity|].
  destruct (CacheManager.step s o) as [e|s1]; simpl; [reflexivity|apply IH].
Qed.

(** Below the capacity nothing is evicted: every entry set is stored. *)
Lemma fill_spec {V : Type} (entries : list (string * V * Q)) (s : CacheManager.t V) :
  CacheManager.wf s →
  NoDup (entries.*1.*1) →
  (∀ k, k ∈ entries.*1.*1 → CacheManager.cache s !! k = None) →
  CacheManager.len s + Z.of_nat (length entries) <= CacheManager.max_size s →
  ∃ s',
    CacheManager.run s (sets entries) = inr s'
    ∧ CacheManager.wf s'
    ∧ CacheManager.max_size s' = CacheManager.max_size s
    ∧ CacheManager.len s' = CacheManager.len s + Z.of_nat (length entries)
    ∧ (∀ k v t, (k, v, t) ∈ entries →
         CacheManager.cache s' !! k = Some v
         ∧ od_lookup k (CacheManager.timestamps s') = Some t)
    ∧ (∀ k, k ∉ entries.*1.*1 →
         CacheManager.cache s' !! k = CacheManager.cache s !! k
         ∧ od_lookup k (CacheManager.timestamps s')
           = od_lookup k (CacheManager.timestamps s)).
Proof.
  revert s. induction entries as [|[[k v] t] entries IH];
    intros s Hwf Hnd Hfresh Hroom.
  - exists s. simpl. split_and!; try done; try lia.
    intros ??? H. by apply elem_of_nil in H.
  - simpl in Hnd, Hroom. apply NoDup_cons in Hnd as [Hk Hnd].
    simpl. unfold CacheManager.set.
    destruct (Z.leb_spec (CacheManager.max_size s) (CacheManager.len s)) as [?|_];
      [lia|]. simpl.
    set (s1 := CacheManager.Make _ _ _ _).
    assert (CacheManager.cache s !! k = None) as Hkfresh.
    { apply Hfresh. simpl. apply list_elem_of_here. }
    assert (CacheManager.len s1 = CacheManager.len s + 1) as Hlen1.
    { unfold CacheManager.len, s1. simpl.
      rewrite map_size_insert_None by done. lia. }
    destruct (IH s1) as (s' & Hrun & Hwf' & Hmax' & Hlen' & Hin' & Hout').
    + by apply wf_insert.
    + exact Hnd.
    + intros k' Hk'. unfold s1. simpl. rewrite lookup_insert_ne.
      * apply Hfresh. simpl. by apply list_elem_of_further.
      * intros ->. by apply Hk.
    + unfold s1 at 2. simpl. lia.
    + exists s'. split_and!; try done; try lia.
      * intros k' v' t' Hin. apply elem_of_cons in Hin as [[= -> -> ->]|Hin];
          [|by apply Hin'].
        destruct (Hout' k Hk) as [-> ->]. unfold s1. simpl.
        by rewrite lookup_insert_eq, od_lookup_insert_eq.
      * intros k' Hk'. simpl in Hk'. apply not_elem_of_cons in Hk' as [Hne Hk'].
        destruct (Hout' k' Hk') as [-> ->]. unfold s1. simpl.
        by rewrite lookup_insert_ne, od_lookup_insert_ne.
Qed.

Lemma get_hit {V : Type} (s : CacheManager.t V) key (v : V) (t : Q) ttl now :
  CacheManager.cache s !! key = Some v →
  od_lookup key (CacheManager.timestamps s) = Some t →
  (now - t < inject_Z ttl)%Q →
  (CacheManager.get key ttl now s).1 = Some v.
Proof.
  intros Hc Ht Hlt. unfold CacheManager.get. rewrite Hc, Ht. simpl.
  apply Qltb_lt in Hlt. by rewrite Hlt.
Qed.

(** C4, as the code has it.  On a cache in a consistent state that holds
    at least one entry and has [len(cache) >= max_size], [set(key, value)]
    first evicts exactly one entry, one whose pair (access count, insertion
    timestamp) is least, and then stores the new key with counter 0 and the
    clock reading as timestamp.  Consequently, for a capacity of at least
    1, setting capacity + 1 distinct keys on an empty cache evicts exactly
    one of them; every other key is still stored with its value and is
    returned by [get] within its time to live. *)
Theorem set_evicts_least {V : Type} :
  (∀ (s : CacheManager.t V) (key : string) (value : V) (now : Q),
     CacheManager.wf s →
     CacheManager.cache s ≠ ∅ →
     CacheManager.max_size s <= CacheManager.len s →
     ∃ lru,
       is_Some (CacheManager.cache s !! lru)
       ∧ (∀ k, is_Some (CacheManager.cache s !! k) →
               CacheManager.lru_le (CacheManager.lru_key s lru)
                                   (CacheManager.lru_key s k))
       ∧ CacheManager._evict_lru s = inr (CacheManager._remove lru s)
       ∧ CacheManager.len (CacheManager._remove lru s) = CacheManager.len s - 1
       ∧ CacheManager.set key value now s
         = inr (CacheManager.Make
                  (<[key := value]> (delete lru (CacheManager.cache s)))
                  (od_insert key now (od_pop lru (CacheManager.timestamps s)))
                  (<[key := 0%nat]> (delete lru (CacheManager.access_count s)))
                  (CacheManager.max_size s)))
  ∧ (∀ (capacity : Z) (entries : list (string * V * Q)),
       1 <= capacity →
       NoDup (entries.*1.*1) →
       Z.of_nat (length entries) = capacity + 1 →
       ∃ s' evicted,
         CacheManager.run (CacheManager.init capacity) (sets entries) = inr s'
         ∧ evicted ∈ entries.*1.*1
         ∧ CacheManager.cache s' !! evicted = None
         ∧ CacheManager.len s' = capacity
         ∧ ∀ k v t, (k, v, t) ∈ entries → k ≠ evicted →
             CacheManager.cache s' !! k = Some v
             ∧ ∀ ttl now, (now - t < inject_Z ttl)%Q →
                 (CacheManager.get k ttl now s').1 = Some v).
Proof.
  assert (∀ (s : CacheManager.t V) (key : string) (value : V) (now : Q),
     CacheManager.wf s →
     CacheManager.cache s ≠ ∅ →
     CacheManager.max_size s <= CacheManager.len s →
     ∃ lru,
       is_Some (CacheManager.cache s !! lru)
       ∧ (∀ k, is_Some (CacheManager.cache s !! k) →
               CacheManager.lru_le (CacheManager.lru_key s lru)
                                   (CacheManager.lru_key s k))
       ∧ CacheManager._evict_lru s = inr (CacheManager._remove lru s)
       ∧ CacheManager.len (CacheManager._remove lru s) = CacheManager.len s - 1
       ∧ CacheManager.set key value now s
         = inr (CacheManager.Make
                  (<[key := value]> (delete lru (CacheManager.cache s)))
                  (od_insert key now (od_pop lru (CacheManager.timestamps s)))
                  (<[key := 0%nat]> (delete lru (CacheManager.access_count s)))
                  (CacheManager.max_size s))) as Hstep.
  { intros s key value now Hwf Hne Hfull.
    destruct (evict_lru_spec s Hwf Hne) as (lru & Hin & Hleast & Hev).
    exists lru. split_and!; try done.
    - by apply remove_len.
    - unfold CacheManager.set.
      destruct (Z.leb_spec (CacheManager.max_size s) (CacheManager.len s));
        [|lia].
      by rewrite Hev. }
  split; [exact Hstep|].
  intros capacity entries Hcap Hnd Hlen.
  destruct (exists_last (l := entries)) as (first & [[kl vl] tl] & ->).
  { intros ->. simpl in Hlen. lia. }
  rewrite !fmap_app in Hnd. simpl in Hnd.
  apply NoDup_app in Hnd as (Hnd & Hkl & _).
  rewrite length_app in Hlen. simpl in Hlen.
  destruct (fill_spec first (CacheManager.init capacity))
    as (sf & Hrun & Hwf & Hmax & Hlenf & Hin & Hout).
  { apply wf_init. }
  { exact Hnd. }
  { intros k _. apply lookup_empty. }
  { unfold CacheManager.len. simpl. rewrite map_size_empty. lia. }
  assert (CacheManager.len sf = capacity) as Hfull.
  { rewrite Hlenf. unfold CacheManager.len. simpl. rewrite map_size_empty. lia. }
  assert (CacheManager.cache sf ≠ ∅) as Hne.
  { intros E. unfold CacheManager.len in Hfull.
    rewrite E, map_size_empty in Hfull. lia. }
  destruct (Hstep sf kl vl tl Hwf Hne) as (lru & Hlru & _ & _ & Hlen1 & Hset).
  { simpl in Hmax. lia. }
  assert (lru ∈ first.*1.*1) as Hlru_in.
  { destruct (decide (lru ∈ first.*1.*1)) as [?|Hn]; [done|].
    destruct (Hout lru Hn) as [Hc _]. simpl in Hc.
    rewrite Hc, lookup_empty in Hlru. by destruct Hlru. }
  assert (kl ≠ lru) as Hkl_ne.
  { intros ->. apply (Hkl lru Hlru_in). apply list_elem_of_here. }
  eexists _, lru. split_and!.
  - unfold sets. rewrite map_app, run_app. fold (sets first).
    rewrite Hrun. simpl. rewrite Hset. reflexivity.
  - rewrite !fmap_app. apply elem_of_app. by left.
  - simpl. rewrite lookup_insert_ne by done. apply lookup_delete_eq.
  - unfold CacheManager.len in *. simpl in *.
    rewrite map_size_insert_None.
    + lia.
    + rewrite lookup_delete_ne by done.
      destruct (Hout kl) as [-> _]; [|apply lookup_empty].
      intros Hk. apply (Hkl kl Hk). apply list_elem_of_here.
  - intros k v t Hk Hne_ev.
    assert (CacheManager.cache
              (CacheManager.Make
                 (<[kl := vl]> (delete lru (CacheManager.cache sf)))
                 (od_insert kl tl (od_pop lru (CacheManager.timestamps sf)))
                 (<[kl := 0%nat]> (delete lru (CacheManager.access_count sf)))
                 (CacheManager.max_size sf)) !! k = Some v
            ∧ od_lookup k (od_insert kl tl (od_pop lru (CacheManager.timestamps sf)))
              = Some t) as [Hc Ht].
    { simpl. apply elem_of_app in Hk as [Hk|Hk].
      - destruct (Hin k v t Hk) as [Hc Ht].
        assert (kl ≠ k) as Hne_k.
        { intros ->. apply (Hkl k).
          - apply (list_elem_of_fmap_2 fst) in Hk.
            apply (list_elem_of_fmap_2 fst) in Hk. exact Hk.
          - apply list_elem_of_here. }
        rewrite lookup_insert_ne, lookup_delete_ne by done.
        rewrite od_lookup_insert_ne, od_lookup_pop_ne by done. by split.
      - apply list_elem_of_singleton in Hk as [= -> -> ->].
        by rewrite lookup_insert_eq, od_lookup_insert_eq. }
    split; [exact Hc|].
    intros ttl now Hlt. by eapply get_hit.
Qed.

Lemma set_evicts_least_witness :
  let s : CacheManager.t nat :=
    CacheManager.Make (<["a" := 1%nat]> ∅) (od_insert "a" 0%Q []) (<["a" := 0%nat]> ∅) 1 in
  let entries : list (string * nat * Q) :=
    [("a", 1%nat, 0%Q); ("b", 2%nat, 1%Q); ("c", 3%nat, 2%Q)] in
  (∃ lru, is_Some (CacheManager.cache s !! lru)
          ∧ CacheManager._evict_lru s = inr (CacheManager._remove lru s))
  ∧ (∃ s' evicted,
       CacheManager.run (CacheManager.init 2) (sets entries) = inr s'
       ∧ evicted ∈ entries.*1.*1
       ∧ CacheManager.cache s' !! evicted = None).
Proof.
  intros s entries. split.
  - destruct (proj1 set_evicts_least s "b" 2%nat 1%Q) as (lru & H1 & _ & H3 & _).
    + exact (wf_insert (CacheManager.init 1) "a" 1%nat 0%Q 0%nat (wf_init 1)).
    + apply insert_non_empty.
    + vm_compute. discriminate.
    + exists lru. split; assumption.
  - destruct (proj2 set_evicts_least 2 entries) as (s' & ev & H1 & H2 & H3 & _).
    + lia.
    + simpl.
      repeat (apply NoDup_cons_2;
              [intros H; repeat (apply elem_of_cons in H as [H|H]; [discriminate|]);
               by apply elem_of_nil in H|]).
      apply NoDup_nil_2.
    + reflexivity.
    + exists s', ev. split_and!; assumption.
Defined.

(** A cache of capacity 0 with no entry has [len(cache) >= max_size], yet
    [set] finds nothing to evict: the state that [_evict_lru] leaves is the
    one it found, and the one key set (capacity + 1 keys) is stored. *)
Lemma set_on_empty_cache_evicts_nothing :
  let s : CacheManager.t nat := CacheManager.init 0 in
  CacheManager.max_size s <= CacheManager.len s
  ∧ CacheManager._evict_lru s = inr s
  ∧ ¬ (∃ lru, is_Some (CacheManager.cache s !! lru)
              ∧ CacheManager._evict_lru s = inr (CacheManager._remove lru s))
  ∧ ∃ s', CacheManager.run s (sets [("a", 1%nat, 0%Q)]) = inr s'
          ∧ CacheManager.cache s' !! "a" = Some 1%nat
          ∧ ¬ (∃ evicted, evicted ∈ ["a"] ∧ CacheManager.cache s' !! evicted = None).
Proof.
  intros s. split; [vm_compute; discriminate|]. split; [reflexivity|]. split.
  - intros (lru & [v Hv] & _). subst s. simpl in Hv.
    by rewrite lookup_empty in Hv.
  - eexists. split; [reflexivity|]. split; [reflexivity|].
    intros (ev & Hev & Hnone). apply list_elem_of_singleton in Hev as ->.
    simpl in Hnone. by rewrite lookup_insert_eq in Hnone.
Qed.

(* ===================================================================== *)
(** * Properties of the feature engine *)
(* ===================================================================== *)

Lemma lookup_app_plus {A} (h l : list A) (i : nat) :
  (h ++ l) !! (length h + i)%nat = l !! i.
Proof.
  rewrite lookup_app_r by lia. f_equal. lia.
Qed.

Lemma insert_app_plus {A} (h l : list A) (i : nat) (x : A) :
  <[(length h + i)%nat := x]> (h ++ l) = h ++ <[i := x]> l.
Proof. apply insert_app_r. Qed.

Section feature_engine_facts.
Variable np_pi : Q.
Variables np_sin np_cos np_sqrt : Q → Q.

Local Abbreviation create_features :=
  (create_features_from_3hours np_pi np_sin np_cos np_sqrt).
Local Abbreviation outcome_of_features :=
  (features_outcome np_pi np_sin np_cos np_sqrt).

(** A run of assignments changes the target frame and nothing else. *)
Lemma assign_all_run (tbl : list assignment) (h : store) (target src : ref)
    (d ft : DataFrame) :
  h !! src = Some d → h !! target = Some ft → src ≠ target →
  assign_all target src tbl h
  = (match (eval_assignments tbl d ft).1 with
     | Some e => inl e
     | None => inr tt
     end,
     <[target := (eval_assignments tbl d ft).2]> h).
Proof.
  revert h ft. induction tbl as [|[name e] tbl IH]; intros h ft Hsrc Htgt Hne.
  - cbn [assign_all eval_assignments fst snd]. unfold mret.
    by rewrite list_insert_id.
  - cbn [assign_all eval_assignments]. unfold mbind_M at 1. unfold deref.
    rewrite Hsrc. unfold mbind_M at 1. unfold lift.
    destruct (e d) as [err|s] eqn:He.
    + cbn [fst snd]. by rewrite list_insert_id.
    + unfold mbind_M at 1. unfold setitem. rewrite Htgt.
      rewrite (IH _ (set_column name s ft)).
      * by rewrite list_insert_insert_eq.
      * by rewrite list_lookup_insert_ne.
      * apply list_lookup_insert_eq. by eapply lookup_lt_Some.
      * exact Hne.
Qed.

(** The store-passing function and its closed form agree. *)
Lemma create_features_run (h : store) (r : ref) (d0 : DataFrame) :
  h !! r = Some d0 → create_features r h = outcome_of_features d0 h.
Proof.
  intros Hr. unfold create_features_from_3hours, features_outcome, features_trace.
  Opaque assign_all eval_assignments window_assignments time_assignments
         sort_index dropna tail df_empty.
  unfold mbind_M at 1. unfold deref at 1. rewrite Hr.
  destruct (nrows d0 <? 3)%nat; [simpl; by rewrite app_nil_r|].
  unfold mbind_M at 1. unfold lift.
  destruct (getitem d0 "pm2_5") as [e|pm]; [simpl; by rewrite app_nil_r|].
  set (d := sort_index d0).
  unfold mbind_M at 1. unfold alloc at 1.
  unfold mbind_M at 1. unfold deref at 1.
  replace (length h) with (length h + 0)%nat at 1 by lia.
  rewrite lookup_app_plus. simpl.
  unfold mbind_M at 1. unfold alloc at 1.
  unfold mbind_M at 1. unfold deref at 1.
  rewrite <- (app_assoc h). simpl.
  replace (length (h ++ [d])) with (length h + 1)%nat by (rewrite length_app; simpl; lia).
  rewrite lookup_app_plus. simpl.
  unfold mbind_M at 1. unfold alloc at 1.
  rewrite <- (app_assoc h). simpl.
  replace (length (h ++ [d; d])) with (length h + 2)%nat by (rewrite length_app; simpl; lia).
  set (ft0 := Frame (df_index d) []).
  unfold mbind_M at 1.
  rewrite (assign_all_run _ _ _ _ d ft0);
    [|by rewrite lookup_app_plus|by rewrite lookup_app_plus|lia].
  rewrite insert_app_plus. simpl.
  destruct (eval_assignments _ d ft0) as [[e1|] ft1]; simpl; [reflexivity|].
  unfold mbind_M at 1. unfold deref at 1. rewrite lookup_app_plus. simpl.
  unfold mbind_M at 1.
  rewrite (assign_all_run _ _ _ _ d ft1);
    [|by rewrite lookup_app_plus|by rewrite lookup_app_plus|lia].
  rewrite insert_app_plus. simpl.
  destruct (eval_assignments _ d ft1) as [[e2|] ft2]; simpl; [reflexivity|].
  unfold mbind_M at 1. unfold deref at 1. rewrite lookup_app_plus. simpl.
  unfold mbind_M at 1. unfold alloc at 1.
  rewrite <- (app_assoc h). simpl.
  replace (length (h ++ [d; d; ft2])) with (length h + 3)%nat
    by (rewrite length_app; simpl; lia).
  unfold mbind_M at 1. unfold deref at 1. rewrite lookup_app_plus. simpl.
  destruct (df_empty (dropna ft2)); [reflexivity|].
  unfold alloc. rewrite <- (app_assoc h). simpl.
  do 2 f_equal. rewrite length_app. simpl. lia.
  Transparent assign_all eval_assignments window_assignments time_assignments
              sort_index dropna tail df_empty.
Qed.

Lemma features_trace_row (d0 : DataFrame) (k : nat) :
  (features_trace np_pi np_sin np_cos np_sqrt d0).1 = inr k →
  ∃ row, (features_trace np_pi np_sin np_cos np_sqrt d0).2 !! k = Some row
         ∧ nrows row = 1%nat.
Proof.
  unfold features_trace.
  destruct (nrows d0 <? 3)%nat; [discriminate|].
  destruct (getitem d0 "pm2_5"); [discriminate|]. cbv zeta.
  destruct (eval_assignments _ _ _) as [[e1|] ft1]; [discriminate|].
  cbn [fst snd].
  destruct (eval_assignments _ _ _) as [[e2|] ft2]; [discriminate|].
  cbn [fst snd].
  destruct (df_empty (dropna ft2)) eqn:Hempty; [discriminate|].
  intros [= <-]. eexists. split; [reflexivity|].
  unfold df_empty in Hempty. apply orb_false_iff in Hempty as [Hn _].
  apply Nat.eqb_neq in Hn. unfold tail, nrows in *. cbn [df_index].
  rewrite length_drop. lia.
Qed.

(** C10.  [create_features_from_3hours] does not change its argument:
    whatever the call does (return or raise), the frame that the argument
    refers to, like every other object that existed before the call, is
    the same afterwards, index, columns and values; and the frame returned
    is an object that did not exist before the call, with one row. *)
Theorem create_features_keeps_input (h : store) (df_3hours : ref)
    (d0 : DataFrame) :
  h !! df_3hours = Some d0 →
  (3 <= nrows d0)%nat →
  h `prefix_of` (create_features df_3hours h).2
  ∧ (create_features df_3hours h).2 !! df_3hours = Some d0
  ∧ (∀ r f, h !! r = Some f → (create_features df_3hours h).2 !! r = Some f)
  ∧ (∀ out, (create_features df_3hours h).1 = inr out →
       h !! out = None
       ∧ out ≠ df_3hours
       ∧ ∃ row, (create_features df_3hours h).2 !! out = Some row
                ∧ nrows row = 1%nat).
Proof.
  intros Hr _. rewrite (create_features_run h df_3hours d0 Hr).
  unfold features_outcome. cbn [fst snd].
  assert (∀ r f, h !! r = Some f →
            (h ++ (features_trace np_pi np_sin np_cos np_sqrt d0).2) !! r = Some f)
    as Hkeep.
  { intros r f Hf. by apply lookup_app_l_Some. }
  split_and!.
  - by apply prefix_app_r.
  - by apply Hkeep.
  - exact Hkeep.
  - intros out Hout.
    destruct (features_trace np_pi np_sin np_cos np_sqrt d0).1 as [e|k] eqn:Hk;
      [discriminate|].
    injection Hout as <-.
    destruct (features_trace_row d0 k Hk) as (row & Hrow & Hn).
    split_and!.
    + apply lookup_ge_None. lia.
    + apply lookup_lt_Some in Hr. lia.
    + exists row. by rewrite lookup_app_plus.
Qed.

Lemma sort_index_ordered (s2 s1 s0 : snapshot) :
  sn_datetime s2 <= sn_datetime s1 → sn_datetime s1 <= sn_datetime s0 →
  sort_index (frame_of_snapshots [s2; s1; s0]) = frame_of_snapshots [s2; s1; s0].
Proof.
  intros H21 H10. apply Z.leb_le in H21, H10.
  unfold sort_index, frame_of_snapshots, argsort. simpl.
  rewrite H10. simpl. rewrite H21. reflexivity.
Qed.

Ltac split_non_null H :=
  unfold snapshot_non_null, snapshot_items in H; cbn [sn_air sn_weather
    a_co a_no a_no2 a_o3 a_so2 a_pm2_5 a_pm10 a_nh3
    w_temperature_2m w_relative_humidity_2m w_precipitation w_pressure_msl
    w_windspeed_10m w_winddirection_10m w_shortwave_radiation] in H;
  repeat (apply Forall_cons in H as [[? ?] H]; cbn [snd] in *; subst).

(** C2.  For a window of three snapshots in time order whose measurements
    are all numbers and whose pm2_5 values are 10, 20 and 30 (at t-2, t-1
    and t-0), [create_features_from_3hours] returns one row, that of t-0,
    with the 40 feature columns, in which pm2_5_lag_1 = 20,
    pm2_5_lag_2 = 10, pm2_5_roll_avg_3hr = 20 and pm2_5_diff_1hr = 10. *)
Theorem features_of_10_20_30 (h : store) (df_3hours : ref)
    (s2 s1 s0 : snapshot) :
  h !! df_3hours = Some (frame_of_snapshots [s2; s1; s0]) →
  sn_datetime s2 <= sn_datetime s1 → sn_datetime s1 <= sn_datetime s0 →
  snapshot_non_null s2 → snapshot_non_null s1 → snapshot_non_null s0 →
  a_pm2_5 (sn_air s2) = Some 10%Q →
  a_pm2_5 (sn_air s1) = Some 20%Q →
  a_pm2_5 (sn_air s0) = Some 30%Q →
  ∃ out row,
    (create_features df_3hours h).1 = inr out
    ∧ (create_features df_3hours h).2 !! out = Some row
    ∧ df_index row = [sn_datetime s0]
    ∧ length (df_columns row) = 40%nat
    ∧ column_is row "pm2_5_lag_1" 20
    ∧ column_is row "pm2_5_lag_2" 10
    ∧ column_is row "pm2_5_roll_avg_3hr" 20
    ∧ column_is row "pm2_5_diff_1hr" 10.
Proof.
  intros Hr H21 H10 N2 N1 N0 P2 P1 P0.
  rewrite (create_features_run h df_3hours _ Hr).
  unfold features_outcome. cbn [fst snd].
  assert (∃ row fs,
            features_trace np_pi np_sin np_cos np_sqrt
              (frame_of_snapshots [s2; s1; s0]) = (inr 4%nat, fs)
            ∧ fs !! 4%nat = Some row
            ∧ df_index row = [sn_datetime s0]
            ∧ length (df_columns row) = 40%nat
            ∧ column_is row "pm2_5_lag_1" 20
            ∧ column_is row "pm2_5_lag_2" 10
            ∧ column_is row "pm2_5_roll_avg_3hr" 20
            ∧ column_is row "pm2_5_diff_1hr" 10) as (row & fs & -> & Hrow & Hprops).
  { unfold features_trace.
    rewrite (sort_index_ordered s2 s1 s0 H21 H10).
    destruct s2 as [i2 [? ? ? ? ? ? ? ?] [? ? ? ? ? ? ?]].
    destruct s1 as [i1 [? ? ? ? ? ? ? ?] [? ? ? ? ? ? ?]].
    destruct s0 as [i0 [? ? ? ? ? ? ? ?] [? ? ? ? ? ? ?]].
    cbn [sn_air a_pm2_5] in P2, P1, P0. subst.
    split_non_null N2. split_non_null N1. split_non_null N0.
    lazy - [hour_of dayofweek_of month_of is_rainy_season cyc deg2rad
            Qmean Qssd Qsum Qmin Qminus Qmult Qplus Qdiv inject_Z column_is].
    eexists _, _. split; [reflexivity|]. split; [reflexivity|].
    split; [reflexivity|]. split; [reflexivity|].
    unfold column_is.
    split_and!; (eexists; split; [reflexivity|reflexivity]). }
  exists (length h + 4)%nat, row. split; [reflexivity|].
  split; [by rewrite lookup_app_plus|]. exact Hprops.
Qed.

End feature_engine_facts.

Lemma sample_snapshot_non_null t pm : snapshot_non_null (sample_snapshot t pm).
Proof.
  unfold snapshot_non_null, sample_snapshot, snapshot_items. simpl.
  repeat (apply Forall_cons; split; [by eexists|]). apply Forall_nil_2.
Qed.

Lemma features_of_10_20_30_witness :
  let f := create_features_from_3hours 3 (fun _ => 0%Q) (fun _ => 1%Q) (fun x => x) in
  let h := [frame_of_snapshots sample_window] in
  ∃ out row,
    (f 0%nat h).1 = inr out
    ∧ (f 0%nat h).2 !! out = Some row
    ∧ df_index row = [1764032400000000]
    ∧ length (df_columns row) = 40%nat
    ∧ column_is row "pm2_5_lag_1" 20
    ∧ column_is row "pm2_5_lag_2" 10
    ∧ column_is row "pm2_5_roll_avg_3hr" 20
    ∧ column_is row "pm2_5_diff_1hr" 10.
Proof.
  apply (features_of_10_20_30 3 (fun _ => 0%Q) (fun _ => 1%Q) (fun x => x)
           [frame_of_snapshots sample_window] 0%nat
           (sample_snapshot 1764025200000000 10)
           (sample_snapshot 1764028800000000 20)
           (sample_snapshot 1764032400000000 30)).
  - reflexivity.
  - vm_compute. discriminate.
  - vm_compute. discriminate.
  - apply sample_snapshot_non_null.
  - apply sample_snapshot_non_null.
  - apply sample_snapshot_non_null.
  - reflexivity.
  - reflexivity.
  - reflexivity.
Defined.

Lemma create_features_keeps_input_witness :
  let f := create_features_from_3hours 3 (fun _ => 0%Q) (fun _ => 1%Q) (fun x => x) in
  let h := [frame_of_snapshots sample_window] in
  h `prefix_of` (f 0%nat h).2
  ∧ (f 0%nat h).2 !! 0%nat = Some (frame_of_snapshots sample_window)
  ∧ (f 0%nat h).1 = inr 5%nat.
Proof.
  destruct (create_features_keeps_input 3 (fun _ => 0%Q) (fun _ => 1%Q)
              (fun x => x) [frame_of_snapshots sample_window] 0%nat
              (frame_of_snapshots sample_window))
    as (H1 & H2 & _).
  - reflexivity.
  - vm_compute. lia.
  - split; [exact H1|]. split; [exact H2|]. vm_compute. reflexivity.
Defined.

(* ===================================================================== *)
(** * Properties of the district predictor *)
(* ===================================================================== *)

Section predictor_facts.
Variable np_pi : Q.
Variables np_sin np_cos np_sqrt : Q → Q.
Variable fetch_air_quality_at_time : Z → string → Q → Q → result air_data.
Variable fetch_weather_forecast : datetime → Q → Q → result weather_data.
Variable fetch_weather_archive : datetime → Q → Q → result weather_data.
Variable X : Type.
Variable scaler_transform : DataFrame → result X.
Variable model_predict : X → result Q.

Local Abbreviation predict :=
  (predict_pm25_for_district np_pi np_sin np_cos np_sqrt
     fetch_air_quality_at_time fetch_weather_forecast fetch_weather_archive
     X scaler_transform model_predict).
Local Abbreviation body :=
  (predict_body np_pi np_sin np_cos np_sqrt
     fetch_air_quality_at_time fetch_weather_forecast fetch_weather_archive
     X scaler_transform model_predict).
Local Abbreviation raised :=
  (raised_at np_pi np_sin np_cos np_sqrt
     fetch_air_quality_at_time fetch_weather_forecast fetch_weather_archive
     X scaler_transform model_predict).

(** Whatever happens, the call returns a result for its district. *)
Lemma predict_returns_district (d : district) (year month day hour minute : Z)
    (api_key : string) (feature_columns : list string) (include_raw_data : bool)
    (now2 now1 now0 : datetime) :
  p_id (predict d year month day hour minute api_key feature_columns
          include_raw_data now2 now1 now0) = d_id d
  ∧ p_name (predict d year month day hour minute api_key feature_columns
              include_raw_data now2 now1 now0) = d_name d.
Proof.
  unfold predict_pm25_for_district, predict_body.
  destruct (localize_datetime _ _ _ _ _) as [e|t]; [done|]. simpl.
  destruct (fetch_window _ _ _ _ _ _ _ _ _) as [e|rows]; [done|]. simpl.
  destruct (build_features _ _ _ _ _ _ _).1 as [e|ft]; [done|]. simpl.
  destruct (scaler_transform ft) as [e|x]; [done|]. simpl.
  destruct (model_predict x) as [e|p]; done.
Qed.

(** A batch gets one result per district, each with the id of its
    district, whatever the clock readings of the tasks. *)
Lemma predict_batch_ids (districts : list district)
    (year month day hour minute : Z) (api_key : string)
    (feature_columns : list string)
    (clock : district → datetime * datetime * datetime) :
  Forall2 (λ d p, p_id p = d_id d) districts
    ((λ d, predict d year month day hour minute api_key feature_columns true
             (clock d).1.1 (clock d).1.2 (clock d).2) <$> districts).
Proof.
  induction districts as [|d districts IH]; [constructor|].
  rewrite fmap_cons. constructor; [|exact IH].
  apply predict_returns_district.
Qed.

(** The snapshots are fetched in order; the first lookup that raises
    stops the window. *)
Lemma fetch_window_raises (d : district) (api_key : string)
    (now2 now1 now0 target_time : datetime) (e : exc) :
  let get := get_15_features_at_time fetch_air_quality_at_time
               fetch_weather_forecast fetch_weather_archive in
  get now2 (target_time - td_hours 2) api_key (d_lat d) (d_lon d) = inl e
  ∨ (∃ f2,
       get now2 (target_time - td_hours 2) api_key (d_lat d) (d_lon d) = inr f2
       ∧ get now1 (target_time - td_hours 1) api_key (d_lat d) (d_lon d) = inl e)
  ∨ (∃ f2 f1,
       get now2 (target_time - td_hours 2) api_key (d_lat d) (d_lon d) = inr f2
       ∧ get now1 (target_time - td_hours 1) api_key (d_lat d) (d_lon d) = inr f1
       ∧ get now0 target_time api_key (d_lat d) (d_lon d) = inl e) →
  fetch_window fetch_air_quality_at_time fetch_weather_forecast
    fetch_weather_archive d api_key now2 now1 now0 target_time = inl e.
Proof.
  intros get. unfold fetch_window. fold get.
  intros [H2|[(f2 & H2 & H1)|(f2 & f1 & H2 & H1 & H0)]].
  - by rewrite H2.
  - rewrite H2. simpl. by rewrite H1.
  - rewrite H2. simpl. rewrite H1. simpl. by rewrite H0.
Qed.

(** C6.  If an exception [e] is raised while fetching the three
    snapshots, building the feature row, scaling or invoking the model,
    [predict_pm25_for_district] returns the failure result of the
    district: its id and name, status error, the message of [e] and the
    class name of [e].  The call returns a result and raises nothing. *)
Theorem predictor_catches (d : district) (year month day hour minute : Z)
    (api_key : string) (feature_columns : list string) (include_raw_data : bool)
    (now2 now1 now0 target_time : datetime) (e : exc) :
  localize_datetime year month day hour minute = inr target_time →
  raised d api_key feature_columns now2 now1 now0 target_time e →
  let res := predict d year month day hour minute api_key feature_columns
               include_raw_data now2 now1 now0 in
  res = Failure (d_id d) (d_name d) (d_name_en d) (d_lat d) (d_lon d)
                (exc_msg e) (exc_type e)
  ∧ p_id res = d_id d ∧ p_name res = d_name d ∧ p_status res = StatusError.
Proof.
  intros Ht Hraised res.
  assert (res = failure_of d e) as ->; [|by split_and!].
  subst res. unfold predict_pm25_for_district, predict_body. rewrite Ht. simpl.
  destruct Hraised as [Hf|rows Hf Hb|rows ft Hf Hb Hs|rows ft x Hf Hb Hs Hm].
  - by rewrite Hf.
  - rewrite Hf. simpl. by rewrite Hb.
  - rewrite Hf. simpl. rewrite Hb. simpl. by rewrite Hs.
  - rewrite Hf. simpl. rewrite Hb. simpl. rewrite Hs. simpl. by rewrite Hm.
Qed.

End predictor_facts.

Lemma predictor_catches_witness :
  let air := fun (_ : Z) (_ : string) (_ _ : Q) =>
    (raise "HTTPError" "503 Server Error" : result air_data) in
  let weather := fun (_ : datetime) (_ _ : Q) =>
    (raise "HTTPError" "unreachable" : result weather_data) in
  predict_pm25_for_district 3 (fun _ => 0%Q) (fun _ => 1%Q) (fun x => x)
    air weather weather unit (fun _ => inr tt) (fun _ => inr 0%Q)
    sample_district 2025 11 25 8 0 "key" [] true 0 0 0
  = Failure 7 "Quan 7" "District 7" (1073 # 100) (10672 # 100)
            "503 Server Error" "HTTPError".
Proof.
  intros air weather.
  refine (proj1 (predictor_catches 3 (fun _ => 0%Q) (fun _ => 1%Q) (fun x => x)
           air weather weather unit (fun _ => inr tt) (fun _ => inr 0%Q)
           sample_district 2025 11 25 8 0 "key" [] true 0 0 0
           1764032400000000 (Exc "HTTPError" "503 Server Error") _ _)).
  - reflexivity.
  - apply RaisedFetch. reflexivity.
Defined.

(* ===================================================================== *)
(** * Properties of the batch orchestrator *)
(* ===================================================================== *)

Section sort_facts.
Context {A : Type} (le : A → A → bool).

Lemma insert_by_Permutation x l : insert_by le x l ≡ₚ x :: l.
Proof.
  induction l as [|y l IH]; simpl; [reflexivity|].
  destruct (le x y); [reflexivity|].
  rewrite IH. apply Permutation_swap.
Qed.

Lemma sort_by_Permutation l : sort_by le l ≡ₚ l.
Proof.
  induction l as [|x l IH]; simpl; [reflexivity|].
  rewrite insert_by_Permutation. by rewrite IH.
Qed.

Hypothesis le_total : ∀ x y, le x y = true ∨ le y x = true.
Hypothesis le_trans : ∀ x y z, le x y = true → le y z = true → le x z = true.

Lemma insert_by_sorted x l :
  StronglySorted (λ a b, le a b = true) l →
  StronglySorted (λ a b, le a b = true) (insert_by le x l).
Proof.
  induction 1 as [|y l Hs IH Hy]; simpl.
  - repeat constructor.
  - destruct (le x y) eqn:Hxy.
    + constructor; [by constructor|].
      constructor; [exact Hxy|].
      eapply Forall_impl; [exact Hy|]. intros z Hz. by eapply le_trans.
    + constructor; [exact IH|].
      assert (le y x = true) as Hyx by (destruct (le_total x y); congruence).
      rewrite (insert_by_Permutation x l). by constructor.
Qed.

Lemma sort_by_sorted l : StronglySorted (λ a b, le a b = true) (sort_by le l).
Proof.
  induction l as [|x l IH]; simpl; [constructor|]. by apply insert_by_sorted.
Qed.

End sort_facts.

Lemma sort_by_id_sorted (l : list prediction) :
  StronglySorted Z.le (p_id <$> sort_by_id l).
Proof.
  unfold sort_by_id.
  pose proof (sort_by_sorted (fun a b => p_id a <=? p_id b)) as Hs.
  specialize (Hs ltac:(intros x y; rewrite !Z.leb_le; lia)
                 ltac:(intros x y z; rewrite !Z.leb_le; lia) l).
  induction Hs as [|x l' Hs IH Hx]; simpl; constructor; [exact IH|].
  apply Forall_fmap. eapply Forall_impl; [exact Hx|].
  intros y Hy. by apply Z.leb_le.
Qed.

Lemma omap_pm25_length (l : list prediction) :
  Forall (λ p, is_success p = true) l → length (omap pm25_of l) = length l.
Proof.
  induction 1 as [|p l Hp _ IH]; [reflexivity|].
  destruct p; [|discriminate]. cbn [omap list_omap pm25_of length].
  f_equal. exact IH.
Qed.

Lemma count_if_split (test : Q → bool) (values : list Q) :
  count_if test values + count_if (λ v, negb (test v)) values
  = Z.of_nat (length values).
Proof.
  unfold count_if. induction values as [|v values IH]; simpl; [reflexivity|].
  rewrite !filter_cons. destruct (test v); simpl.
  - destruct (decide (true = true)); [|done].
    destruct (decide (false = true)); [done|]. simpl. lia.
  - destruct (decide (false = true)); [done|].
    destruct (decide (true = true)); [|done]. simpl. lia.
Qed.

(** C5, on the empty list of districts.  The claim asks for a response
    with no success, no failure and statistics over no value; the summary
    line of the handler divides the number of successes by the number of
    districts, so with no district it raises [ZeroDivisionError] before any
    response is built.  (For a list that is not empty, see
    [batch_partition] below.) *)
Theorem batch_without_districts_raises (np_sqrt : Q → Q)
    (resp : result batch_response) :
  predict_all_districts np_sqrt [] [] resp
  ↔ resp = raise "ZeroDivisionError" "division by zero".
Proof.
  split.
  - intros [completed Hperm]. apply Permutation_nil_r in Hperm as ->.
    reflexivity.
  - intros ->. exact (Completed np_sqrt [] [] [] (Permutation_refl _)).
Qed.

(** X14.  The partial-failure invariant, for a list of districts that is
    not empty: with N districts of which K tasks returned a failure, the
    response lists N - K successes and K failures, their ids are those of
    the districts (and no id is on both lists when district ids are
    distinct), and both lists ascend by id.  The statistics are taken over
    the N - K predicted values: they report N - K successes of N expected
    and K failures, and count the values above 15 and the values up to 15,
    N - K in all; without a success they report N expected and K failed.
    (The averaged figures are results of floating-point arithmetic and are
    not stated.) *)
Lemma batch_partition (np_sqrt : Q → Q) (districts : list district)
    (outcomes : list prediction) (resp : result batch_response) :
  districts ≠ [] →
  Forall2 (λ d p, p_id p = d_id d) districts outcomes →
  predict_all_districts np_sqrt districts outcomes resp →
  let N := length districts in
  let K := length (filter (λ p, is_success p ≠ true) outcomes) in
  ∃ r,
    resp = inr r
    ∧ length (br_districts r) = (N - K)%nat
    ∧ length (br_errors r) = K
    ∧ Forall (λ p, is_success p = true) (br_districts r)
    ∧ Forall (λ p, is_success p ≠ true) (br_errors r)
    ∧ (p_id <$> br_districts r) ++ (p_id <$> br_errors r) ≡ₚ d_id <$> districts
    ∧ (NoDup (d_id <$> districts) →
       ∀ i, i ∈ p_id <$> br_districts r → i ∉ p_id <$> br_errors r)
    ∧ StronglySorted Z.le (p_id <$> br_districts r)
    ∧ StronglySorted Z.le (p_id <$> br_errors r)
    ∧ length (omap pm25_of (br_districts r)) = (N - K)%nat
    ∧ match br_statistics r with
      | Statistics s =>
          (0 < N - K)%nat
          ∧ total_districts_successful s = Z.of_nat (N - K)
          ∧ total_districts_expected s = Z.of_nat N
          ∧ total_districts_failed s = Z.of_nat K
          ∧ who_standard_15_above s
            = count_if (λ v, Qltb 15 v) (omap pm25_of (br_districts r))
          ∧ who_standard_15_below s
            = count_if (λ v, negb (Qltb 15 v)) (omap pm25_of (br_districts r))
          ∧ who_standard_15_above s + who_standard_15_below s
            = Z.of_nat (N - K)
      | NoSuccessfulPredictions expected failed =>
          (N - K)%nat = 0%nat ∧ expected = Z.of_nat N ∧ failed = Z.of_nat K
      end.
Proof.
  intros Hne Hids [completed Hperm] N K.
  set (results := sort_by_id (filter (λ r, is_success r = true) completed)).
  set (errors := sort_by_id (filter (λ r, is_success r ≠ true) completed)).
  assert (length outcomes = N) as HlenO.
  { symmetry. by eapply Forall2_length. }
  assert (results ≡ₚ filter (λ r, is_success r = true) outcomes) as Hres.
  { unfold results, sort_by_id. rewrite sort_by_Permutation. by rewrite Hperm. }
  assert (errors ≡ₚ filter (λ r, is_success r ≠ true) outcomes) as Herr.
  { unfold errors, sort_by_id. rewrite sort_by_Permutation. by rewrite Hperm. }
  assert (results ++ errors ≡ₚ outcomes) as Hall.
  { rewrite Hres, Herr. apply filter_app_complement. }
  assert (length errors = K) as HK.
  { unfold K. by rewrite Herr. }
  assert (length results = (N - K)%nat) as HNK.
  { apply Permutation_length in Hall. rewrite length_app in Hall. lia. }
  assert (Forall (λ p, is_success p = true) results) as Hsucc.
  { apply Forall_forall. intros p Hp. rewrite Hres in Hp.
    by apply list_elem_of_filter in Hp as [? _]. }
  assert (Forall (λ p, is_success p ≠ true) errors) as Hfail.
  { apply Forall_forall. intros p Hp. rewrite Herr in Hp.
    by apply list_elem_of_filter in Hp as [? _]. }
  assert (p_id <$> outcomes = d_id <$> districts) as Hmap.
  { clear -Hids. induction Hids as [|d p ds ps Hd _ IH]; [done|].
    rewrite !fmap_cons. by f_equal. }
  assert (Z.of_nat N ≠ 0) as HN.
  { unfold N. destruct districts; [done|]. simpl. lia. }
  assert (∀ a, py_truediv a (Z.of_nat N) = inr (inject_Z a / inject_Z (Z.of_nat N))%Q)
    as Hdiv.
  { intros a. unfold py_truediv. by destruct (Z.eqb_spec (Z.of_nat N) 0). }
  assert (StronglySorted Z.le (p_id <$> results)) as Hsr
    by apply sort_by_id_sorted.
  assert (StronglySorted Z.le (p_id <$> errors)) as Hse
    by apply sort_by_id_sorted.
  unfold collect. fold results errors. fold N. rewrite HK, HNK, Hdiv. simpl.
  clearbody results errors.
  destruct results as [|p0 results'] eqn:Eres.
  - eexists. split; [reflexivity|]. simpl in *.
    split_and!; try done.
    + rewrite <- Hmap. by rewrite Hall.
    + intros _ i Hi. by apply elem_of_nil in Hi.
  - rewrite <- Eres in *. unfold city_statistics_of. rewrite Hdiv. simpl.
    eexists. split; [reflexivity|]. simpl.
    split_and!; try done.
    + by rewrite <- fmap_app, Hall, Hmap.
    + intros Hnd i Hi Hi'.
      rewrite <- Hmap, <- Hall, fmap_app in Hnd.
      apply NoDup_app in Hnd as (_ & Hdisj & _). by apply (Hdisj i).
    + rewrite omap_pm25_length by done. exact HNK.
    + rewrite Eres in HNK. simpl in HNK. lia.
    + rewrite count_if_split. rewrite omap_pm25_length by done. by rewrite HNK.
Qed.

Lemma batch_partition_witness :
  let districts :=
    [sample_district;
     District 3 "Quan 3" "District 3" (1078 # 100) (10668 # 100) 190000 (49 # 10)
       "urban"] in
  let outcomes :=
    [Failure 7 "Quan 7" "District 7" (1073 # 100) (10672 # 100)
       "503 Server Error" "HTTPError";
     Success 3 "Quan 3" "District 3" (1078 # 100) (10668 # 100) (2512 # 100)
       190000 (49 # 10) "urban" None] in
  ∃ r,
    collect (fun x => x) districts (reverse outcomes) = inr r
    ∧ length (br_districts r) = 1%nat
    ∧ length (br_errors r) = 1%nat.
Proof.
  intros districts outcomes.
  destruct (batch_partition (fun x => x) districts outcomes
              (collect (fun x => x) districts (reverse outcomes)))
    as (r & Hr & Hd & He & _).
  - discriminate.
  - repeat constructor.
  - apply Completed. apply reverse_Permutation.
  - exists r. split_and!; [exact Hr | exact Hd | exact He].
Defined.

(* ===================================================================== *)
(** * Further properties of the bounded cache *)
(* ===================================================================== *)

(** X1.  A hit of [get] returns the stored value and adds one to the
    access counter of the key; the values, the timestamps, the capacity and
    the counters of the other keys stay as they were. *)
Theorem get_hit_counts_access {V : Type} (s : CacheManager.t V) (key : string)
    (v : V) (t : Q) (ttl : Z) (now : Q) :
  CacheManager.cache s !! key = Some v →
  od_lookup key (CacheManager.timestamps s) = Some t →
  (now - t < inject_Z ttl)%Q →
  (CacheManager.get key ttl now s).1 = Some v
  ∧ CacheManager.cache (CacheManager.get key ttl now s).2 = CacheManager.cache s
  ∧ CacheManager.timestamps (CacheManager.get key ttl now s).2
    = CacheManager.timestamps s
  ∧ CacheManager.max_size (CacheManager.get key ttl now s).2
    = CacheManager.max_size s
  ∧ CacheManager.access_count (CacheManager.get key ttl now s).2 !! key
    = Some (S (default 0%nat (CacheManager.access_count s !! key)))
  ∧ ∀ k, k ≠ key →
      CacheManager.access_count (CacheManager.get key ttl now s).2 !! k
      = CacheManager.access_count s !! k.
Proof.
  intros Hc Ht Hlt. apply Qltb_lt in Hlt.
  unfold CacheManager.get. rewrite Hc, Ht. simpl. rewrite Hlt. simpl.
  split_and!; try reflexivity.
  - rewrite lookup_insert_eq. f_equal. lia.
  - intros k Hk. by rewrite lookup_insert_ne.
Qed.

Lemma get_hit_counts_access_witness :
  let s : CacheManager.t nat :=
    CacheManager.Make {["a" := 5%nat]} [("a", 10%Q)] {["a" := 2%nat]} 4 in
  (CacheManager.get "a" 60 30%Q s).1 = Some 5%nat
  ∧ CacheManager.access_count (CacheManager.get "a" 60 30%Q s).2 !! "a"
    = Some 3%nat.
Proof.
  intros s.
  destruct (get_hit_counts_access s "a" 5%nat 10%Q 60 30%Q)
    as (H1 & _ & _ & _ & H5 & _); [reflexivity..|].
  split; [exact H1|exact H5].
Defined.

(** X2.  Eviction spares an entry that has been read while one that has
    never been read is stored: when [set] of another key finds the cache
    full, an entry with a positive access counter is kept, with its value,
    as long as some entry has the counter 0. *)
Theorem set_keeps_read_entries {V : Type} (s : CacheManager.t V)
    (key : string) (value : V) (now : Q) (k k0 : string) (v : V) :
  CacheManager.wf s →
  CacheManager.max_size s <= CacheManager.len s →
  CacheManager.cache s !! k = Some v →
  (0 < default 0%nat (CacheManager.access_count s !! k))%nat →
  is_Some (CacheManager.cache s !! k0) →
  default 0%nat (CacheManager.access_count s !! k0) = 0%nat →
  k ≠ key →
  ∃ s', CacheManager.set key value now s = inr s'
        ∧ CacheManager.cache s' !! k = Some v.
Proof.
  intros Hwf Hfull Hk Hcount Hk0 Hcount0 Hne.
  assert (CacheManager.cache s ≠ ∅) as Hnonempty.
  { intros E. by rewrite E, lookup_empty in Hk. }
  destruct (evict_lru_spec s Hwf Hnonempty) as (lru & Hlru & Hleast & Hev).
  assert (lru ≠ k) as Hlk.
  { intros ->. specialize (Hleast k0 Hk0).
    unfold CacheManager.lru_le, CacheManager.lru_key in Hleast. simpl in Hleast.
    lia. }
  eexists. split.
  - unfold CacheManager.set.
    destruct (Z.leb_spec (CacheManager.max_size s) (CacheManager.len s)); [|lia].
    rewrite Hev. reflexivity.
  - simpl. rewrite lookup_insert_ne by done. by rewrite lookup_delete_ne.
Qed.

Lemma set_keeps_read_entries_witness :
  let s : CacheManager.t nat :=
    (CacheManager.get "a" 60 1%Q
       (CacheManager.Make (<["b" := 2%nat]> (<["a" := 1%nat]> ∅))
          (od_insert "b" 0%Q (od_insert "a" 0%Q []))
          (<["b" := 0%nat]> (<["a" := 0%nat]> ∅)) 2)).2 in
  ∃ s', CacheManager.set "c" 3%nat 2%Q s = inr s'
        ∧ CacheManager.cache s' !! "a" = Some 1%nat.
Proof.
  intros s.
  apply (set_keeps_read_entries s "c" 3%nat 2%Q "a" "b" 1%nat).
  - apply get_wf.
    exact (wf_insert _ "b" 2%nat 0%Q 0%nat
             (wf_insert (CacheManager.init 2) "a" 1%nat 0%Q 0%nat (wf_init 2))).
  - vm_compute. discriminate.
  - reflexivity.
  - vm_compute. lia.
  - by eexists.
  - reflexivity.
  - discriminate.
Defined.

(** X3.  [set] on a full cache evicts even when the key is already
    stored: the new value replaces the old one, and unless the key itself
    was the entry chosen for eviction, another entry is lost and the cache
    ends one entry smaller. *)
Theorem set_present_key_when_full {V : Type} (s : CacheManager.t V)
    (key : string) (value : V) (now : Q) :
  CacheManager.wf s →
  is_Some (CacheManager.cache s !! key) →
  CacheManager.max_size s <= CacheManager.len s →
  ∃ s' lru,
    CacheManager.set key value now s = inr s'
    ∧ is_Some (CacheManager.cache s !! lru)
    ∧ CacheManager.cache s' !! key = Some value
    ∧ (lru = key → CacheManager.len s' = CacheManager.len s)
    ∧ (lru ≠ key →
       CacheManager.cache s' !! lru = None
       ∧ CacheManager.len s' = CacheManager.len s - 1).
Proof.
  intros Hwf Hkey Hfull.
  assert (CacheManager.cache s ≠ ∅) as Hnonempty.
  { intros E. rewrite E, lookup_empty in Hkey. by destruct Hkey. }
  destruct (evict_lru_spec s Hwf Hnonempty) as (lru & Hlru & _ & Hev).
  pose proof (remove_len s lru Hlru) as Hrem.
  eexists _, lru. split_and!.
  - unfold CacheManager.set.
    destruct (Z.leb_spec (CacheManager.max_size s) (CacheManager.len s)); [|lia].
    rewrite Hev. reflexivity.
  - exact Hlru.
  - simpl. apply lookup_insert_eq.
  - intros ->. unfold CacheManager.len in *. simpl in *.
    rewrite map_size_insert_None by apply lookup_delete_eq. lia.
  - intros Hne. split.
    + simpl. rewrite lookup_insert_ne by done. apply lookup_delete_eq.
    + unfold CacheManager.len in *. simpl in *.
      rewrite map_size_insert_Some; [lia|].
      by rewrite lookup_delete_ne.
Qed.

Lemma set_present_key_when_full_witness :
  let s : CacheManager.t nat :=
    CacheManager.Make (<["b" := 2%nat]> (<["a" := 1%nat]> ∅))
      (od_insert "b" 1%Q (od_insert "a" 0%Q []))
      (<["b" := 0%nat]> (<["a" := 0%nat]> ∅)) 2 in
  ∃ s' lru, CacheManager.set "b" 7%nat 2%Q s = inr s'
            ∧ is_Some (CacheManager.cache s !! lru)
            ∧ CacheManager.cache s' !! "b" = Some 7%nat.
Proof.
  intros s.
  destruct (set_present_key_when_full s "b" 7%nat 2%Q)
    as (s' & lru & H1 & H2 & H3 & _).
  - exact (wf_insert _ "b" 2%nat 1%Q 0%nat
             (wf_insert (CacheManager.init 2) "a" 1%nat 0%Q 0%nat (wf_init 2))).
  - by eexists.
  - vm_compute. discriminate.
  - by exists s', lru.
Defined.

(* ===================================================================== *)
(** * Properties of the result cache *)
(* ===================================================================== *)

Lemma pretty_N_char_no_underscore (x : N) : Ascii.eqb (pretty_N_char x) "_"%char = false.
Proof. unfold pretty_N_char. by repeat case_match. Qed.

Lemma pretty_N_go_no_underscore (x : N) (s : string) :
  no_underscore s = true → no_underscore (pretty_N_go x s) = true.
Proof.
  revert s. induction (N.lt_wf_0 x) as [x _ IH]; intros s Hs.
  destruct (decide (x = 0)%N) as [->|Hx].
  - by rewrite pretty_N_go_0.
  - rewrite pretty_N_go_step by lia. apply IH.
    + apply N.div_lt; lia.
    + simpl. by rewrite pretty_N_char_no_underscore.
Qed.

Lemma pretty_Z_no_underscore (z : Z) : no_underscore (pretty z) = true.
Proof.
  assert (∀ p : positive, no_underscore (pretty p) = true) as Hpos.
  { intros p. unfold pretty, pretty_positive, pretty, pretty_N.
    destruct (decide _); [done|]. by apply pretty_N_go_no_underscore. }
  destruct z as [|p|p]; [done|apply Hpos|].
  unfold pretty, pretty_Z. simpl. apply Hpos.
Qed.

(** Two texts without underscore, each followed by an underscore and a
    rest, are equal only if the texts and the rests are. *)
Lemma append_underscore_inj (a a' r r' : string) :
  no_underscore a = true → no_underscore a' = true →
  a +:+ String "_" r = a' +:+ String "_" r' → a = a' ∧ r = r'.
Proof.
  revert a'. induction a as [|c a IH]; intros [|c' a'] Ha Ha' E; simpl in *.
  - by injection E as ->.
  - injection E as <- _. by rewrite Ascii.eqb_refl in Ha'.
  - injection E as -> _. by rewrite Ascii.eqb_refl in Ha.
  - injection E as -> E.
    apply andb_true_iff in Ha as [_ Ha]. apply andb_true_iff in Ha' as [_ Ha'].
    destruct (IH a' Ha Ha' E) as [-> ->]. done.
Qed.

Lemma prediction_key_inj_lemma (y m d h mi y' m' d' h' mi' : Z) :
  PredictionCache._generate_key y m d h mi
  = PredictionCache._generate_key y' m' d' h' mi' →
  y = y' ∧ m = m' ∧ d = d' ∧ h = h' ∧ mi = mi'.
Proof.
  unfold PredictionCache._generate_key. intros E. simpl in E.
  injection E as E.
  apply append_underscore_inj in E as [Ey E]; try apply pretty_Z_no_underscore.
  apply append_underscore_inj in E as [Em E]; try apply pretty_Z_no_underscore.
  apply append_underscore_inj in E as [Ed E]; try apply pretty_Z_no_underscore.
  apply append_underscore_inj in E as [Eh E]; try apply pretty_Z_no_underscore.
  apply (inj pretty) in Ey, Em, Ed, Eh, E. done.
Qed.

(** X4.  The key of the result cache determines the request time: two
    requests get the same key only if year, month, day, hour and minute
    all agree. *)
Theorem prediction_key_inj (y m d h mi y' m' d' h' mi' : Z) :
  PredictionCache._generate_key y m d h mi
  = PredictionCache._generate_key y' m' d' h' mi' →
  y = y' ∧ m = m' ∧ d = d' ∧ h = h' ∧ mi = mi'.
Proof. apply prediction_key_inj_lemma. Qed.

Lemma prediction_key_inj_witness :
  PredictionCache._generate_key 2025 1 12 3 0 = "pred_2025_1_12_3_0"
  ∧ (2025 = 2025 ∧ 1 = 1 ∧ 12 = 12 ∧ 3 = 3 ∧ 0 = 0).
Proof.
  split; [reflexivity|].
  apply (prediction_key_inj 2025 1 12 3 0 2025 1 12 3 0). reflexivity.
Defined.

(** X5.  An entry of the result cache is returned while it is younger than
    the time to live of the cache, and the lookup leaves the cache as it
    is; from that age on the lookup misses and deletes the entry, value and
    timestamp, keeping every other entry. *)
Theorem prediction_cache_ttl {V : Type} (s : PredictionCache.t V)
    (y m d h mi : Z) (value : V) (T now : Q) :
  let key := PredictionCache._generate_key y m d h mi in
  let s1 := PredictionCache.set y m d h mi value T s in
  let r := PredictionCache.get y m d h mi now s1 in
  ((now - T < inject_Z (PredictionCache.ttl s))%Q →
   r = (inr (Some value), s1))
  ∧ ((inject_Z (PredictionCache.ttl s) <= now - T)%Q →
     r.1 = inr None
     ∧ PredictionCache.cache r.2 !! key = None
     ∧ PredictionCache.timestamps r.2 !! key = None
     ∧ ∀ k, k ≠ key →
         PredictionCache.cache r.2 !! k = PredictionCache.cache s !! k
         ∧ PredictionCache.timestamps r.2 !! k
           = PredictionCache.timestamps s !! k).
Proof.
  intros key s1 r. subst r s1. unfold PredictionCache.get, PredictionCache.set.
  fold key. simpl. rewrite !lookup_insert_eq. simpl. split.
  - intros Hlt. apply Qltb_lt in Hlt. by rewrite Hlt.
  - intros Hge. apply Qltb_ge in Hge. rewrite Hge. simpl.
    split_and!; try done; try apply lookup_delete_eq.
    intros k Hk. by rewrite !lookup_delete_ne, !lookup_insert_ne.
Qed.

(** X6.  [set] stores under its own key only and evicts nothing: the
    lookup of any other request time gives what it gave before. *)
Theorem prediction_cache_set_other {V : Type} (s : PredictionCache.t V)
    (y m d h mi y' m' d' h' mi' : Z) (value : V) (T now : Q) :
  (y, m, d, h, mi) ≠ (y', m', d', h', mi') →
  (PredictionCache.get y' m' d' h' mi' now
     (PredictionCache.set y m d h mi value T s)).1
  = (PredictionCache.get y' m' d' h' mi' now s).1.
Proof.
  intros Hne.
  assert (PredictionCache._generate_key y m d h mi
          ≠ PredictionCache._generate_key y' m' d' h' mi') as Hk.
  { intros E. apply prediction_key_inj_lemma in E as (-> & -> & -> & -> & ->).
    by apply Hne. }
  unfold PredictionCache.get, PredictionCache.set. simpl.
  rewrite !lookup_insert_ne by done.
  destruct (PredictionCache.cache s !! _); [|done].
  destruct (Qltb _ _); [done|].
  by destruct (PredictionCache.timestamps s !! _).
Qed.

Lemma prediction_cache_set_other_witness :
  let s : PredictionCache.t nat :=
    PredictionCache.set 2025 11 25 8 0 1%nat 0%Q (PredictionCache.init 1800) in
  (PredictionCache.get 2025 11 25 8 0 10%Q
     (PredictionCache.set 2025 11 25 9 0 2%nat 5%Q s)).1
  = inr (Some 1%nat).
Proof.
  intros s.
  rewrite (prediction_cache_set_other s 2025 11 25 9 0 2025 11 25 8 0 2%nat 5%Q 10%Q).
  - reflexivity.
  - discriminate.
Defined.

Lemma prediction_cache_step_wf {V : Type} (s : PredictionCache.t V)
    (o : PredictionCache.op V) :
  PredictionCache.wf s →
  ∃ s', PredictionCache.step s o = inr s' ∧ PredictionCache.wf s'.
Proof.
  unfold PredictionCache.wf. intros Hwf.
  destruct o as [y m d h mi now|y m d h mi value now|]; simpl.
  - unfold PredictionCache.get.
    set (key := PredictionCache._generate_key y m d h mi).
    destruct (PredictionCache.cache s !! key) as [v|] eqn:Hc; simpl; [|by eexists].
    destruct (Qltb _ _); simpl; [by eexists|].
    destruct (PredictionCache.timestamps s !! key) as [t|] eqn:Ht; simpl.
    + eexists. split; [reflexivity|]. simpl. by rewrite !dom_delete_L, Hwf.
    + exfalso. apply (not_elem_of_dom (PredictionCache.timestamps s) key) in Ht.
      apply Ht. rewrite Hwf. apply elem_of_dom. by eexists.
  - eexists. split; [reflexivity|]. simpl. by rewrite !dom_insert_L, Hwf.
  - eexists. split; [reflexivity|]. simpl. by rewrite !dom_empty_L.
Qed.

(** X7.  Used through its interface, the result cache never raises: from
    a new cache, every sequence of [get], [set] and [clear] runs to its
    end (the [del] of an expired entry always finds its timestamp), and the
    two dictionaries keep the same keys. *)
Theorem prediction_cache_never_raises {V : Type} (ttl : Z)
    (ops : list (PredictionCache.op V)) :
  ∃ s, PredictionCache.run (PredictionCache.init ttl) ops = inr s
       ∧ dom (PredictionCache.timestamps s) = dom (PredictionCache.cache s).
Proof.
  assert (∀ s : PredictionCache.t V, PredictionCache.wf s →
            ∃ s', PredictionCache.run s ops = inr s' ∧ PredictionCache.wf s') as H.
  { induction ops as [|o ops IH]; intros s Hwf; [by exists s|].
    destruct (prediction_cache_step_wf s o Hwf) as (s1 & Hs1 & Hwf1).
    simpl. rewrite Hs1. simpl. by apply IH. }
  apply H. unfold PredictionCache.wf. simpl. by rewrite !dom_empty_L.
Qed.

(* ===================================================================== *)
(** * Further properties of the time validator *)
(* ===================================================================== *)

(** X8.  The wait that a TIME_TOO_RECENT rejection suggests is the least
    whole number of minutes that suffices: it lies between 1 and 30, the
    same target is valid once [wait_minutes] minutes have passed, and it
    is still too recent one minute earlier. *)
Theorem wait_minutes_least (now target : datetime) :
  validate_at now target = Rejected TIME_TOO_RECENT →
  1 <= wait_minutes now target <= 30
  ∧ outcome_of (validate_at (now + td_minutes (wait_minutes now target)) target)
    = OValid
  ∧ outcome_of (validate_at (now + td_minutes (wait_minutes now target - 1)) target)
    = ORecent.
Proof.
  intros Hrej.
  pose proof (validate_at_cases now target) as Hc. rewrite Hrej in Hc. simpl in Hc.
  unfold wait_minutes, whole_minutes.
  set (x := now - target) in *.
  assert (0 <= x < td_minutes 30) as Hx by (unfold x; lia).
  assert (td_minutes 1 = 60000000) as E1 by reflexivity.
  assert (td_minutes 30 = 1800000000) as E30 by reflexivity.
  assert (td_days 90 = 7776000000000) as E90 by reflexivity.
  rewrite E1, E30 in *.
  rewrite Z.quot_div_nonneg by lia.
  pose proof (Z.div_mod x 60000000 ltac:(lia)) as Hdm.
  pose proof (Z.mod_pos_bound x 60000000 ltac:(lia)) as Hmod.
  set (q := x / 60000000) in *.
  assert (0 <= q <= 29) as Hq by (subst q; split;
    [apply Z.div_pos; lia|apply Z.lt_succ_r, Z.div_lt_upper_bound; lia]).
  assert (∀ n, td_minutes n = n * 60000000) as Etd
    by (intros n; unfold td_minutes, us_per_second; lia).
  split; [lia|]. split.
  - pose proof (validate_at_cases (now + td_minutes (30 - q)) target) as H.
    destruct (outcome_of (validate_at (now + td_minutes (30 - q)) target));
      rewrite ?Etd, ?E30, ?E90 in H; [lia|lia|lia|reflexivity].
  - pose proof (validate_at_cases (now + td_minutes (30 - q - 1)) target) as H.
    destruct (outcome_of (validate_at (now + td_minutes (30 - q - 1)) target));
      rewrite ?Etd, ?E30, ?E90 in H; [lia|reflexivity|lia|lia].
Qed.

Lemma wait_minutes_least_witness :
  wait_minutes 1764032400000000 (1764032400000000 - td_minutes 10) = 20
  ∧ outcome_of (validate_at (1764032400000000 + td_minutes 20)
                  (1764032400000000 - td_minutes 10)) = OValid.
Proof.
  destruct (wait_minutes_least 1764032400000000 (1764032400000000 - td_minutes 10))
    as (_ & H & _); [reflexivity|].
  split; [reflexivity|exact H].
Defined.

(* ===================================================================== *)
(** * Further properties of the feature engine *)
(* ===================================================================== *)

Lemma frame_of_snapshots_pm2_5 (a b c : snapshot) :
  nrows (frame_of_snapshots [a; b; c]) = 3%nat
  ∧ getitem (frame_of_snapshots [a; b; c]) "pm2_5"
    = inr [a_pm2_5 (sn_air a); a_pm2_5 (sn_air b); a_pm2_5 (sn_air c)].
Proof. split; reflexivity. Qed.

Lemma sort_index_any_order (s2 s1 s0 : snapshot) (rows : list snapshot) :
  sn_datetime s2 < sn_datetime s1 → sn_datetime s1 < sn_datetime s0 →
  rows ≡ₚ [s2; s1; s0] →
  sort_index (frame_of_snapshots rows) = frame_of_snapshots [s2; s1; s0].
Proof.
  intros H21 H10 Hperm.
  pose proof (Permutation_length Hperm) as Hlen.
  destruct rows as [|a [|b [|c [|? ?]]]]; try discriminate Hlen.
  assert (NoDup [a; b; c]) as Hnd.
  { rewrite Hperm.
    repeat (apply NoDup_cons_2;
            [rewrite ?elem_of_cons, ?elem_of_nil; intros H;
             repeat (destruct H as [H|H]); try done; subst; lia|]).
    apply NoDup_nil_2. }
  assert (a ∈ [s2; s1; s0]) as Ha by (rewrite <- Hperm; apply list_elem_of_here).
  assert (b ∈ [s2; s1; s0]) as Hb
    by (rewrite <- Hperm; apply list_elem_of_further, list_elem_of_here).
  assert (c ∈ [s2; s1; s0]) as Hc
    by (rewrite <- Hperm; do 2 apply list_elem_of_further; apply list_elem_of_here).
  apply NoDup_cons in Hnd as [Hab Hnd]. apply NoDup_cons in Hnd as [Hbc _].
  apply not_elem_of_cons in Hab as [Hab Hac].
  apply not_elem_of_cons in Hac as [Hac _].
  apply not_elem_of_cons in Hbc as [Hbc _].
  set_unfold in Ha. set_unfold in Hb. set_unfold in Hc.
  unfold sort_index, frame_of_snapshots, argsort.
  destruct Ha as [Ha|[Ha|[Ha|[]]]]; destruct Hb as [Hb|[Hb|[Hb|[]]]];
    destruct Hc as [Hc|[Hc|[Hc|[]]]];
    subst a b c; try done;
    simpl;
    repeat (match goal with
            | |- context [Z.leb ?x ?y] =>
                destruct (Z.leb_spec x y); try lia; simpl
            end);
    reflexivity.
Qed.

Section feature_engine_more.
Variable np_pi : Q.
Variables np_sin np_cos np_sqrt : Q → Q.

Local Abbreviation create_features :=
  (create_features_from_3hours np_pi np_sin np_cos np_sqrt).

(** X9.  The order in which the three snapshots are listed does not
    matter: for snapshots at three different instants, the call on a frame
    that lists them in any order returns what it returns on the frame in
    time order, the same reference and the same row. *)
Theorem create_features_any_order (h : store) (df_3hours : ref)
    (rows : list snapshot) (s2 s1 s0 : snapshot) :
  h !! df_3hours = Some (frame_of_snapshots rows) →
  rows ≡ₚ [s2; s1; s0] →
  sn_datetime s2 < sn_datetime s1 → sn_datetime s1 < sn_datetime s0 →
  let h0 := <[df_3hours := frame_of_snapshots [s2; s1; s0]]> h in
  (create_features df_3hours h).1 = (create_features df_3hours h0).1
  ∧ ∀ out, (create_features df_3hours h).1 = inr out →
      (create_features df_3hours h).2 !! out
      = (create_features df_3hours h0).2 !! out.
Proof.
  intros Hr Hperm H21 H10 h0.
  assert (h0 !! df_3hours = Some (frame_of_snapshots [s2; s1; s0])) as Hr0.
  { apply list_lookup_insert_eq. by eapply lookup_lt_Some. }
  assert (length h0 = length h) as Hlen by apply length_insert.
  rewrite (create_features_run _ _ _ _ h df_3hours _ Hr).
  rewrite (create_features_run _ _ _ _ h0 df_3hours _ Hr0).
  unfold features_outcome. cbn [fst snd].
  assert (features_trace np_pi np_sin np_cos np_sqrt (frame_of_snapshots rows)
          = features_trace np_pi np_sin np_cos np_sqrt
              (frame_of_snapshots [s2; s1; s0])) as ->.
  { pose proof (sort_index_any_order s2 s1 s0 rows H21 H10 Hperm) as Hsort.
    pose proof (sort_index_ordered s2 s1 s0 ltac:(lia) ltac:(lia)) as Hsort0.
    pose proof (Permutation_length Hperm) as Hl.
    destruct rows as [|a [|b [|c [|? ?]]]]; try discriminate Hl.
    unfold features_trace.
    destruct (frame_of_snapshots_pm2_5 a b c) as [-> ->].
    destruct (frame_of_snapshots_pm2_5 s2 s1 s0) as [-> ->].
    rewrite Hsort, Hsort0. reflexivity. }
  rewrite Hlen. split; [reflexivity|].
  intros out Hout.
  destruct (features_trace _ _ _ _ _).1 as [e|k]; [discriminate|].
  injection Hout as <-.
  rewrite lookup_app_plus. rewrite <- Hlen. by rewrite lookup_app_plus.
Qed.

(** X10.  A frame of fewer than three rows is refused with the
    [ValueError] whose message tells the number of rows, and a frame
    without the column pm2_5 with [KeyError]; in both cases no frame has
    been created when the exception is raised. *)
Theorem create_features_refuses (h : store) (df_3hours : ref) (d0 : DataFrame) :
  h !! df_3hours = Some d0 →
  ((nrows d0 < 3)%nat →
   create_features df_3hours h
   = (raise "ValueError" ("Need 3 hours of data, got " +:+ pretty (nrows d0)), h))
  ∧ ((3 <= nrows d0)%nat → od_lookup "pm2_5" (df_columns d0) = None →
     create_features df_3hours h = (raise "KeyError" "pm2_5", h)).
Proof.
  intros Hr. rewrite (create_features_run _ _ _ _ h df_3hours d0 Hr).
  unfold features_outcome, features_trace. split.
  - intros Hn. apply Nat.ltb_lt in Hn. rewrite Hn. simpl. by rewrite app_nil_r.
  - intros Hn Hcol. apply Nat.ltb_ge in Hn. rewrite Hn.
    unfold getitem. rewrite Hcol. simpl. by rewrite app_nil_r.
Qed.

End feature_engine_more.

Lemma create_features_any_order_witness :
  let f := create_features_from_3hours 3 (fun _ => 0%Q) (fun _ => 1%Q) (fun x => x) in
  let a := sample_snapshot 1764025200000000 10 in
  let b := sample_snapshot 1764028800000000 20 in
  let c := sample_snapshot 1764032400000000 30 in
  (f 0%nat [frame_of_snapshots [c; a; b]]).1
  = (f 0%nat [frame_of_snapshots [a; b; c]]).1.
Proof.
  intros f a b c.
  refine (proj1 (create_features_any_order 3 (fun _ => 0%Q) (fun _ => 1%Q)
                   (fun x => x) [frame_of_snapshots [c; a; b]] 0%nat
                   [c; a; b] a b c _ _ _ _)).
  - reflexivity.
  - apply Permutation_cons_append.
  - vm_compute. reflexivity.
  - vm_compute. reflexivity.
Defined.

Lemma create_features_refuses_witness :
  let f := create_features_from_3hours 3 (fun _ => 0%Q) (fun _ => 1%Q) (fun x => x) in
  let two := frame_of_snapshots [sample_snapshot 0 10; sample_snapshot 1 20] in
  f 0%nat [two] = (raise "ValueError" "Need 3 hours of data, got 2", [two]).
Proof.
  intros f two.
  refine (proj1 (create_features_refuses 3 (fun _ => 0%Q) (fun _ => 1%Q)
                   (fun x => x) [two] 0%nat two _) _).
  - reflexivity.
  - vm_compute. lia.
Defined.

(** ** Rows that [dropna] removes *)

Lemma filter_none {A} (P : A → Prop) `{∀ x, Decision (P x)} (l : list A) :
  (∀ x, x ∈ l → ¬ P x) → filter P l = [].
Proof.
  induction l as [|x l IH]; intros Hl; [reflexivity|].
  rewrite filter_cons. destruct (decide (P x)) as [Hx|_].
  - exfalso. apply (Hl x); [apply list_elem_of_here|exact Hx].
  - apply IH. intros y Hy. apply Hl. by apply list_elem_of_further.
Qed.

Lemma keep_rows_none {A} (keep : nat → bool) (l : list A) :
  (∀ i, (i < length l)%nat → keep i = false) → keep_rows keep l = [].
Proof.
  intros Hkeep. unfold keep_rows. rewrite filter_none; [reflexivity|].
  intros [i x] Hin. simpl. apply elem_of_zip_l in Hin.
  apply elem_of_seq in Hin. rewrite Hkeep by lia. discriminate.
Qed.

Lemma od_lookup_elem {V} (k : string) (v : V) (d : odict V) :
  od_lookup k d = Some v → (k, v) ∈ d.
Proof.
  induction d as [|[k' v'] d IH]; simpl; [discriminate|].
  destruct (String.eqb_spec k' k) as [->|Hne].
  - intros [= ->]. apply list_elem_of_here.
  - intros H. apply list_elem_of_further, IH, H.
Qed.

(** A row with a NaN in some column is not complete. *)
Lemma row_incomplete (ft : DataFrame) (i : nat) (name : string) (col : Series) :
  od_lookup name (df_columns ft) = Some col →
  (∀ v, col !! i ≠ Some (Some v)) →
  row_complete ft i = false.
Proof.
  intros Hcol Hnan. apply od_lookup_elem in Hcol.
  unfold row_complete. apply not_true_iff_false. intros Hall.
  rewrite forallb_forall in Hall.
  specialize (Hall (name, col) ltac:(by apply list_elem_of_In)). simpl in Hall.
  destruct (col !! i) as [[v|]|] eqn:E; try discriminate. by apply (Hnan v).
Qed.

Lemma dropna_all_incomplete (ft : DataFrame) :
  (∀ i, (i < nrows ft)%nat → row_complete ft i = false) →
  df_empty (dropna ft) = true.
Proof.
  intros Hrows. unfold df_empty, dropna, nrows. simpl.
  rewrite keep_rows_none by exact Hrows. reflexivity.
Qed.

Section feature_engine_nan.
Variable np_pi : Q.
Variables np_sin np_cos np_sqrt : Q → Q.

Lemma eval_assignments_index (tbl : list assignment) (d ft : DataFrame) :
  df_index (eval_assignments tbl d ft).2 = df_index ft.
Proof.
  revert ft. induction tbl as [|[name e] tbl IH]; intros ft; simpl; [done|].
  destruct (e d); [done|]. by rewrite IH.
Qed.

Lemma eval_assignments_ok (tbl : list assignment) (d ft : DataFrame) :
  Forall (λ a, ∃ s, a.2 d = inr s) tbl → (eval_assignments tbl d ft).1 = None.
Proof.
  intros Hok. revert ft. induction Hok as [|[name e] tbl [s Hs] _ IH];
    intros ft; simpl; [done|].
  simpl in Hs. rewrite Hs. apply IH.
Qed.

Lemma eval_assignments_lookup_notin (tbl : list assignment) (d ft : DataFrame)
    (k : string) :
  k ∉ tbl.*1 →
  od_lookup k (df_columns (eval_assignments tbl d ft).2)
  = od_lookup k (df_columns ft).
Proof.
  revert ft. induction tbl as [|[name e] tbl IH]; intros ft Hk; simpl; [done|].
  rewrite fmap_cons in Hk. apply not_elem_of_cons in Hk as [Hne Hk].
  destruct (e d) as [?|s]; [done|]. rewrite IH by done. simpl.
  by apply od_lookup_insert_ne.
Qed.

Lemma eval_assignments_lookup_at (pre post : list assignment) (k : string)
    (e : DataFrame → result Series) (d ft : DataFrame) (s : Series) :
  Forall (λ a, ∃ s, a.2 d = inr s) pre → e d = inr s → k ∉ post.*1 →
  od_lookup k (df_columns (eval_assignments (pre ++ (k, e) :: post) d ft).2)
  = Some s.
Proof.
  intros Hpre He Hk. revert ft.
  induction Hpre as [|[name e'] pre [s' Hs'] _ IH]; intros ft; simpl.
  - rewrite He. rewrite eval_assignments_lookup_notin by done. simpl.
    apply od_lookup_insert_eq.
  - simpl in Hs'. rewrite Hs'. apply IH.
Qed.

Lemma window_assignments_ok (rows : list snapshot) :
  Forall (λ a : assignment, ∃ s, a.2 (frame_of_snapshots rows) = inr s)
    (window_assignments np_sqrt).
Proof.
  unfold window_assignments. simpl.
  repeat (apply Forall_cons; split; [eexists; reflexivity|]). apply Forall_nil_2.
Qed.

Lemma time_assignments_ok (rows : list snapshot) (idx : list datetime) :
  Forall (λ a : assignment, ∃ s, a.2 (frame_of_snapshots rows) = inr s)
    (time_assignments np_pi np_sin np_cos idx).
Proof.
  unfold time_assignments.
  repeat (apply Forall_cons; split; [eexists; reflexivity|]). apply Forall_nil_2.
Qed.

Lemma time_assignments_names (idx : list datetime) :
  (time_assignments np_pi np_sin np_cos idx).*1
  = ["is_rainy_season"; "hour_sin"; "hour_cos"; "month_sin"; "month_cos";
     "day_of_week_sin"; "day_of_week_cos"; "temp_humidity"; "wind_U"; "wind_V"].
Proof. reflexivity. Qed.

(** The PM2.5 columns of the frame that the assignments build from three
    snapshots. *)
Lemma pm2_5_columns (s2 s1 s0 : snapshot) :
  let d := frame_of_snapshots [s2; s1; s0] in
  let pm := [a_pm2_5 (sn_air s2); a_pm2_5 (sn_air s1); a_pm2_5 (sn_air s0)] in
  let r1 := eval_assignments (window_assignments np_sqrt) d (Frame (df_index d) []) in
  let r2 := eval_assignments
              (time_assignments np_pi np_sin np_cos (df_index r1.2)) d r1.2 in
  r1.1 = None ∧ r2.1 = None
  ∧ df_index r2.2 = [sn_datetime s2; sn_datetime s1; sn_datetime s0]
  ∧ od_lookup "pm2_5_lag_1" (df_columns r2.2) = Some (shift 1 pm)
  ∧ od_lookup "pm2_5_lag_2" (df_columns r2.2) = Some (shift 2 pm)
  ∧ od_lookup "pm2_5_diff_1hr" (df_columns r2.2) = Some (diff 1 pm).
Proof.
  intros d pm r1 r2.
  assert (∀ k, k ∉ (time_assignments np_pi np_sin np_cos (df_index r1.2)).*1 →
               od_lookup k (df_columns r2.2) = od_lookup k (df_columns r1.2)) as Hkeep.
  { intros k Hk. by apply eval_assignments_lookup_notin. }
  assert (∀ k : string, k ∈ ["pm2_5_lag_1"; "pm2_5_lag_2"; "pm2_5_diff_1hr"] →
            k ∉ (time_assignments np_pi np_sin np_cos (df_index r1.2)).*1) as Hnames.
  { intros k Hk. rewrite time_assignments_names. intros Hin.
    repeat (apply elem_of_cons in Hk as [->|Hk];
            [repeat (apply elem_of_cons in Hin as [Hin|Hin]; [discriminate|]);
             by apply elem_of_nil in Hin|]).
    by apply elem_of_nil in Hk. }
  split_and!.
  - apply eval_assignments_ok, window_assignments_ok.
  - apply eval_assignments_ok, time_assignments_ok.
  - unfold r2, r1. by rewrite !eval_assignments_index.
  - rewrite Hkeep by (apply Hnames; set_solver).
    apply (eval_assignments_lookup_at [] (List.tl (window_assignments np_sqrt))).
    + constructor.
    + reflexivity.
    + intros Hin. simpl in Hin.
      repeat (apply elem_of_cons in Hin as [Hin|Hin]; [discriminate|]).
      by apply elem_of_nil in Hin.
  - rewrite Hkeep by (apply Hnames; set_solver).
    apply (eval_assignments_lookup_at (take 1 (window_assignments np_sqrt))
             (drop 2 (window_assignments np_sqrt))).
    + apply Forall_take, window_assignments_ok.
    + reflexivity.
    + intros Hin. simpl in Hin.
      repeat (apply elem_of_cons in Hin as [Hin|Hin]; [discriminate|]).
      by apply elem_of_nil in Hin.
  - rewrite Hkeep by (apply Hnames; set_solver).
    apply (eval_assignments_lookup_at (take 14 (window_assignments np_sqrt))
             (drop 15 (window_assignments np_sqrt))).
    + apply Forall_take, window_assignments_ok.
    + reflexivity.
    + intros Hin. simpl in Hin.
      repeat (apply elem_of_cons in Hin as [Hin|Hin]; [discriminate|]).
      by apply elem_of_nil in Hin.
Qed.

(** X11.  The PM2.5 reading of each of the three hours is needed: when
    it is missing (NaN) in any of three snapshots in time order, no row
    survives [dropna] and the call raises [ValueError], whatever the other
    measurements are. *)
Theorem features_need_pm2_5 (h : store) (df_3hours : ref) (s2 s1 s0 : snapshot) :
  h !! df_3hours = Some (frame_of_snapshots [s2; s1; s0]) →
  sn_datetime s2 <= sn_datetime s1 → sn_datetime s1 <= sn_datetime s0 →
  a_pm2_5 (sn_air s2) = None ∨ a_pm2_5 (sn_air s1) = None
  ∨ a_pm2_5 (sn_air s0) = None →
  (create_features_from_3hours np_pi np_sin np_cos np_sqrt df_3hours h).1
  = raise "ValueError" "Insufficient data to create features".
Proof.
  intros Hr H21 H10 Hnan.
  rewrite (create_features_run _ _ _ _ h df_3hours _ Hr).
  unfold features_outcome, features_trace. cbn [fst].
  destruct (frame_of_snapshots_pm2_5 s2 s1 s0) as [-> ->].
  rewrite (sort_index_ordered s2 s1 s0 H21 H10).
  change (3 <? 3)%nat with false. cbv iota zeta.
  destruct (pm2_5_columns s2 s1 s0) as (-> & -> & Hidx & L1 & L2 & L3).
  rewrite dropna_all_incomplete; [reflexivity|].
  unfold nrows. rewrite Hidx. intros i Hi. simpl in Hi.
  assert (i = 0 ∨ i = 1 ∨ i = 2)%nat as [->|[->| ->]] by lia.
  - apply (row_incomplete _ _ _ _ L1). intros v. discriminate.
  - apply (row_incomplete _ _ _ _ L2). intros v. discriminate.
  - destruct Hnan as [E|[E|E]].
    + apply (row_incomplete _ _ _ _ L2). rewrite E. intros v. discriminate.
    + apply (row_incomplete _ _ _ _ L1). rewrite E. intros v. discriminate.
    + apply (row_incomplete _ _ _ _ L3). rewrite E. intros v.
      destruct (a_pm2_5 (sn_air s1)); discriminate.
Qed.

End feature_engine_nan.

Lemma features_need_pm2_5_witness :
  let f := create_features_from_3hours 3 (fun _ => 0%Q) (fun _ => 1%Q) (fun x => x) in
  let gap := Snapshot 1764028800000000
               (AirData (Some 300%Q) (Some 0%Q) (Some 12%Q) (Some 40%Q)
                        (Some 5%Q) None (Some 35%Q) (Some 2%Q))
               (sn_weather (sample_snapshot 0 0)) in
  (f 0%nat [frame_of_snapshots
              [sample_snapshot 1764025200000000 10; gap;
               sample_snapshot 1764032400000000 30]]).1
  = raise "ValueError" "Insufficient data to create features".
Proof.
  intros f gap.
  apply (features_need_pm2_5 3 (fun _ => 0%Q) (fun _ => 1%Q) (fun x => x)
           _ 0%nat (sample_snapshot 1764025200000000 10) gap
           (sample_snapshot 1764032400000000 30)).
  - reflexivity.
  - vm_compute. discriminate.
  - vm_compute. discriminate.
  - right. left. reflexivity.
Defined.

(* ===================================================================== *)
(** * Further properties of the district predictor *)
(* ===================================================================== *)

Lemma localize_datetime_error (year month day hour minute : Z) :
  ¬ (1 <= year <= 9999 ∧ 1 <= month <= 12
     ∧ 1 <= day <= days_in_month year month
     ∧ 0 <= hour <= 23 ∧ 0 <= minute <= 59) →
  ∃ msg, localize_datetime year month day hour minute = raise "ValueError" msg.
Proof.
  intros Hbad. unfold localize_datetime.
  repeat match goal with
         | |- context [if negb (?a && ?b) then _ else _] =>
             destruct (Z.leb_spec0 _ _ : reflect _ a);
             [destruct (Z.leb_spec0 _ _ : reflect _ b)|]; simpl;
             try (eexists; reflexivity)
         end.
  exfalso. apply Hbad. lia.
Qed.

Section predictor_more.
Variable np_pi : Q.
Variables np_sin np_cos np_sqrt : Q → Q.
Variable fetch_air_quality_at_time : Z → string → Q → Q → result air_data.
Variable fetch_weather_forecast : datetime → Q → Q → result weather_data.
Variable fetch_weather_archive : datetime → Q → Q → result weather_data.
Variable X : Type.
Variable scaler_transform : DataFrame → result X.
Variable model_predict : X → result Q.

Local Abbreviation predict :=
  (predict_pm25_for_district np_pi np_sin np_cos np_sqrt
     fetch_air_quality_at_time fetch_weather_forecast fetch_weather_archive
     X scaler_transform model_predict).

(** X12.  For a year from 1976 to 9998, the result has status success
    exactly when every stage went through: the date exists, the three
    snapshots were fetched, the feature row was built, and scaler and model
    returned; the value reported is then the prediction of the model
    rounded to two decimals. *)
Theorem predictor_success_iff (d : district) (year month day hour minute : Z)
    (api_key : string) (feature_columns : list string) (include_raw_data : bool)
    (now2 now1 now0 : datetime) :
  fixed_offset_year year →
  let res := predict d year month day hour minute api_key feature_columns
               include_raw_data now2 now1 now0 in
  p_status res = StatusSuccess
  ↔ ∃ target_time rows df_features X_scaled prediction,
      localize_datetime year month day hour minute = inr target_time
      ∧ fetch_window fetch_air_quality_at_time fetch_weather_forecast
          fetch_weather_archive d api_key now2 now1 now0 target_time = inr rows
      ∧ (build_features np_pi np_sin np_cos np_sqrt rows feature_columns []).1
        = inr df_features
      ∧ scaler_transform df_features = inr X_scaled
      ∧ model_predict X_scaled = inr prediction
      ∧ pm25_of res = Some (round2 prediction).
Proof.
  intros _ res. subst res. unfold predict_pm25_for_district, predict_body. split.
  - destruct (localize_datetime _ _ _ _ _) as [e|t]; [discriminate|]. simpl.
    destruct (fetch_window _ _ _ _ _ _ _ _ _) as [e|rows] eqn:Hf;
      [discriminate|]. simpl.
    destruct (build_features _ _ _ _ _ _ _).1 as [e|ft] eqn:Hb;
      [discriminate|]. simpl.
    destruct (scaler_transform ft) as [e|x] eqn:Hs; [discriminate|]. simpl.
    destruct (model_predict x) as [e|p] eqn:Hm; [discriminate|]. simpl.
    intros _. by exists t, rows, ft, x, p.
  - intros (t & rows & ft & x & p & -> & Hf & Hb & Hs & Hm & _). simpl.
    rewrite Hf. simpl. rewrite Hb. simpl. rewrite Hs. simpl. rewrite Hm.
    reflexivity.
Qed.

(** X13.  Calendar fields in the range of a C [int] that name no date or
    time (a 30th of February, an hour 24) make the call return the failure result of the
    district with error type [ValueError], whatever the lookups, the scaler
    and the model would return. *)
Theorem predictor_rejects_bad_date (d : district)
    (year month day hour minute : Z) (api_key : string)
    (feature_columns : list string) (include_raw_data : bool)
    (now2 now1 now0 : datetime) :
  Forall c_int [year; month; day; hour; minute] →
  ¬ (1 <= year <= 9999 ∧ 1 <= month <= 12
     ∧ 1 <= day <= days_in_month year month
     ∧ 0 <= hour <= 23 ∧ 0 <= minute <= 59) →
  ∃ msg,
    predict d year month day hour minute api_key feature_columns
      include_raw_data now2 now1 now0
    = Failure (d_id d) (d_name d) (d_name_en d) (d_lat d) (d_lon d)
              msg "ValueError".
Proof.
  intros _ Hbad.
  destruct (localize_datetime_error year month day hour minute Hbad) as [msg Hl].
  exists msg. unfold predict_pm25_for_district, predict_body. by rewrite Hl.
Qed.

End predictor_more.

Lemma predictor_rejects_bad_date_witness :
  let air := fun (_ : Z) (_ : string) (_ _ : Q) =>
    (raise "HTTPError" "503 Server Error" : result air_data) in
  let weather := fun (_ : datetime) (_ _ : Q) =>
    (raise "HTTPError" "unreachable" : result weather_data) in
  ∃ msg,
    predict_pm25_for_district 3 (fun _ => 0%Q) (fun _ => 1%Q) (fun x => x)
      air weather weather unit (fun _ => inr tt) (fun _ => inr 0%Q)
      sample_district 2025 2 30 8 0 "key" [] true 0 0 0
    = Failure 7 "Quan 7" "District 7" (1073 # 100) (10672 # 100) msg "ValueError".
Proof.
  intros air weather.
  apply (predictor_rejects_bad_date 3 (fun _ => 0%Q) (fun _ => 1%Q) (fun x => x)
           air weather weather unit (fun _ => inr tt) (fun _ => inr 0%Q)
           sample_district 2025 2 30 8 0 "key" [] true 0 0 0).
  - repeat (apply Forall_cons_2; [unfold c_int; lia|]). apply Forall_nil_2.
  - vm_compute. intros (_ & _ & [_ H] & _). apply H. reflexivity.
Defined.

(* ===================================================================== *)
(** * Further properties of the batch orchestrator *)
(* ===================================================================== *)

(** Two lists in ascending order of distinct ids with the same elements
    are the same list. *)
Lemma sorted_by_id_unique (l1 l2 : list prediction) :
  StronglySorted Z.le (p_id <$> l1) → StronglySorted Z.le (p_id <$> l2) →
  NoDup (p_id <$> l1) → l1 ≡ₚ l2 → l1 = l2.
Proof.
  revert l2. induction l1 as [|x l1 IH]; intros l2 Hs1 Hs2 Hnd Hperm.
  - by apply Permutation_nil_l in Hperm.
  - destruct l2 as [|y l2]; [by apply Permutation_nil_r in Hperm|].
    rewrite fmap_cons in Hs1, Hs2, Hnd.
    apply StronglySorted_inv in Hs1 as [Hs1 Hx].
    apply StronglySorted_inv in Hs2 as [Hs2 Hy].
    apply NoDup_cons in Hnd as [Hxn Hnd].
    assert (x = y) as <-.
    { assert (x ∈ y :: l2) as Hxin by (rewrite <- Hperm; apply list_elem_of_here).
      assert (y ∈ x :: l1) as Hyin by (rewrite Hperm; apply list_elem_of_here).
      apply elem_of_cons in Hxin as [?|Hxin]; [done|].
      apply elem_of_cons in Hyin as [?|Hyin]; [done|].
      exfalso. apply Hxn.
      assert (p_id x = p_id y) as ->.
      { rewrite Forall_forall in Hx, Hy.
        specialize (Hx (p_id y) ltac:(by apply (list_elem_of_fmap_2 p_id))).
        specialize (Hy (p_id x) ltac:(by apply (list_elem_of_fmap_2 p_id))).
        lia. }
      by apply (list_elem_of_fmap_2 p_id). }
    f_equal. apply IH; try done. by apply Permutation_cons_inv in Hperm.
Qed.

(** X15.  The response of a batch does not depend on the order in which
    the tasks complete, when the districts have distinct ids: any two runs
    over the same task results give the same response. *)
Theorem batch_order_independent (np_sqrt : Q → Q) (districts : list district)
    (outcomes : list prediction) (r1 r2 : result batch_response) :
  NoDup (d_id <$> districts) →
  Forall2 (λ d p, p_id p = d_id d) districts outcomes →
  predict_all_districts np_sqrt districts outcomes r1 →
  predict_all_districts np_sqrt districts outcomes r2 →
  r1 = r2.
Proof.
  intros Hnd Hids [c1 Hp1] [c2 Hp2].
  assert (p_id <$> outcomes = d_id <$> districts) as Hmap.
  { clear -Hids. induction Hids as [|d p ds ps Hd _ IH]; [done|].
    rewrite !fmap_cons. by f_equal. }
  assert (∀ (P : prediction → Prop) `{∀ x, Decision (P x)},
            sort_by_id (filter P c1) = sort_by_id (filter P c2)) as Heq.
  { intros P HP. apply sorted_by_id_unique.
    - apply sort_by_id_sorted.
    - apply sort_by_id_sorted.
    - unfold sort_by_id. rewrite sort_by_Permutation.
      apply (NoDup_fmap_2_strong p_id).
      + intros x y Hx Hy Hxy.
        apply list_elem_of_filter in Hx as [_ Hx].
        apply list_elem_of_filter in Hy as [_ Hy].
        rewrite Hp1 in Hx, Hy. rewrite <- Hmap in Hnd.
        clear -Hnd Hx Hy Hxy.
        induction outcomes as [|o os IH]; [by apply elem_of_nil in Hx|].
        rewrite fmap_cons in Hnd. apply NoDup_cons in Hnd as [Ho Hnd].
        apply elem_of_cons in Hx as [->|Hx]; apply elem_of_cons in Hy as [->|Hy];
          try done.
        * exfalso. apply Ho. rewrite Hxy. by apply (list_elem_of_fmap_2 p_id).
        * exfalso. apply Ho. rewrite <- Hxy. by apply (list_elem_of_fmap_2 p_id).
        * by apply IH.
      + apply NoDup_filter. rewrite Hp1.
        apply (NoDup_fmap_1 p_id). by rewrite Hmap.
    - unfold sort_by_id. rewrite !sort_by_Permutation. by rewrite Hp1, Hp2. }
  unfold collect. by rewrite !Heq.
Qed.

Lemma batch_order_independent_witness :
  let districts :=
    [sample_district;
     District 3 "Quan 3" "District 3" (1078 # 100) (10668 # 100) 190000 (49 # 10)
       "urban"] in
  let outcomes :=
    [Failure 7 "Quan 7" "District 7" (1073 # 100) (10672 # 100)
       "503 Server Error" "HTTPError";
     Success 3 "Quan 3" "District 3" (1078 # 100) (10668 # 100) (2512 # 100)
       190000 (49 # 10) "urban" None] in
  collect (fun x => x) districts outcomes
  = collect (fun x => x) districts (reverse outcomes).
Proof.
  intros districts outcomes.
  apply (batch_order_independent (fun x => x) districts outcomes).
  - apply NoDup_cons. split; [|apply NoDup_singleton].
    intros H. apply list_elem_of_singleton in H. discriminate.
  - repeat constructor.
  - apply Completed. reflexivity.
  - apply Completed. apply reverse_Permutation.
Defined.

(* ===================================================================== *)
(** * Properties of the provider lookups *)
(* ===================================================================== *)

(** ** [min] with an integer key returns the first least item *)

Section py_min_key.
Context {A : Type} (key : A → Z).

Lemma py_min_from_first (best : A) (l : list A) :
  let m := py_min_from (λ x y, key x <? key y) best l in
  ∃ i : nat,
    (best :: l) !! i = Some m
    ∧ (∀ y, y ∈ best :: l → key m <= key y)
    ∧ (∀ (j : nat) y, (j < i)%nat → (best :: l) !! j = Some y → key m < key y).
Proof.
  revert best. induction l as [|x l IH]; intros best; cbn zeta.
  - exists 0%nat. simpl. split; [done|]. split.
    + intros y Hy. apply list_elem_of_singleton in Hy as ->. lia.
    + intros j y Hj. lia.
  - simpl. destruct (Z.ltb_spec (key x) (key best)) as [Hlt|Hge].
    + destruct (IH x) as (i & Hi & Hmin & Hfirst). cbn zeta in *.
      exists (S i). split; [exact Hi|]. split.
      * intros y Hy. apply elem_of_cons in Hy as [->|Hy]; [|by apply Hmin].
        specialize (Hmin x (list_elem_of_here _ _)). lia.
      * intros [|j] y Hj Hy; simpl in Hy.
        -- injection Hy as <-.
           specialize (Hmin x (list_elem_of_here _ _)). lia.
        -- apply (Hfirst j); [lia|exact Hy].
    + destruct (IH best) as (i & Hi & Hmin & Hfirst). cbn zeta in *.
      destruct i as [|i].
      * simpl in Hi. injection Hi as Hi. exists 0%nat. rewrite <- Hi in *.
        split; [done|]. split; [|intros j y Hj; lia].
        intros y Hy. apply elem_of_cons in Hy as [->|Hy]; [lia|].
        apply elem_of_cons in Hy as [->|Hy]; [lia|].
        apply Hmin. by apply list_elem_of_further.
      * simpl in Hi. exists (S (S i)). split; [exact Hi|].
        pose proof (Hfirst 0%nat best ltac:(lia) eq_refl) as Hb.
        split.
        -- intros y Hy. apply elem_of_cons in Hy as [->|Hy]; [lia|].
           apply elem_of_cons in Hy as [->|Hy]; [lia|].
           apply Hmin. by apply list_elem_of_further.
        -- intros [|[|j]] y Hj Hy; simpl in Hy.
           ++ injection Hy as <-. lia.
           ++ injection Hy as <-. lia.
           ++ apply (Hfirst (S j)); [lia|exact Hy].
Qed.

End py_min_key.

(** The first item that [filter] keeps is the first of the list that
    passes the test. *)
Lemma filter_first {A} (P : A → Prop) `{∀ x, Decision (P x)} (l : list A)
    (x : A) (rest : list A) :
  filter P l = x :: rest →
  ∃ i : nat, l !! i = Some x ∧ P x
             ∧ ∀ (j : nat) y, (j < i)%nat → l !! j = Some y → ¬ P y.
Proof.
  induction l as [|a l IH]; [done|].
  rewrite filter_cons. destruct (decide (P a)) as [Ha|Ha].
  - intros [= -> _]. exists 0%nat. split_and!; [done|done|].
    intros j y Hj. lia.
  - intros Hf. destruct (IH Hf) as (i & Hi & Hx & Hfirst).
    exists (S i). split_and!; [done|done|].
    intros [|j] y Hj Hy; simpl in Hy.
    + by injection Hy as <-.
    + apply (Hfirst j); [lia|exact Hy].
Qed.

Lemma get_miss_absent {V} (s : CacheManager.t V) key ttl now :
  (CacheManager.get key ttl now s).1 = None →
  CacheManager.cache (CacheManager.get key ttl now s).2 !! key = None.
Proof.
  unfold CacheManager.get.
  destruct (CacheManager.cache s !! key) as [v|] eqn:Hk; [|done].
  destruct (Qltb _ _); simpl; [discriminate|].
  intros _. apply lookup_delete_eq.
Qed.

Lemma cache_set_wf (s : CacheManager.t readings) key value now :
  CacheManager.wf s →
  ∃ s',
    DataFetcher.cache_set key value now s = (inr tt, s')
    ∧ CacheManager.cache s' !! key = Some value
    ∧ od_lookup key (CacheManager.timestamps s') = Some now.
Proof.
  intros Hwf. unfold DataFetcher.cache_set.
  destruct (set_spec s key value now Hwf) as (s0 & _ & _ & _ & _ & _ & ->).
  eexists. split; [reflexivity|]. simpl.
  by rewrite lookup_insert_eq, od_lookup_insert_eq.
Qed.

(** The statements of a lookup after a miss, one by one: whichever raises
    leaves the cache as the lookup of the key left it, without an entry
    for the key. *)
Ltac lookup_raises Hget :=
  repeat match goal with
         | |- context [match ?r with inl _ => _ | inr _ => _ end] =>
             destruct r; simpl
         | |- context [match ?l with [] => _ | _ :: _ => _ end] =>
             destruct l; simpl
         end;
  first [ by intros [? ?]
        | intros _; split; [reflexivity|]; by apply get_miss_absent ].



(** X17.  A reading that the air lookup fetched is served from the cache
    for the next 1800 seconds: a later lookup of the same timestamp and
    coordinates returns it, whatever the API key of that lookup and
    whatever the provider would answer then. *)
Theorem air_read_through (air_key : Z → Q → Q → string)
    (http_air http_air' : Q → Q → Z → Z → string → result (list air_record))
    (timestamp_utc : Z) (api_key api_key' : string)
    (lat lon now_get now_set now_get' now_set' : Q)
    (s s1 : CacheManager.t readings) (v : readings) :
  CacheManager.wf s →
  (CacheManager.get (air_key timestamp_utc lat lon) CACHE_TTL_AIR now_get s).1
  = None →
  DataFetcher.fetch_air_quality_at_time air_key http_air timestamp_utc api_key
    lat lon now_get now_set s = (inr v, s1) →
  (now_get' - now_set < 1800)%Q →
  (DataFetcher.fetch_air_quality_at_time air_key http_air' timestamp_utc
     api_key' lat lon now_get' now_set' s1).1 = inr v.
Proof.
  intros Hwf Hmiss Hfetch Hage.
  unfold DataFetcher.fetch_air_quality_at_time, DataFetcher.abind,
    DataFetcher.cache_get, DataFetcher.alift, DataFetcher.areturn in Hfetch.
  cbn zeta in Hfetch. rewrite Hmiss in Hfetch.
  destruct (http_air _ _ _ _ _) as [e|[|x l]]; try discriminate.
  simpl in Hfetch. destruct (air_result _) as [e|res]; [discriminate|].
  destruct (cache_set_wf
              (CacheManager.get (air_key timestamp_utc lat lon) CACHE_TTL_AIR
                 now_get s).2
              (air_key timestamp_utc lat lon) res now_set)
    as (s' & Hs & Hc & Ht); [by apply get_wf|].
  rewrite Hs in Hfetch. injection Hfetch as -> ->.
  unfold DataFetcher.fetch_air_quality_at_time, DataFetcher.abind,
    DataFetcher.cache_get, DataFetcher.areturn. cbn zeta.
  by rewrite (get_hit s1 _ v now_set CACHE_TTL_AIR now_get' Hc Ht Hage).
Qed.

Lemma air_read_through_witness :
  let http := fun (_ _ : Q) (_ _ : Z) (_ : string) =>
    (inr [AirRecord 1764032500 (sample_components 20)]
     : result (list air_record)) in
  let down := fun (_ _ : Q) (_ _ : Z) (_ : string) =>
    (raise "HTTPError" "401 Unauthorized" : result (list air_record)) in
  ∃ s1,
    DataFetcher.fetch_air_quality_at_time sample_air_key http 1764032400 "key"
      (1073 # 100) (10672 # 100) 50 51 (CacheManager.init 2000)
    = (inr (sample_components 20), s1)
    ∧ (DataFetcher.fetch_air_quality_at_time sample_air_key down 1764032400
         "no key" (1073 # 100) (10672 # 100) 1850 1851 s1).1
      = inr (sample_components 20).
Proof.
  intros http down. eexists. split; [reflexivity|].
  apply (air_read_through sample_air_key http down 1764032400 "key" "no key"
           (1073 # 100) (10672 # 100) 50 51 1850 1851 (CacheManager.init 2000)).
  - apply wf_init.
  - reflexivity.
  - reflexivity.
  - reflexivity.
Defined.

(** X18.  A lookup that raises stores nothing: the cache is left as the
    lookup of the key left it, without an entry for the key, for the air
    lookup and for the two weather lookups alike. *)
Theorem failed_lookup_not_cached (air_key : Z → Q → Q → string)
    (archive_key : Z → Q → Q → Z → string)
    (forecast_key : Z → Z → Q → Q → string)
    (http_air : Q → Q → Z → Z → string → result (list air_record))
    (http_archive : Q → Q → Z → result (list hourly_row))
    (http_forecast : Q → Q → result (list hourly_row))
    (timestamp_utc : Z) (target_time_vn : datetime) (api_key : string)
    (lat lon now_get now_set : Q) (s : CacheManager.t readings) :
  let air := DataFetcher.fetch_air_quality_at_time air_key http_air
               timestamp_utc api_key lat lon now_get now_set s in
  let archive := DataFetcher.fetch_weather_archive archive_key http_archive
                   target_time_vn lat lon now_get now_set s in
  let forecast := DataFetcher.fetch_weather_forecast forecast_key http_forecast
                    target_time_vn lat lon now_get now_set s in
  ((∃ e, air.1 = inl e) →
   air.2 = (CacheManager.get (air_key timestamp_utc lat lon) CACHE_TTL_AIR
              now_get s).2
   ∧ CacheManager.cache air.2 !! air_key timestamp_utc lat lon = None)
  ∧ ((∃ e, archive.1 = inl e) →
     archive.2
     = (CacheManager.get
          (archive_key (date_of target_time_vn) lat lon (hour_of target_time_vn))
          CACHE_TTL_WEATHER now_get s).2
     ∧ CacheManager.cache archive.2
         !! archive_key (date_of target_time_vn) lat lon (hour_of target_time_vn)
       = None)
  ∧ ((∃ e, forecast.1 = inl e) →
     forecast.2
     = (CacheManager.get
          (forecast_key (date_of target_time_vn) (hour_of target_time_vn) lat lon)
          1800 now_get s).2
     ∧ CacheManager.cache forecast.2
         !! forecast_key (date_of target_time_vn) (hour_of target_time_vn) lat lon
       = None).
Proof.
  intros air archive forecast. subst air archive forecast.
  unfold DataFetcher.fetch_air_quality_at_time, DataFetcher.fetch_weather_archive,
    DataFetcher.fetch_weather_forecast, DataFetcher.abind, DataFetcher.cache_get,
    DataFetcher.cache_set, DataFetcher.alift, DataFetcher.areturn, py_min.
  cbn zeta. split_and!.
  - destruct (CacheManager.get _ _ _ _).1 eqn:Hget; [by intros [e ?]|].
    lookup_raises Hget.
  - destruct (CacheManager.get _ _ _ _).1 eqn:Hget; [by intros [e ?]|].
    lookup_raises Hget.
  - destruct (CacheManager.get _ _ _ _).1 eqn:Hget; [by intros [e ?]|].
    lookup_raises Hget.
Qed.

(** X19.  The row that the weather lookups read is always a closest one:
    of a frame with rows, [select_hour] returns the first of the rows
    whose time is nearest to the target hour, be it through an exact match
    or through the search of the closest hour. *)
Theorem select_hour_closest (df : list hourly_row) (target_hour : datetime) :
  df ≠ [] →
  ∃ (i : nat) row,
    select_hour df target_hour = inr row
    ∧ df !! i = Some row
    ∧ (∀ x, x ∈ df →
         Z.abs (hr_time row - target_hour) <= Z.abs (hr_time x - target_hour))
    ∧ (∀ (j : nat) x, (j < i)%nat → df !! j = Some x →
         Z.abs (hr_time row - target_hour) < Z.abs (hr_time x - target_hour)).
Proof.
  intros Hne. unfold select_hour.
  destruct (filter _ df) as [|row rest] eqn:Hf.
  - destruct df as [|x l]; [done|].
    destruct (py_min_from_first (λ r, Z.abs (hr_time r - target_hour)) x l)
      as (i & Hi & Hmin & Hfirst). cbn zeta in *.
    exists i. eexists. split; [reflexivity|].
    split_and!; [exact Hi|exact Hmin|exact Hfirst].
  - apply filter_first in Hf as (i & Hi & Hrow & Hfirst).
    exists i, row. split_and!; [done|done| |].
    + intros x _. rewrite Hrow. lia.
    + intros j x Hj Hx. specialize (Hfirst j x Hj Hx). rewrite Hrow. lia.
Qed.

Lemma select_hour_closest_witness :
  let df :=
    [sample_hourly 1764028800000000 27; sample_hourly 1764036000000000 29;
     sample_hourly 1764039600000000 30] in
  ∃ (i : nat) row,
    select_hour df 1764032400000000 = inr row
    ∧ df !! i = Some row
    ∧ (∀ x, x ∈ df →
         Z.abs (hr_time row - 1764032400000000)
         <= Z.abs (hr_time x - 1764032400000000))
    ∧ (∀ (j : nat) x, (j < i)%nat → df !! j = Some x →
         Z.abs (hr_time row - 1764032400000000)
         < Z.abs (hr_time x - 1764032400000000)).
Proof.
  intros df. apply (select_hour_closest df 1764032400000000). discriminate.
Defined.

Lemma failed_lookup_not_cached_witness :
  let down := fun (_ _ : Q) (_ _ : Z) (_ : string) =>
    (raise "ConnectionError" "unreachable" : result (list air_record)) in
  let air := DataFetcher.fetch_air_quality_at_time sample_air_key down
               1764032400 "key" (1073 # 100) (10672 # 100) 50 51
               (CacheManager.init 2000) in
  air.2 = CacheManager.init 2000
  ∧ CacheManager.cache air.2 !! sample_air_key 1764032400 (1073 # 100) (10672 # 100)
    = None.
Proof.
  intros down air.
  apply (failed_lookup_not_cached sample_air_key sample_archive_key
           sample_forecast_key down (fun _ _ _ => inr []) (fun _ _ => inr [])
           1764032400 1764032400000000 "key" (1073 # 100) (10672 # 100) 50 51
           (CacheManager.init 2000)).
  by eexists.
Defined.

Lemma replace_hour_fields (t t' : datetime) :
  replace_hour t = replace_hour t' →
  date_of t = date_of t' ∧ hour_of t = hour_of t'.
Proof.
  unfold replace_hour, date_of, hour_of, naive. intros H.
  assert (td_hours 1 = 3600000000) as EH by reflexivity.
  assert (td_days 1 = 3600000000 * 24) as ED by reflexivity.
  rewrite EH in *. rewrite ED.
  assert ((t + TZ_VN_offset) / 3600000000 = (t' + TZ_VN_offset) / 3600000000) as E.
  { pose proof (Z.div_mod (t + TZ_VN_offset) 3600000000 ltac:(lia)).
    pose proof (Z.div_mod (t' + TZ_VN_offset) 3600000000 ltac:(lia)).
    lia. }
  rewrite <- !Z.div_div by lia. by rewrite E.
Qed.

(** X20.  The weather lookup depends on the target time through its
    clock hour only: two targets with the same hour on the clock give the
    same result and leave the same cache, from the forecast and from the
    archive. *)
Theorem weather_by_clock_hour (archive_key : Z → Q → Q → Z → string)
    (forecast_key : Z → Z → Q → Q → string)
    (http_archive : Q → Q → Z → result (list hourly_row))
    (http_forecast : Q → Q → result (list hourly_row))
    (now_vn t t' : datetime) (lat lon now_get now_set : Q)
    (s : CacheManager.t readings) :
  replace_hour t = replace_hour t' →
  DataFetcher.fetch_weather_at_time archive_key forecast_key http_archive
    http_forecast now_vn t lat lon now_get now_set s
  = DataFetcher.fetch_weather_at_time archive_key forecast_key http_archive
      http_forecast now_vn t' lat lon now_get now_set s.
Proof.
  intros H. destruct (replace_hour_fields t t' H) as [Hd Hh].
  unfold DataFetcher.fetch_weather_at_time, DataFetcher.fetch_weather_forecast,
    DataFetcher.fetch_weather_archive.
  by rewrite H, Hd, Hh.
Qed.

Lemma weather_by_clock_hour_witness :
  let http_archive := fun (_ _ : Q) (_ : Z) =>
    (inr [sample_hourly 1764028800000000 27; sample_hourly 1764032400000000 28]
     : result (list hourly_row)) in
  let http_forecast := fun (_ _ : Q) =>
    (inr [sample_hourly 1764032400000000 29] : result (list hourly_row)) in
  DataFetcher.fetch_weather_at_time sample_archive_key sample_forecast_key
    http_archive http_forecast 1764200000000000 1764032400000000
    (1073 # 100) (10672 # 100) 50 51 (CacheManager.init 2000)
  = DataFetcher.fetch_weather_at_time sample_archive_key sample_forecast_key
      http_archive http_forecast 1764200000000000 1764034200000000
      (1073 # 100) (10672 # 100) 50 51 (CacheManager.init 2000).
Proof.
  intros http_archive http_forecast.
  apply (weather_by_clock_hour sample_archive_key sample_forecast_key
           http_archive http_forecast).
  reflexivity.
Defined.

(* ===================================================================== *)
(** * Properties of the request handlers *)
(* ===================================================================== *)

Lemma find_district_spec (districts : list district) (district_id : Z) :
  match find_district districts district_id with
  | Some d =>
      ∃ i : nat, districts !! i = Some d ∧ d_id d = district_id
        ∧ ∀ (j : nat) d', (j < i)%nat → districts !! j = Some d' →
            d_id d' ≠ district_id
  | None => district_id ∉ d_id <$> districts
  end.
Proof.
  unfold find_district. induction districts as [|a l IH]; simpl.
  - apply not_elem_of_nil.
  - destruct (Z.eqb_spec (d_id a) district_id) as [Ha|Ha].
    + exists 0%nat. split_and!; [done|done|]. intros j d' Hj. lia.
    + destruct (List.find _ l) as [d|].
      * destruct IH as (i & Hi & Hd & Hfirst). exists (S i).
        split_and!; [done|done|].
        intros [|j] d' Hj Hd'; simpl in Hd'.
        -- by injection Hd' as <-.
        -- apply (Hfirst j); [lia|done].
      * rewrite not_elem_of_cons. by split.
Qed.

(** X21.  [get_district_by_id] answers with the first district of the
    list that has the id, and with a 404 DISTRICT_NOT_FOUND that lists the
    ids of all districts exactly when no district has it. *)
Theorem get_district_by_id_spec (districts : list district) (district_id : Z) :
  match get_district_by_id districts district_id with
  | SuccessResponse d =>
      ∃ i : nat, districts !! i = Some d ∧ d_id d = district_id
        ∧ ∀ (j : nat) d', (j < i)%nat → districts !! j = Some d' →
            d_id d' ≠ district_id
  | ErrorResponse error status_code =>
      error = DISTRICT_NOT_FOUND (d_id <$> districts) ∧ status_code = 404
      ∧ district_id ∉ d_id <$> districts
  end.
Proof.
  unfold get_district_by_id.
  pose proof (find_district_spec districts district_id) as H.
  destruct (find_district districts district_id); [exact H|]. by split_and!.
Qed.

(** The days of the years 1976 to 9998 lie strictly between the first
    and the last day of the range of [datetime]. *)
Lemma days_from_civil_bounds (y m d : Z) :
  1976 <= y <= 9998 → 1 <= m <= 12 → 1 <= d <= 31 →
  2191 <= days_from_civil y m d < 2932532.
Proof.
  intros Hy Hm Hd. unfold days_from_civil.
  destruct (Z.leb_spec m 2); cbv zeta; Z.to_euclidean_division_equations; lia.
Qed.

Lemma days_in_month_le (y m : Z) : days_in_month y m <= 31.
Proof.
  unfold days_in_month.
  destruct (m =? 2); [destruct (is_leap y); lia|].
  destruct (_ || _); lia.
Qed.

(** In those years [localize] returns for every date and time. *)
Lemma localize_datetime_returns (year month day hour minute : Z) :
  fixed_offset_year year →
  1 <= month <= 12 → 1 <= day <= days_in_month year month →
  0 <= hour <= 23 → 0 <= minute <= 59 →
  localize_datetime year month day hour minute
  = inr (td_days (days_from_civil year month day)
         + td_hours hour + td_minutes minute - TZ_VN_offset).
Proof.
  intros Hy Hm Hd Hh Hmi. unfold fixed_offset_year in Hy.
  pose proof (days_in_month_le year month) as Hdim.
  pose proof (days_from_civil_bounds year month day Hy Hm ltac:(lia)) as Hb.
  unfold localize_datetime.
  repeat match goal with
         | |- context [if negb (?a && ?b) then _ else _] =>
             destruct (Z.leb_spec0 _ _ : reflect _ a); [|lia];
             destruct (Z.leb_spec0 _ _ : reflect _ b); [|lia]; simpl
         end.
  cbv zeta.
  assert (datetime_min_naive = 0 - 62135596800000000) as -> by reflexivity.
  assert (datetime_max_naive = 253402300799999999) as -> by reflexivity.
  unfold td_days, td_hours, td_minutes, us_per_second.
  destruct (Z.ltb_spec
              (days_from_civil year month day * 86400 * 1000000
               + hour * 3600 * 1000000 + minute * 60 * 1000000
               - 1 * 86400 * 1000000) (0 - 62135596800000000)); [lia|].
  destruct (Z.ltb_spec 253402300799999999
              (days_from_civil year month day * 86400 * 1000000
               + hour * 3600 * 1000000 + minute * 60 * 1000000
               + 1 * 86400 * 1000000)); [lia|].
  reflexivity.
Qed.

(** Every request that names a date and a time of those years reaches
    the rules of the validator, with a target of those years. *)
Lemma validate_prediction_request_returns (now : datetime)
    (year month day hour minute : Z) :
  fixed_offset_year year →
  1 <= month <= 12 → 1 <= day <= days_in_month year month →
  0 <= hour <= 23 → 0 <= minute <= 59 →
  ∃ target,
    localize_datetime year month day hour minute = inr target
    ∧ in_service_years target
    ∧ validate_prediction_request now year month day hour minute
      = inr (validate_at now target).
Proof.
  intros Hy Hm Hd Hh Hmi.
  pose proof (localize_datetime_returns _ _ _ _ _ Hy Hm Hd Hh Hmi) as Hl.
  eexists. split; [exact Hl|]. split.
  - pose proof (days_in_month_le year month) as Hdim.
    pose proof (days_from_civil_bounds year month day Hy Hm ltac:(lia)) as Hb.
    unfold in_service_years, naive, TZ_VN_offset.
    change (days_from_civil 1976 1 1) with 2191.
    change (days_from_civil 9999 1 1) with 2932532.
    unfold td_days, td_hours, td_minutes, us_per_second. lia.
  - unfold validate_prediction_request. by rewrite Hl.
Qed.

Lemma localize_datetime_raises (year month day hour minute : Z) (e : exc) :
  fixed_offset_year year →
  localize_datetime year month day hour minute = inl e →
  exc_type e = "ValueError".
Proof.
  intros Hy He.
  destruct (decide (1 <= year <= 9999 ∧ 1 <= month <= 12
                    ∧ 1 <= day <= days_in_month year month
                    ∧ 0 <= hour <= 23 ∧ 0 <= minute <= 59))
    as [(_ & Hm & Hd & Hh & Hmi)|Hbad].
  - by rewrite (localize_datetime_returns _ _ _ _ _ Hy Hm Hd Hh Hmi) in He.
  - destruct (localize_datetime_error _ _ _ _ _ Hbad) as [msg Hl].
    rewrite Hl in He. by injection He as <-.
Qed.

Lemma validate_raises (now : datetime) (year month day hour minute : Z) (e : exc) :
  fixed_offset_year year →
  validate_prediction_request now year month day hour minute = inl e →
  localize_datetime year month day hour minute = inl e
  ∧ exc_type e = "ValueError".
Proof.
  intros Hy. unfold validate_prediction_request.
  destruct (localize_datetime _ _ _ _ _) as [e'|t] eqn:Hl; [|discriminate].
  simpl. intros [= <-]. split; [done|]. by eapply localize_datetime_raises.
Qed.

Section single_handler_facts.
Variable districts : list district.
Variable feature_columns : list string.
Variable np_pi : Q.
Variables np_sin np_cos np_sqrt : Q → Q.
Variable fetch_air_quality_at_time : Z → string → Q → Q → result air_data.
Variable fetch_weather_forecast : datetime → Q → Q → result weather_data.
Variable fetch_weather_archive : datetime → Q → Q → result weather_data.
Variable X : Type.
Variable scaler_transform : DataFrame → result X.
Variable model_predict : X → result Q.

Local Abbreviation predict :=
  (predict_pm25_for_district np_pi np_sin np_cos np_sqrt
     fetch_air_quality_at_time fetch_weather_forecast fetch_weather_archive
     X scaler_transform model_predict).

Local Abbreviation single :=
  (predict_single districts feature_columns np_pi np_sin np_cos np_sqrt
     fetch_air_quality_at_time fetch_weather_forecast fetch_weather_archive
     X scaler_transform model_predict).

(** X22.  The answers of [predict_single], once the fields are read,
    for a year from 1976 to 9998 and fields in the range of a C [int].  A
    success carries the result of the predictor for the first district
    with the requested id, at a time the validator accepts.  The errors
    are a 400 INVALID_INPUT for fields that name no date, a 400 with the
    code of the validator, a 404 DISTRICT_NOT_FOUND, which is given only
    to a request whose time is accepted, and a 400 PREDICTION_FAILED with
    the failure result of the requested district; a 500 is never
    answered. *)
Theorem predict_single_answers (now : datetime)
    (year month day hour minute district_id : Z) (api_key : string)
    (now2 now1 now0 : datetime) :
  fixed_offset_year year →
  Forall c_int [month; day; hour; minute] →
  match single now year month day hour minute district_id api_key now2 now1 now0
  with
  | SuccessResponse (result, info) =>
      validate_prediction_request now year month day hour minute
      = inr (Valid info)
      ∧ p_status result = StatusSuccess ∧ p_id result = district_id
      ∧ ∃ district,
          find_district districts district_id = Some district
          ∧ result = predict district year month day hour minute api_key
                       feature_columns true now2 now1 now0
  | ErrorResponse (INVALID_INPUT error) status_code =>
      status_code = 400
      ∧ localize_datetime year month day hour minute
        = raise "ValueError" error
  | ErrorResponse (VALIDATION code) status_code =>
      status_code = 400
      ∧ validate_prediction_request now year month day hour minute
        = inr (Rejected code)
  | ErrorResponse (DISTRICT_NOT_FOUND available_ids) status_code =>
      status_code = 404 ∧ available_ids = d_id <$> districts
      ∧ (district_id ∉ d_id <$> districts)
      ∧ ∃ info, validate_prediction_request now year month day hour minute
                = inr (Valid info)
  | ErrorResponse (PREDICTION_FAILED result) status_code =>
      status_code = 400 ∧ p_status result = StatusError
      ∧ p_id result = district_id
  | ErrorResponse _ _ => False
  end.
Proof.
  intros Hyear _. unfold predict_single.
  destruct (validate_prediction_request _ _ _ _ _ _) as [e|[code|info]] eqn:Hv.
  - apply validate_raises in Hv as [Hl Hty]; [|exact Hyear].
    unfold except_value_error. rewrite Hty. simpl. split; [done|].
    rewrite Hl. unfold raise. rewrite <- Hty. by destruct e.
  - done.
  - pose proof (find_district_spec districts district_id) as Hfind.
    destruct (find_district districts district_id) as [district|].
    + destruct Hfind as (i & Hi & Hid & _).
      destruct (p_status _) eqn:Hs.
      * split_and!; [done|done| |by exists district].
        rewrite <- Hid. apply predict_returns_district.
      * split_and!; [done|done|].
        rewrite <- Hid. apply predict_returns_district.
    + split_and!; [done|done|done|by exists info].
Qed.

End single_handler_facts.

(** X23.  Fields in the range of a C [int] that name no date are
    answered 400 INVALID_INPUT by
    [predict_single] and by [predict_all_districts], and 500
    INTERNAL_ERROR by [get_ranking], whose single [except] clause takes
    the [ValueError] of the validator; none of them touches the result
    cache. *)
Theorem bad_date_answers (districts : list district)
    (feature_columns : list string) (np_pi : Q) (np_sin np_cos np_sqrt : Q → Q)
    (fetch_air_quality_at_time : Z → string → Q → Q → result air_data)
    (fetch_weather_forecast fetch_weather_archive :
       datetime → Q → Q → result weather_data)
    (X : Type) (scaler_transform : DataFrame → result X)
    (model_predict : X → result Q)
    (now : datetime) (year month day hour minute district_id : Z)
    (api_key : string) (now2 now1 now0 : datetime)
    (completed : list prediction) (t_get t_set : Q) (stamp : datetime)
    (sort_by order : string) (limit : Z)
    (pc : PredictionCache.t cached_response) :
  Forall c_int [year; month; day; hour; minute] →
  ¬ (1 <= year <= 9999 ∧ 1 <= month <= 12
     ∧ 1 <= day <= days_in_month year month
     ∧ 0 <= hour <= 23 ∧ 0 <= minute <= 59) →
  ∃ msg,
    predict_single districts feature_columns np_pi np_sin np_cos np_sqrt
      fetch_air_quality_at_time fetch_weather_forecast fetch_weather_archive
      X scaler_transform model_predict now year month day hour minute
      district_id api_key now2 now1 now0
    = ErrorResponse (INVALID_INPUT msg) 400
    ∧ predict_all_handler districts np_sqrt now year month day hour minute
        completed t_get t_set stamp pc
      = (BatchError (INVALID_INPUT msg) 400, pc)
    ∧ get_ranking now year month day hour minute sort_by order limit t_get pc
      = (ErrorResponse (INTERNAL_ERROR [("error", msg)]) 500, pc).
Proof.
  intros _ Hbad.
  destruct (localize_datetime_error year month day hour minute Hbad) as [msg Hl].
  exists msg.
  unfold predict_single, predict_all_handler, get_ranking,
    validate_prediction_request.
  rewrite Hl. by split_and!.
Qed.

Lemma bad_date_answers_witness :
  let air := fun (_ : Z) (_ : string) (_ _ : Q) =>
    (raise "HTTPError" "503 Server Error" : result air_data) in
  let weather := fun (_ : datetime) (_ _ : Q) =>
    (raise "HTTPError" "unreachable" : result weather_data) in
  ∃ msg,
    predict_single [sample_district] [] 3 (fun _ => 0%Q) (fun _ => 1%Q)
      (fun x => x) air weather weather unit (fun _ => inr tt)
      (fun _ => inr 0%Q) 1764036000000000 2025 11 31 8 0 7 "key" 0 0 0
    = ErrorResponse (INVALID_INPUT msg) 400
    ∧ predict_all_handler [sample_district] (fun x => x) 1764036000000000
        2025 11 31 8 0 [] 0 0 0 (PredictionCache.init 1800)
      = (BatchError (INVALID_INPUT msg) 400, PredictionCache.init 1800)
    ∧ get_ranking 1764036000000000 2025 11 31 8 0 "pm25" "desc" 10 0
        (PredictionCache.init 1800)
      = (ErrorResponse (INTERNAL_ERROR [("error", msg)]) 500,
         PredictionCache.init 1800).
Proof.
  intros air weather.
  apply (bad_date_answers [sample_district] [] 3 (fun _ => 0%Q) (fun _ => 1%Q)
           (fun x => x) air weather weather unit (fun _ => inr tt)
           (fun _ => inr 0%Q) 1764036000000000 2025 11 31 8 0 7 "key" 0 0 0
           [] 0 0 0 "pm25" "desc" 10 (PredictionCache.init 1800)).
  - repeat (apply Forall_cons_2; [unfold c_int; lia|]). apply Forall_nil_2.
  - vm_compute. intros (_ & _ & [_ H] & _). apply H. reflexivity.
Defined.

(** ** The result cache in the handlers *)

Lemma prediction_get_ttl {V} (s : PredictionCache.t V) y m d h mi now :
  PredictionCache.ttl (PredictionCache.get y m d h mi now s).2
  = PredictionCache.ttl s.
Proof.
  unfold PredictionCache.get.
  destruct (PredictionCache.cache s !! _); [|done].
  destruct (Qltb _ _); [done|].
  by destruct (PredictionCache.timestamps s !! _).
Qed.

Lemma prediction_get_after_set {V} (s : PredictionCache.t V) y m d h mi
    (value : V) (T now : Q) :
  (now - T < inject_Z (PredictionCache.ttl s))%Q →
  PredictionCache.get y m d h mi now (PredictionCache.set y m d h mi value T s)
  = (inr (Some value), PredictionCache.set y m d h mi value T s).
Proof.
  intros Hlt. unfold PredictionCache.get, PredictionCache.set. simpl.
  rewrite !lookup_insert_eq. simpl. apply Qltb_lt in Hlt. by rewrite Hlt.
Qed.

Lemma except_value_error_is_error (e : exc) :
  ∃ error status_code, batch_error (except_value_error e) = BatchError error status_code.
Proof.
  unfold except_value_error. destruct (String.eqb _ _); simpl; by do 2 eexists.
Qed.

(** What a computed answer of the batch handler tells. *)
Lemma predict_all_computed (districts : list district) (np_sqrt : Q → Q)
    (now : datetime) (y m d h mi : Z) (completed : list prediction)
    (t_get t_set : Q) (stamp : datetime)
    (pc pc1 : PredictionCache.t cached_response) (data : batch_response) :
  predict_all_handler districts np_sqrt now y m d h mi completed t_get t_set
    stamp pc = (BatchComputed data, pc1) →
  collect np_sqrt districts completed = inr data
  ∧ (PredictionCache.get y m d h mi t_get pc).1 = inr None
  ∧ pc1 = PredictionCache.set y m d h mi (CachedResponse data stamp) t_set
            (PredictionCache.get y m d h mi t_get pc).2
  ∧ PredictionCache.ttl pc1 = PredictionCache.ttl pc.
Proof.
  unfold predict_all_handler.
  destruct (validate_prediction_request _ _ _ _ _ _) as [e|[code|info]].
  - destruct (except_value_error_is_error e) as (? & ? & ->). discriminate.
  - discriminate.
  - destruct (PredictionCache.get y m d h mi t_get pc).1 as [e|[c|]] eqn:Hget.
    + destruct (except_value_error_is_error e) as (? & ? & ->). discriminate.
    + discriminate.
    + destruct (collect np_sqrt districts completed) as [e|data'].
      * destruct (except_value_error_is_error e) as (? & ? & ->). discriminate.
      * intros [= -> <-]. split_and!; [done|done|done|].
        simpl. apply prediction_get_ttl.
Qed.

(** X24.  For a year from 1976 to 9998, a batch that has been computed is
    not computed again while its entry in the result cache is younger than
    the time to live: a later request for the same time that passes the validator gets the stored
    dictionary, data and time stamp as they were stored, whatever the
    predictions would be now, and the cache stays as it is. *)
Theorem batch_served_from_cache (districts : list district) (np_sqrt : Q → Q)
    (now now' : datetime) (y m d h mi : Z) (completed completed' : list prediction)
    (t_get t_set t_get' t_set' : Q) (stamp stamp' : datetime)
    (pc pc1 : PredictionCache.t cached_response) (data : batch_response)
    (info' : window_info) :
  fixed_offset_year y →
  predict_all_handler districts np_sqrt now y m d h mi completed t_get t_set
    stamp pc = (BatchComputed data, pc1) →
  validate_prediction_request now' y m d h mi = inr (Valid info') →
  (t_get' - t_set < inject_Z (PredictionCache.ttl pc))%Q →
  predict_all_handler districts np_sqrt now' y m d h mi completed' t_get' t_set'
    stamp' pc1 = (BatchCached (CachedResponse data stamp), pc1).
Proof.
  intros _ Hfirst Hvalid Hage.
  apply predict_all_computed in Hfirst as (_ & _ & -> & Httl).
  unfold predict_all_handler. rewrite Hvalid. cbn zeta.
  rewrite prediction_get_after_set; [done|].
  by rewrite prediction_get_ttl.
Qed.

Lemma batch_served_from_cache_witness :
  let districts := [sample_district] in
  let done_first :=
    [Success 7 "Quan 7" "District 7" (1073 # 100) (10672 # 100) (2512 # 100)
       360000 (357 # 10) "urban" None] in
  let done_later :=
    [Failure 7 "Quan 7" "District 7" (1073 # 100) (10672 # 100)
       "503 Server Error" "HTTPError"] in
  ∃ data pc1,
    predict_all_handler districts (fun x => x) 1764036000000000 2025 11 25 8 0
      done_first 100 101 1764036000000000 (PredictionCache.init 1800)
    = (BatchComputed data, pc1)
    ∧ predict_all_handler districts (fun x => x) 1764037000000000 2025 11 25 8 0
        done_later 1100 1101 1764037000000000 pc1
      = (BatchCached (CachedResponse data 1764036000000000), pc1).
Proof.
  intros districts done_first done_later.
  do 2 eexists. split; [reflexivity|].
  eapply (batch_served_from_cache districts (fun x => x) 1764036000000000
            1764037000000000 2025 11 25 8 0 done_first done_later 100 101 1100 1101
            1764036000000000 1764037000000000 (PredictionCache.init 1800)).
  - unfold fixed_offset_year. lia.
  - reflexivity.
  - reflexivity.
  - reflexivity.
Defined.

(** ** Rankings *)

Lemma result_map_ok {A B} (f : A → result B) (g : A → B) (l : list A) :
  Forall (λ x, f x = inr (g x)) l → result_map f l = inr (g <$> l).
Proof.
  induction 1 as [|x l Hx _ IH]; simpl; [done|]. by rewrite Hx, IH.
Qed.

Section sorted_facts.
Context {A K : Type} (c : K → K → bool) (k : A → K).

Lemma insert_by_keyed (x : A) (ps : list (K * A)) :
  Forall (λ p, p.1 = k p.2) ps →
  (insert_by (λ a b, c a.1 b.1) (k x, x) ps).*2
  = insert_by (λ a b, c (k a) (k b)) x ps.*2.
Proof.
  induction 1 as [|[kp p] ps Hp _ IH]; simpl; [done|].
  simpl in Hp. subst kp. destruct (c (k x) (k p)); simpl; [done|].
  f_equal. exact IH.
Qed.

Lemma sort_by_keyed (l : list A) :
  (sort_by (λ a b, c a.1 b.1) (zip (k <$> l) l)).*2
  = sort_by (λ a b, c (k a) (k b)) l.
Proof.
  induction l as [|x l IH]; [done|].
  rewrite fmap_cons.
  change (zip (k x :: (k <$> l)) (x :: l)) with ((k x, x) :: zip (k <$> l) l).
  change (sort_by ?f (?a :: ?r)) with (insert_by f a (sort_by f r)).
  rewrite insert_by_keyed, IH; [done|].
  apply Forall_forall. intros p Hp.
  rewrite (sort_by_Permutation (λ a b, c a.1 b.1)) in Hp.
  clear -Hp. induction l as [|y l IH]; simpl in Hp.
  - by apply elem_of_nil in Hp.
  - apply elem_of_cons in Hp as [->|Hp]; [done|by apply IH].
Qed.

End sorted_facts.

Lemma StronglySorted_mono {A} (R R' : A → A → Prop) (l : list A) :
  (∀ a b, R a b → R' a b) → StronglySorted R l → StronglySorted R' l.
Proof.
  intros HR. induction 1 as [|x l _ IH Hx]; constructor; [done|].
  eapply Forall_impl; [exact Hx|]. intros y. apply HR.
Qed.

Lemma Qleb_le (a b : Q) : Qleb a b = true ↔ (a <= b)%Q.
Proof. unfold Qleb. rewrite negb_true_iff. apply Qltb_ge. Qed.

(** [sorted] of a list whose keys are all there returns its items, each
    before the items it may stand before. *)
Lemma sorted_spec {A K} (le : K → K → bool) (key : A → result K) (k : A → K)
    (reverse : bool) (l : list A) :
  (∀ x y, le x y = true ∨ le y x = true) →
  (∀ x y z, le x y = true → le y z = true → le x z = true) →
  Forall (λ x, key x = inr (k x)) l →
  ∃ l',
    sorted le key reverse l = inr l' ∧ l' ≡ₚ l
    ∧ StronglySorted
        (λ a b, if reverse then le (k b) (k a) = true else le (k a) (k b) = true)
        l'.
Proof.
  intros Htotal Htrans Hkeys. unfold sorted.
  rewrite (result_map_ok key k l Hkeys). simpl.
  rewrite (sort_by_keyed (λ u v, if reverse then le v u else le u v) k l).
  eexists. split; [reflexivity|]. split; [apply sort_by_Permutation|].
  eapply StronglySorted_mono; [|apply sort_by_sorted].
  - intros a b. by destruct reverse.
  - intros x y. destruct reverse; apply Htotal.
  - intros x y z. destruct reverse; [|apply Htrans].
    intros H1 H2. by apply (Htrans _ _ _ H2 H1).
Qed.

Lemma Qleb_total (x y : Q) : Qleb x y = true ∨ Qleb y x = true.
Proof.
  rewrite !Qleb_le. destruct (Qlt_le_dec x y) as [H|H]; [left|by right].
  by apply Qlt_le_weak.
Qed.

Lemma Qleb_trans (x y z : Q) : Qleb x y = true → Qleb y z = true → Qleb x z = true.
Proof. rewrite !Qleb_le. apply Qle_trans. Qed.

Lemma Zleb_total (x y : Z) : (x <=? y) = true ∨ (y <=? x) = true.
Proof. rewrite !Z.leb_le. lia. Qed.

Lemma Zleb_trans (x y z : Z) :
  (x <=? y) = true → (y <=? z) = true → (x <=? z) = true.
Proof. rewrite !Z.leb_le. lia. Qed.

Lemma success_keys (l : list prediction) :
  Forall (λ p, is_success p = true) l →
  Forall (λ x, key_pm25_prediction x = inr (pm25_value x)) l
  ∧ Forall (λ x, key_population x = inr (population_value x)) l.
Proof.
  intros H. split; (eapply Forall_impl; [exact H|]);
    intros [] Hs; try discriminate; reflexivity.
Qed.

(** The districts of a response are the successful results. *)
Lemma collect_successes (np_sqrt : Q → Q) (districts : list district)
    (completed : list prediction) (data : batch_response) :
  collect np_sqrt districts completed = inr data →
  Forall (λ p, is_success p = true) (br_districts data).
Proof.
  unfold collect.
  set (results := sort_by_id (filter (λ r, is_success r = true) completed)).
  assert (Forall (λ p, is_success p = true) results) as Hres.
  { apply Forall_forall. intros p Hp. unfold results, sort_by_id in Hp.
    rewrite sort_by_Permutation in Hp.
    by apply list_elem_of_filter in Hp as [? _]. }
  clearbody results.
  destruct (py_truediv _ _) as [e|q]; [discriminate|]. simpl.
  destruct results as [|p0 results'].
  - simpl. by intros [= <-].
  - destruct (city_statistics_of _ _ _ _ _) as [e|st]; [discriminate|].
    simpl. by intros [= <-].
Qed.

(** The ranking computed from a cached batch whose districts are all
    successful results. *)
Lemma ranking_of_spec (info : window_info) (cached : cached_response)
    (sort_by order : string) (limit : Z) :
  Forall (λ p, is_success p = true) (br_districts (cr_data cached)) →
  sort_by = "pm25" ∨ sort_by = "population" →
  ∃ rk,
    ranking_of info cached sort_by order limit = inr (SuccessResponse rk)
    ∧ rk_prediction_info rk = info
    ∧ rk_statistics rk = br_statistics (cr_data cached)
    ∧ top_of (ranked sort_by order) limit (br_districts (cr_data cached))
        (rk_ranking rk)
    ∧ top_of (ranked "pm25" "asc") 5 (br_districts (cr_data cached))
        (rk_best_air_quality rk)
    ∧ top_of (ranked "pm25" "desc") 5 (br_districts (cr_data cached))
        (rk_worst_air_quality rk).
Proof.
  intros Hsucc Hsort. apply success_keys in Hsucc as [Hpm Hpop].
  unfold ranking_of. cbn zeta.
  destruct (sorted_spec Qleb key_pm25_prediction pm25_value false _
              Qleb_total Qleb_trans Hpm) as (best & -> & Hbp & Hbs).
  destruct (sorted_spec Qleb key_pm25_prediction pm25_value true _
              Qleb_total Qleb_trans Hpm) as (worst & -> & Hwp & Hws).
  assert (top_of (ranked "pm25" "asc") 5 (br_districts (cr_data cached))
            (py_slice_to 5 best)) as Hbest.
  { exists best. split_and!; [done| |done].
    eapply StronglySorted_mono; [|exact Hbs].
    intros a b. unfold ranked, ranks_le. simpl. apply Qleb_le. }
  assert (top_of (ranked "pm25" "desc") 5 (br_districts (cr_data cached))
            (py_slice_to 5 worst)) as Hworst.
  { exists worst. split_and!; [done| |done].
    eapply StronglySorted_mono; [|exact Hws].
    intros a b. unfold ranked, ranks_le. simpl. apply Qleb_le. }
  destruct Hsort as [-> | ->]; simpl.
  - destruct (sorted_spec Qleb key_pm25_prediction pm25_value
                (String.eqb order "desc") _ Qleb_total Qleb_trans Hpm)
      as (l' & -> & Hp & Hs).
    simpl. eexists. split; [reflexivity|]. simpl.
    split_and!; try done.
    exists l'. split_and!; [done| |done].
    eapply StronglySorted_mono; [|exact Hs].
    intros a b. unfold ranked, ranks_le. simpl.
    destruct (String.eqb order "desc"); apply Qleb_le.
  - destruct (sorted_spec Z.leb key_population population_value
                (String.eqb order "desc") _ Zleb_total Zleb_trans Hpop)
      as (l' & -> & Hp & Hs).
    simpl. eexists. split; [reflexivity|]. simpl.
    split_and!; try done.
    exists l'. split_and!; [done| |done].
    eapply StronglySorted_mono; [|exact Hs].
    intros a b. unfold ranked, ranks_le. simpl.
    destruct (String.eqb order "desc"); apply Z.leb_le.
Qed.

Lemma py_slice_to_length {A} (limit : Z) (l : list A) :
  0 <= limit → length (py_slice_to limit l) = Nat.min (Z.to_nat limit) (length l).
Proof.
  intros H. unfold py_slice_to.
  destruct (Z.leb_spec 0 limit); [|lia]. apply length_take.
Qed.

(** X25.  For a year from 1976 to 9998: after a batch has been
    computed, a ranking request for the same time, made while the entry of the result cache is younger than
    the time to live and passing the validator, is answered from that
    batch: the statistics are those of the batch, the ranking is the slice
    up to [limit] of its successful districts sorted by the requested key
    (descending for the order [desc], ascending for any other), and the
    best and worst lists are the first five in ascending and in descending
    order of the predicted value.  A limit of at least 0 gives that many
    districts, or all when there are fewer. *)
Theorem ranking_after_batch (districts : list district) (np_sqrt : Q → Q)
    (now now' : datetime) (y m d h mi : Z) (completed : list prediction)
    (t_get t_set t_get' : Q) (stamp : datetime)
    (pc pc1 : PredictionCache.t cached_response) (data : batch_response)
    (info' : window_info) (sort_by order : string) (limit : Z) :
  fixed_offset_year y →
  predict_all_handler districts np_sqrt now y m d h mi completed t_get t_set
    stamp pc = (BatchComputed data, pc1) →
  validate_prediction_request now' y m d h mi = inr (Valid info') →
  (t_get' - t_set < inject_Z (PredictionCache.ttl pc))%Q →
  sort_by = "pm25" ∨ sort_by = "population" →
  ∃ rk,
    get_ranking now' y m d h mi sort_by order limit t_get' pc1
    = (SuccessResponse rk, pc1)
    ∧ rk_prediction_info rk = info'
    ∧ rk_statistics rk = br_statistics data
    ∧ top_of (ranked sort_by order) limit (br_districts data) (rk_ranking rk)
    ∧ top_of (ranked "pm25" "asc") 5 (br_districts data) (rk_best_air_quality rk)
    ∧ top_of (ranked "pm25" "desc") 5 (br_districts data)
        (rk_worst_air_quality rk)
    ∧ (0 <= limit →
       length (rk_ranking rk) = Nat.min (Z.to_nat limit) (length (br_districts data))).
Proof.
  intros _ Hfirst Hvalid Hage Hsort.
  apply predict_all_computed in Hfirst as (Hcollect & _ & -> & Httl).
  apply collect_successes in Hcollect.
  destruct (ranking_of_spec info' (CachedResponse data stamp) sort_by order limit
              Hcollect Hsort)
    as (rk & Hrk & Hinfo & Hstats & Htop & Hbest & Hworst).
  exists rk. unfold get_ranking. rewrite Hvalid. cbn zeta.
  rewrite prediction_get_after_set by (by rewrite prediction_get_ttl).
  simpl. rewrite Hrk. split_and!; try done.
  intros Hlimit. destruct Htop as (l' & Hp & _ & ->).
  rewrite py_slice_to_length by done. by rewrite Hp.
Qed.

Lemma ranking_after_batch_witness :
  let districts :=
    [sample_district;
     District 3 "Quan 3" "District 3" (1078 # 100) (10668 # 100) 190000 (49 # 10)
       "urban"] in
  let completed :=
    [Success 7 "Quan 7" "District 7" (1073 # 100) (10672 # 100) (1830 # 100)
       360000 (357 # 10) "urban" None;
     Success 3 "Quan 3" "District 3" (1078 # 100) (10668 # 100) (2512 # 100)
       190000 (49 # 10) "urban" None] in
  ∃ data pc1,
    predict_all_handler districts (fun x => x) 1764036000000000 2025 11 25 8 0
      completed 100 101 1764036000000000 (PredictionCache.init 1800)
    = (BatchComputed data, pc1)
    ∧ ∃ rk,
        get_ranking 1764037000000000 2025 11 25 8 0 "pm25" "desc" 1 1100 pc1
        = (SuccessResponse rk, pc1)
        ∧ rk_prediction_info rk
          = WindowInfo 1764032400000000 1764036000000000 1764025200000000
              1764028800000000 1764032400000000
        ∧ rk_statistics rk = br_statistics data
        ∧ top_of (ranked "pm25" "desc") 1 (br_districts data) (rk_ranking rk)
        ∧ top_of (ranked "pm25" "asc") 5 (br_districts data)
            (rk_best_air_quality rk)
        ∧ top_of (ranked "pm25" "desc") 5 (br_districts data)
            (rk_worst_air_quality rk)
        ∧ (0 <= 1 →
           length (rk_ranking rk)
           = Nat.min (Z.to_nat 1) (length (br_districts data))).
Proof.
  intros districts completed.
  do 2 eexists. split; [reflexivity|].
  eapply (ranking_after_batch districts (fun x => x) 1764036000000000
            1764037000000000 2025 11 25 8 0 completed 100 101 1100
            1764036000000000 (PredictionCache.init 1800)).
  - unfold fixed_offset_year. lia.
  - reflexivity.
  - reflexivity.
  - reflexivity.
  - by left.
Defined.

Lemma predictor_success_iff_witness :
  let air := fun (_ : Z) (_ : string) (_ _ : Q) =>
    (raise "HTTPError" "503 Server Error" : result air_data) in
  let weather := fun (_ : datetime) (_ _ : Q) =>
    (raise "HTTPError" "unreachable" : result weather_data) in
  let res :=
    predict_pm25_for_district 3 (fun _ => 0%Q) (fun _ => 1%Q) (fun x => x)
      air weather weather unit (fun _ => inr tt) (fun _ => inr 0%Q)
      sample_district 2025 11 25 8 0 "key" [] true 0 0 0 in
  p_status res = StatusSuccess
  ↔ ∃ target_time rows df_features X_scaled prediction,
      localize_datetime 2025 11 25 8 0 = inr target_time
      ∧ fetch_window air weather weather sample_district "key" 0 0 0 target_time
        = inr rows
      ∧ (build_features 3 (fun _ => 0%Q) (fun _ => 1%Q) (fun x => x) rows [] []).1
        = inr df_features
      ∧ (fun _ : DataFrame => (inr tt : result unit)) df_features = inr X_scaled
      ∧ (fun _ : unit => (inr 0%Q : result Q)) X_scaled = inr prediction
      ∧ pm25_of res = Some (round2 prediction).
Proof.
  intros air weather.
  apply (predictor_success_iff 3 (fun _ => 0%Q) (fun _ => 1%Q) (fun x => x)
           air weather weather unit (fun _ => inr tt) (fun _ => inr 0%Q)
           sample_district 2025 11 25 8 0 "key" [] true 0 0 0).
  unfold fixed_offset_year. lia.
Defined.

Lemma predict_single_answers_witness :
  let air := fun (_ : Z) (_ : string) (_ _ : Q) =>
    (raise "HTTPError" "503 Server Error" : result air_data) in
  let weather := fun (_ : datetime) (_ _ : Q) =>
    (raise "HTTPError" "unreachable" : result weather_data) in
  match
    predict_single [sample_district] [] 3 (fun _ => 0%Q) (fun _ => 1%Q)
      (fun x => x) air weather weather unit (fun _ => inr tt)
      (fun _ => inr 0%Q) 1764036000000000 2025 11 25 8 0 7 "key" 0 0 0
  with
  | SuccessResponse (result, info) =>
      validate_prediction_request 1764036000000000 2025 11 25 8 0
      = inr (Valid info)
      ∧ p_status result = StatusSuccess ∧ p_id result = 7
      ∧ ∃ district,
          find_district [sample_district] 7 = Some district
          ∧ result
            = predict_pm25_for_district 3 (fun _ => 0%Q) (fun _ => 1%Q)
                (fun x => x) air weather weather unit (fun _ => inr tt)
                (fun _ => inr 0%Q) district 2025 11 25 8 0 "key" [] true 0 0 0
  | ErrorResponse (INVALID_INPUT error) status_code =>
      status_code = 400
      ∧ localize_datetime 2025 11 25 8 0 = raise "ValueError" error
  | ErrorResponse (VALIDATION code) status_code =>
      status_code = 400
      ∧ validate_prediction_request 1764036000000000 2025 11 25 8 0
        = inr (Rejected code)
  | ErrorResponse (DISTRICT_NOT_FOUND available_ids) status_code =>
      status_code = 404 ∧ available_ids = d_id <$> [sample_district]
      ∧ (7 ∉ d_id <$> [sample_district])
      ∧ ∃ info, validate_prediction_request 1764036000000000 2025 11 25 8 0
                = inr (Valid info)
  | ErrorResponse (PREDICTION_FAILED result) status_code =>
      status_code = 400 ∧ p_status result = StatusError ∧ p_id result = 7
  | ErrorResponse _ _ => False
  end.
Proof.
  intros air weather.
  apply (predict_single_answers [sample_district] [] 3 (fun _ => 0%Q)
           (fun _ => 1%Q) (fun x => x) air weather weather unit
           (fun _ => inr tt) (fun _ => inr 0%Q) 1764036000000000 2025 11 25 8 0 7
           "key" 0 0 0).
  - unfold fixed_offset_year. lia.
  - repeat (apply Forall_cons_2; [unfold c_int; lia|]). apply Forall_nil_2.
Defined.

(** X26.  [clear_all_cache] empties the cache that [create_app] hands to
    the routes and the result cache, and reports both with size 0.  The
    cache of the lookups is another object and keeps every reading.  After
    the call a ranking request for an accepted time is answered 404
    NO_PREDICTION_DATA, and a batch request is computed, not served from
    the cache. *)
Theorem clear_all_cache_scope (c : caches) :
  let r := clear_all_cache c in
  r.1.1 = (0, CacheManager.max_size (app_cache c))
  ∧ r.1.2 = (0, PredictionCache.ttl (prediction_cache c))
  ∧ fetcher_cache r.2 = fetcher_cache c
  ∧ (∀ now y m d h mi info sort_by order limit t_get,
       validate_prediction_request now y m d h mi = inr (Valid info) →
       (get_ranking now y m d h mi sort_by order limit t_get
          (prediction_cache r.2)).1
       = ErrorResponse NO_PREDICTION_DATA 404)
  ∧ (∀ districts np_sqrt now y m d h mi completed t_get t_set stamp,
       ∀ cached_result,
         (predict_all_handler districts np_sqrt now y m d h mi completed t_get
            t_set stamp (prediction_cache r.2)).1
         ≠ BatchCached cached_result).
Proof.
  cbn zeta. unfold clear_all_cache. simpl. split_and!; try done.
  - intros now y m d h mi info sort_by order limit t_get Hv.
    unfold get_ranking. by rewrite Hv.
  - intros districts np_sqrt now y m d h mi completed t_get t_set stamp c'.
    unfold predict_all_handler.
    destruct (validate_prediction_request _ _ _ _ _ _) as [e|[code|info]].
    + simpl. destruct (except_value_error_is_error e) as (? & ? & ->).
      discriminate.
    + discriminate.
    + simpl. destruct (collect _ _ _) as [e|data]; simpl; [|discriminate].
      destruct (except_value_error_is_error e) as (? & ? & ->). discriminate.
Qed.

(** ** Map data *)




